(** * Shallow embedding of the heuristic analysis pipeline of
    repo_analyzer_ai ([.analysis_report/*.py]).

    Conventions of the embedding:
    - Python [int] is [Z]; Python [float] arithmetic is modelled with exact
      rationals [Q] (the claims below are about signs, set membership and
      rounding, which the exact model preserves);
    - Python [str] is [string]; [s.lower()] is ASCII lower-casing and
      [p in s] is the substring test [contains p s];
    - a [datetime] is its POSIX time in seconds ([Z]);
    - a Python [dict] iterated in insertion order is an association list;
    - [sorted(xs, key=k, reverse=True)] is the stable descending insertion
      sort [sort_desc k];
    - a Python exception is the left injection of a sum type. *)

From Stdlib Require Import ZArith QArith Qround String Ascii List Bool Lia.
From Stdlib Require Import Sorted Permutation.
From Stdlib Require Import Lqa.
Import ListNotations.

Local Open Scope Z_scope.
Local Open Scope string_scope.

(** ** Shared helpers: strings, sorting, counting *)
Module Py.

(** ASCII [str.lower]. *)
Definition lower_char (c : ascii) : ascii :=
  let n := nat_of_ascii c in
  if (Nat.leb 65 n && Nat.leb n 90)%bool then ascii_of_nat (n + 32) else c.

Fixpoint lower (s : string) : string :=
  match s with
  | EmptyString => EmptyString
  | String c s' => String (lower_char c) (lower s')
  end.

(** [pat in s] for two strings. *)
Fixpoint contains (pat s : string) : bool :=
  if String.prefix pat s then true
  else match s with
       | EmptyString => false
       | String _ s' => contains pat s'
       end.

(** [any(p in s for p in pats)]. *)
Definition any_in (pats : list string) (s : string) : bool :=
  existsb (fun p => contains p s) pats.

(** [xs in [...]] on strings. *)
Definition str_mem (x : string) (xs : list string) : bool :=
  existsb (String.eqb x) xs.

(** Decimal rendering of an integer (f-string interpolation). *)
Fixpoint digits_aux (fuel n : nat) (acc : string) : string :=
  match fuel with
  | O => acc
  | S f =>
      let acc' := String (ascii_of_nat (48 + Nat.modulo n 10)) acc in
      if Nat.ltb n 10 then acc' else digits_aux f (Nat.div n 10) acc'
  end.

Definition str_of_Z (z : Z) : string :=
  if Z.ltb z 0 then "-" ++ digits_aux (S (Z.to_nat (- z))) (Z.to_nat (- z)) EmptyString
  else digits_aux (S (Z.to_nat z)) (Z.to_nat z) EmptyString.

(** [a < b] on exact rationals. *)
Definition Qlt_bool (a b : Q) : bool := negb (Qle_bool b a).

(** [sorted(xs, key=key, reverse=True)]: Python's sort is stable and
    keeps equal keys in their original order also when [reverse=True]. *)
Fixpoint insert_desc {A} (key : A -> Q) (x : A) (l : list A) : list A :=
  match l with
  | [] => [x]
  | y :: l' => if Qlt_bool (key y) (key x) then x :: y :: l'
               else y :: insert_desc key x l'
  end.

Definition sort_desc {A} (key : A -> Q) (l : list A) : list A :=
  fold_left (fun acc x => insert_desc key x acc) l [].

(** Python's [round(x, 1)]: the exact value rounded half to even. *)
Definition round_half_even (x : Q) : Z :=
  let f := Qfloor x in
  match Qcompare (x - inject_Z f) (1 # 2) with
  | Lt => f
  | Gt => f + 1
  | Eq => if Z.even f then f else f + 1
  end.

Definition round1 (x : Q) : Q := round_half_even (x * 10) # 10.

(** [max(a, b)] returns [b] only when [b > a]. *)
Definition pymax (a b : Q) : Q := if Qlt_bool a b then b else a.

Definition QofZ (z : Z) : Q := inject_Z z.
Definition Qofnat (n : nat) : Q := inject_Z (Z.of_nat n).


(** A [dict] as an association list in insertion order. *)
Fixpoint dict_get {K V} (eqb : K -> K -> bool) (k : K) (d : list (K * V))
  : option V :=
  match d with
  | [] => None
  | (k', v) :: d' => if eqb k k' then Some v else dict_get eqb k d'
  end.

(** [d[k] = v]: an existing key keeps its position. *)
Fixpoint dict_set {K V} (eqb : K -> K -> bool) (k : K) (v : V) (d : list (K * V))
  : list (K * V) :=
  match d with
  | [] => [(k, v)]
  | (k', v') :: d' => if eqb k k' then (k', v) :: d' else (k', v') :: dict_set eqb k v d'
  end.

Definition is_upper (c : ascii) : bool :=
  let n := nat_of_ascii c in (Nat.leb 65 n && Nat.leb n 90)%bool.
Definition is_lower (c : ascii) : bool :=
  let n := nat_of_ascii c in (Nat.leb 97 n && Nat.leb n 122)%bool.
Definition upper_char (c : ascii) : ascii :=
  if is_lower c then ascii_of_nat (nat_of_ascii c - 32) else c.

(** ASCII [str.title]: a cased character is upper-cased after an uncased
    one and lower-cased after a cased one. *)
Fixpoint title_aux (prev_cased : bool) (s : string) : string :=
  match s with
  | EmptyString => EmptyString
  | String c s' =>
      if (is_upper c || is_lower c)%bool
      then String (if prev_cased then lower_char c else upper_char c) (title_aux true s')
      else String c (title_aux false s')
  end.
Definition title (s : string) : string := title_aux false s.

(** [s.replace(a, b)] for single characters. *)
Fixpoint replace_char (a b : ascii) (s : string) : string :=
  match s with
  | EmptyString => EmptyString
  | String c s' => String (if Ascii.eqb c a then b else c) (replace_char a b s')
  end.

(** [s.endswith(suf)]. *)
Definition endswith (suf s : string) : bool :=
  Nat.leb (String.length suf) (String.length s)
  && String.eqb (substring (String.length s - String.length suf)
                           (String.length suf) s) suf.

(** Python's [min(a, b)]: [a] unless [b < a]. *)
Definition pymin (a b : Q) : Q := if Qlt_bool b a then b else a.

(** [len(s.split(c))] for a one-character separator [c]. *)
Fixpoint count_char (c : ascii) (s : string) : nat :=
  match s with
  | EmptyString => O
  | String c' s' => if Ascii.eqb c c' then S (count_char c s') else count_char c s'
  end.

(** [f'{x:.2f}']: the value rounded half to even at two decimals; a negative
    value keeps its sign even when it rounds to zero. *)
Definition two_digits (n : Z) : string :=
  if Z.ltb n 10 then "0" ++ str_of_Z n else str_of_Z n.

Definition fmt2f (x : Q) : string :=
  let z := round_half_even (x * 100) in
  let a := Z.abs z in
  (if Qlt_bool x 0 then "-" else EmptyString)
  ++ str_of_Z (a / 100) ++ "." ++ two_digits (a mod 100).

End Py.

(** ** [git_analyzer.py] records *)
Module Git.

(** [CommitInfo]. *)
Record CommitInfo := {
  hash : string;
  author : string;
  author_email : string;
  date : Z;
  message : string;
  files_changed : Z;
  lines_added : Z;
  lines_deleted : Z;
  is_merge : bool;
  branch : string
}.

End Git.

(** ** [config.py] *)
Module Config.
Import Py.

(** [ComplexityThresholds] (floats as exact rationals). *)
Record ComplexityThresholds := {
  LOW_COMPLEXITY_LOC : Z;
  MEDIUM_COMPLEXITY_LOC : Z;
  LOW_COMPLEXITY_COMMITS : Z;
  MEDIUM_COMPLEXITY_COMMITS : Z;
  LOW_COMPLEXITY_MULTIPLIER : Q;
  MEDIUM_COMPLEXITY_MULTIPLIER : Q;
  HIGH_COMPLEXITY_MULTIPLIER : Q;
  TESTING_BUFFER : Q;
  DOCUMENTATION_BUFFER : Q;
  TOTAL_BUFFER : Q
}.

(** The dataclass defaults. *)
Definition default_thresholds : ComplexityThresholds := {|
  LOW_COMPLEXITY_LOC := 100;
  MEDIUM_COMPLEXITY_LOC := 500;
  LOW_COMPLEXITY_COMMITS := 3;
  MEDIUM_COMPLEXITY_COMMITS := 8;
  LOW_COMPLEXITY_MULTIPLIER := 3 # 2;
  MEDIUM_COMPLEXITY_MULTIPLIER := 3;
  HIGH_COMPLEXITY_MULTIPLIER := 6;
  TESTING_BUFFER := 15 # 100;
  DOCUMENTATION_BUFFER := 5 # 100;
  TOTAL_BUFFER := 20 # 100
|}.

(** [AnalysisConfig.get_complexity_level]. *)
Definition get_complexity_level (c : ComplexityThresholds) (loc commit_count : Z)
  : string :=
  if (Z.leb loc (LOW_COMPLEXITY_LOC c)) && (Z.leb commit_count (LOW_COMPLEXITY_COMMITS c))
  then "low"
  else if (Z.leb loc (MEDIUM_COMPLEXITY_LOC c))
          && (Z.leb commit_count (MEDIUM_COMPLEXITY_COMMITS c))
  then "medium"
  else "high".

(** [AnalysisConfig.get_time_estimate]: [multipliers.get(complexity, 3.0)]. *)
Definition get_time_estimate (c : ComplexityThresholds) (complexity : string)
  (commit_count : Z) : Q :=
  let multiplier :=
    if String.eqb complexity "low" then LOW_COMPLEXITY_MULTIPLIER c
    else if String.eqb complexity "medium" then MEDIUM_COMPLEXITY_MULTIPLIER c
    else if String.eqb complexity "high" then HIGH_COMPLEXITY_MULTIPLIER c
    else 3%Q in
  let base_hours := (multiplier * QofZ commit_count)%Q in
  let total_hours := (base_hours * (1 + TOTAL_BUFFER c))%Q in
  round1 total_hours.

(** [AnalysisConfig.get_confidence_score]. *)
Definition get_confidence_score (data_quality : Q) (sample_size : Z) : Q :=
  let confidence := data_quality in
  let confidence :=
    if Z.leb 100 sample_size then (confidence * 1)%Q
    else if Z.leb 50 sample_size then (confidence * (9 # 10))%Q
    else if Z.leb 20 sample_size then (confidence * (8 # 10))%Q
    else if Z.leb 10 sample_size then (confidence * (7 # 10))%Q
    else (confidence * (5 # 10))%Q in
  pymin confidence 1.

End Config.

(** ** [feature_mapper.py] *)
Module FeatureMapper.
Import Py Config Git.

(** [Feature]; dates are POSIX seconds. *)
Record Feature := {
  name : string;
  description : string;
  complexity : string;
  status : string;
  estimated_hours : Q;
  actual_hours : option Q;
  commit_count : Z;
  lines_of_code : Z;
  business_value : string;
  priority : string;
  risk_level : string;
  confidence : Q;
  start_date : option Z;
  end_date : option Z;
  dependencies : list string;
  tags : list string
}.

(** The per-feature dict built by the extractors: keys [commits],
    [lines_changed], [start_date], [end_date], [tags]; the extractors never
    set a [dependencies] key, so [fd_dependencies] is [None] for them. *)
Record FeatureData := {
  fd_commits : list CommitInfo;
  fd_lines_changed : Z;
  fd_start_date : option Z;
  fd_end_date : option Z;
  fd_tags : list string;
  fd_dependencies : option (list string)
}.

Definition fd_set_tags (d : FeatureData) (t : list string) : FeatureData :=
  {| fd_commits := fd_commits d; fd_lines_changed := fd_lines_changed d;
     fd_start_date := fd_start_date d; fd_end_date := fd_end_date d;
     fd_tags := t; fd_dependencies := fd_dependencies d |}.

Definition set_complexity (f : Feature) (c : string) : Feature :=
  {| name := name f; description := description f; complexity := c;
     status := status f; estimated_hours := estimated_hours f;
     actual_hours := actual_hours f; commit_count := commit_count f;
     lines_of_code := lines_of_code f; business_value := business_value f;
     priority := priority f; risk_level := risk_level f;
     confidence := confidence f; start_date := start_date f;
     end_date := end_date f; dependencies := dependencies f; tags := tags f |}.

Definition set_estimated_hours (f : Feature) (h : Q) : Feature :=
  {| name := name f; description := description f; complexity := complexity f;
     status := status f; estimated_hours := h;
     actual_hours := actual_hours f; commit_count := commit_count f;
     lines_of_code := lines_of_code f; business_value := business_value f;
     priority := priority f; risk_level := risk_level f;
     confidence := confidence f; start_date := start_date f;
     end_date := end_date f; dependencies := dependencies f; tags := tags f |}.

Section Mapper.
(** [self.config.complexity]. *)
Variable cfg : ComplexityThresholds.

(** [FeatureMapper.assess_complexity]; the risk test compares with the
    lower-case literal ['high'], as the source does. *)
Definition assess_complexity (feature : Feature) : string :=
  let complexity := get_complexity_level cfg (lines_of_code feature)
                      (commit_count feature) in
  let complexity :=
    if (negb (match dependencies feature with [] => true | _ => false end))
       && (Nat.ltb 3 (length (dependencies feature)))
    then if String.eqb complexity "low" then "medium"
         else if String.eqb complexity "medium" then "high"
         else complexity
    else complexity in
  let complexity :=
    if String.eqb (risk_level feature) "high"
    then if String.eqb complexity "low" then "medium"
         else if String.eqb complexity "medium" then "high"
         else complexity
    else complexity in
  complexity.

(** [FeatureMapper.estimate_development_time]. *)
Definition estimate_development_time (feature : Feature) : Q :=
  let base_hours := get_time_estimate cfg (complexity feature)
                      (commit_count feature) in
  let adjustments := 1%Q in
  let adjustments :=
    if String.eqb (business_value feature) "Critical" then (adjustments * (12 # 10))%Q
    else if String.eqb (business_value feature) "Minimal" then (adjustments * (8 # 10))%Q
    else adjustments in
  let adjustments :=
    if String.eqb (risk_level feature) "High" then (adjustments * (13 # 10))%Q
    else if String.eqb (risk_level feature) "Low" then (adjustments * (9 # 10))%Q
    else adjustments in
  let adjustments :=
    match dependencies feature with
    | [] => adjustments
    | _ => (adjustments * (1 + Qofnat (length (dependencies feature)) * (1 # 10)))%Q
    end in
  round1 (base_hours * adjustments).


(** [FeatureMapper._determine_feature_status]. *)
Definition _determine_feature_status (d : FeatureData) : string :=
  match fd_end_date d, fd_start_date d with
  | Some _, _ => "completed"
  | None, Some _ => "in_progress"
  | None, None => "planned"
  end.

(** [FeatureMapper._determine_business_value]. *)
Definition _determine_business_value (feature_name : string) (d : FeatureData)
  : string :=
  let name_lower := lower feature_name in
  if any_in ["auth"; "payment"; "user"; "core"; "main"; "critical"] name_lower
  then "High"
  else if any_in ["api"; "service"; "component"; "feature"] name_lower
  then "Medium"
  else "Medium".

(** [FeatureMapper._determine_priority]. *)
Definition _determine_priority (feature_name : string) (d : FeatureData) : string :=
  let bv := _determine_business_value feature_name d in
  if String.eqb bv "High" then "High"
  else if String.eqb bv "Medium" then "Medium"
  else "Low".

(** [FeatureMapper._determine_risk_level]: [feature_data.get('dependencies', [])]. *)
Definition _determine_risk_level (d : FeatureData) : string :=
  let deps := match fd_dependencies d with Some l => l | None => [] end in
  if Z.ltb 1000 (fd_lines_changed d) then "High"
  else if Nat.ltb 5 (length deps) then "High"
  else if Z.ltb 500 (fd_lines_changed d) then "Medium"
  else if Nat.ltb 2 (length deps) then "Medium"
  else "Low".

(** [FeatureMapper._calculate_feature_confidence]. *)
Definition _calculate_feature_confidence (d : FeatureData) : Q :=
  let c := (5 # 10)%Q in
  let c := match fd_commits d with [] => c | _ => (c + (2 # 10))%Q end in
  let c := match fd_start_date d, fd_end_date d with
           | Some _, Some _ => (c + (1 # 10))%Q | _, _ => c end in
  let c := if Z.ltb 0 (fd_lines_changed d) then (c + (1 # 10))%Q else c in
  let c := match fd_tags d with [] => c | _ => (c + (1 # 10))%Q end in
  if Qle_bool c 1 then c else 1%Q.

(** [FeatureMapper._generate_feature_description]. *)
Definition _generate_feature_description (feature_name : string) (d : FeatureData)
  : string :=
  let kind :=
    match fd_tags d with
    | [] => "Development work"
    | t => if str_mem "feature" t then "Feature implementation"
           else if str_mem "bugfix" t then "Bug fix"
           else if str_mem "refactor" t then "Code refactoring"
           else "Development work"
    end in
  let parts := [kind] in
  let parts := if Z.ltb 0 (fd_lines_changed d)
               then app parts ["affecting " ++ str_of_Z (fd_lines_changed d)
                               ++ " lines of code"]
               else parts in
  let parts := match fd_commits d with
               | [] => parts
               | cs => app parts ["with " ++ str_of_Z (Z.of_nat (length cs))
                                  ++ " commits"]
               end in
  String.concat " " parts.

(** [FeatureMapper._extract_dependencies]. *)
Definition _extract_dependencies (d : FeatureData) : list string :=
  let deps := [] in
  let deps := if str_mem "api" (fd_tags d) then app deps ["Backend API"] else deps in
  let deps := if str_mem "database" (fd_tags d) then app deps ["Database"] else deps in
  let deps := if str_mem "ui" (fd_tags d) then app deps ["UI Components"] else deps in
  deps.

(** [FeatureMapper._create_feature_object]: none of the helpers raises, so
    the [except] branch is unreachable and the object is always built;
    complexity and hours are then overwritten on the object. *)
Definition _create_feature_object (feature_name : string) (d : FeatureData)
  (commits : list CommitInfo) : Feature :=
  let feature := {|
    name := feature_name;
    description := _generate_feature_description feature_name d;
    complexity := "medium";
    status := _determine_feature_status d;
    estimated_hours := 0%Q;
    actual_hours := None;
    commit_count := Z.of_nat (length (fd_commits d));
    lines_of_code := fd_lines_changed d;
    business_value := _determine_business_value feature_name d;
    priority := _determine_priority feature_name d;
    risk_level := _determine_risk_level d;
    confidence := _calculate_feature_confidence d;
    start_date := fd_start_date d;
    end_date := fd_end_date d;
    dependencies := _extract_dependencies d;
    tags := fd_tags d |} in
  let feature := set_complexity feature (assess_complexity feature) in
  let feature := set_estimated_hours feature (estimate_development_time feature) in
  feature.

(** [FeatureMapper._is_feature_directory]. *)
Definition _is_feature_directory (directory : string) : bool :=
  any_in ["feature"; "component"; "module"; "service"; "api";
          "controller"; "model"; "view"; "page"; "screen"] (lower directory).

Fixpoint remove_first_prefix (prefixes : list string) (n : string) : string :=
  match prefixes with
  | [] => n
  | p :: ps => if String.prefix p n
               then substring (String.length p) (String.length n - String.length p) n
               else remove_first_prefix ps n
  end.

Fixpoint remove_first_suffix (suffixes : list string) (n : string) : string :=
  match suffixes with
  | [] => n
  | p :: ps => if endswith p n
               then substring 0 (String.length n - String.length p) n
               else remove_first_suffix ps n
  end.

(** [FeatureMapper._extract_feature_name_from_directory]. *)
Definition _extract_feature_name_from_directory (directory : string) : string :=
  let n := remove_first_prefix ["src/"; "app/"; "components/"; "features/"; "modules/"]
             directory in
  let n := remove_first_suffix ["/"; "-component"; "-module"; "-feature"] n in
  title (replace_char "_" " " (replace_char "-" " " n)).

(** [FeatureMapper._extract_features_from_structure];
    [repo_structure.get('directories', [])] is [directories]. *)
Definition _extract_features_from_structure (directories : list string)
  : list (string * FeatureData) :=
  fold_left (fun features directory =>
    if _is_feature_directory directory then
      let feature_name := _extract_feature_name_from_directory directory in
      match feature_name with
      | EmptyString => features
      | _ => dict_set String.eqb feature_name
               {| fd_commits := []; fd_lines_changed := 0;
                  fd_start_date := None; fd_end_date := None;
                  fd_tags := ["structure-based"]; fd_dependencies := None |}
               features
      end
    else features) directories [].

(** [FeatureMapper._merge_features]: a directory feature whose name is
    already present extends the existing tag list. *)
Definition _merge_features (commit_features dir_features : list (string * FeatureData))
  : list (string * FeatureData) :=
  let merged := fold_left (fun m '(n, d) => dict_set String.eqb n d m)
                  commit_features [] in
  fold_left (fun m '(n, d) =>
    match dict_get String.eqb n m with
    | Some e => dict_set String.eqb n (fd_set_tags e (app (fd_tags e) (fd_tags d))) m
    | None => dict_set String.eqb n d m
    end) dir_features merged.

(** [FeatureMapper._extract_features_from_commits] parses messages with
    regular expressions; the results below hold for every dict it may
    return, so it is a parameter of the development. *)
Variable _extract_features_from_commits :
  list CommitInfo -> list (string * FeatureData).

(** [FeatureMapper.identify_features]. *)
Definition identify_features (commits : list CommitInfo) (directories : list string)
  : list Feature :=
  let commit_features := _extract_features_from_commits commits in
  let dir_features := _extract_features_from_structure directories in
  let all_features := _merge_features commit_features dir_features in
  let features := map (fun '(n, d) => _create_feature_object n d commits)
                    all_features in
  sort_desc estimated_hours features.

(** [FeatureMapper._determine_feature_group]. *)
Definition _determine_feature_group (feature : Feature) : string :=
  let name_lower := lower (name feature) in
  if any_in ["ui"; "component"; "page"; "screen"; "view"] name_lower then "User Interface"
  else if any_in ["api"; "service"; "controller"; "model"] name_lower then "Backend Services"
  else if any_in ["config"; "setup"; "deploy"; "docker"] name_lower then "Infrastructure"
  else if any_in ["database"; "data"; "storage"; "cache"] name_lower then "Data Management"
  else "Core Features".

(** [impact_scores.get(f.business_value, 3)]. *)
Definition impact_score (bv : string) : Z :=
  if String.eqb bv "Critical" then 5
  else if String.eqb bv "High" then 4
  else if String.eqb bv "Medium" then 3
  else if String.eqb bv "Low" then 2
  else if String.eqb bv "Minimal" then 1
  else 3.

(** [FeatureMapper._determine_group_business_impact]. *)
Definition _determine_group_business_impact (features : list Feature) : string :=
  match features with
  | [] => "Low"
  | _ =>
      let total_score := fold_left (fun acc f => acc + impact_score (business_value f))
                           features 0 in
      let average_score := (QofZ total_score / Qofnat (length features))%Q in
      if Qle_bool (45 # 10) average_score then "Critical"
      else if Qle_bool (35 # 10) average_score then "High"
      else if Qle_bool (25 # 10) average_score then "Medium"
      else if Qle_bool (15 # 10) average_score then "Low"
      else "Minimal"
  end.

(** [complexity_scores[f.complexity]]: [None] is the [KeyError]. *)
Definition complexity_scores (c : string) : option Z :=
  if String.eqb c "low" then Some 1
  else if String.eqb c "medium" then Some 2
  else if String.eqb c "high" then Some 3
  else None.

(** [sum(complexity_scores[f.complexity] for f in group_features)]. *)
Fixpoint sum_complexity_scores (fs : list Feature) : option Z :=
  match fs with
  | [] => Some 0
  | f :: fs' =>
      match complexity_scores (complexity f) with
      | None => None
      | Some v => match sum_complexity_scores fs' with
                  | None => None
                  | Some t => Some (v + t)
                  end
      end
  end.

(** [FeatureGroup]. *)
Record FeatureGroup := {
  fg_name : string;
  fg_features : list Feature;
  total_hours : Q;
  average_complexity : string;
  business_impact : string
}.

Definition make_group (group_name : string) (group_features : list Feature)
  : option FeatureGroup :=
  let total := fold_left (fun acc f => (acc + estimated_hours f)%Q) group_features 0%Q in
  match sum_complexity_scores group_features with
  | None => None
  | Some s =>
      let avg_complexity_score := (QofZ s / Qofnat (length group_features))%Q in
      let avg_complexity :=
        if Qle_bool avg_complexity_score (15 # 10) then "low"
        else if Qle_bool avg_complexity_score (25 # 10) then "medium"
        else "high" in
      Some {| fg_name := group_name; fg_features := group_features;
              total_hours := total; average_complexity := avg_complexity;
              business_impact := _determine_group_business_impact group_features |}
  end.

Fixpoint make_groups (groups : list (string * list Feature))
  : option (list FeatureGroup) :=
  match groups with
  | [] => Some []
  | (n, fs) :: gs =>
      match make_group n fs with
      | None => None
      | Some g => match make_groups gs with
                  | None => None
                  | Some rest => Some (g :: rest)
                  end
      end
  end.

(** [FeatureMapper.group_features]; [None] when a complexity lookup raises. *)
Definition group_step (g : list (string * list Feature)) (feature : Feature)
  : list (string * list Feature) :=
  let group_name := _determine_feature_group feature in
  match dict_get String.eqb group_name g with
  | Some l => dict_set String.eqb group_name (app l [feature]) g
  | None => dict_set String.eqb group_name [feature] g
  end.

Definition group_features (features : list Feature) : option (list FeatureGroup) :=
  let groups := fold_left group_step features [] in
  match make_groups groups with
  | None => None
  | Some fgs => Some (sort_desc total_hours fgs)
  end.

End Mapper.
End FeatureMapper.

(** ** [git_analyzer.py]: commit pattern analysis *)
Module GitAnalyzer.
Import Py Git.

(** [GitAnalysisConfig]. *)
Record GitAnalysisConfig := {
  FEATURE_PATTERNS : list string;
  BUG_FIX_PATTERNS : list string;
  REFACTOR_PATTERNS : list string;
  DOCUMENTATION_PATTERNS : list string;
  MAX_COMMIT_HISTORY : Z;
  MIN_COMMIT_LENGTH : Z;
  IGNORE_MERGE_COMMITS : bool
}.

(** The values set by [GitAnalysisConfig.__post_init__]. *)
Definition default_git_config : GitAnalysisConfig := {|
  FEATURE_PATTERNS := ["feat:"; "feature:"; "add:"; "implement:"; "new:"; "create:"; "build:"];
  BUG_FIX_PATTERNS := ["fix:"; "bugfix:"; "bug:"; "resolve:"; "patch:"; "correct:"];
  REFACTOR_PATTERNS := ["refactor:"; "refactor:"; "cleanup:"; "restructure:"; "optimize:"];
  DOCUMENTATION_PATTERNS := ["docs:"; "documentation:"; "readme:"; "comment:"; "update docs:"];
  MAX_COMMIT_HISTORY := 10000;
  MIN_COMMIT_LENGTH := 10;
  IGNORE_MERGE_COMMITS := true
|}.

(** [CommitPattern]. *)
Record CommitPattern := {
  total_commits : Z;
  feature_commits : Z;
  bug_fix_commits : Z;
  refactor_commits : Z;
  documentation_commits : Z;
  merge_commits : Z;
  average_commits_per_day : Q;
  commit_frequency_trend : string;
  most_active_days : list string;
  commit_message_quality : Q
}.

(** [datetime] helpers on POSIX seconds (1970-01-01 was a Thursday). *)
Definition day_of (t : Z) : Z := t / 86400.
Definition weekday (t : Z) : Z := (day_of t + 3) mod 7.

(** [week_start.strftime('%Y-%W')] for [week_start] the Monday of the
    commit's week: distinct Mondays give distinct keys, and the
    zero-padded keys sort chronologically, so the key is the day number
    of that Monday. *)
Definition week_key (c : CommitInfo) : Z := day_of (date c) - weekday (date c).

Fixpoint insert_asc (x : Z) (l : list Z) : list Z :=
  match l with
  | [] => [x]
  | y :: l' => if Z.leb x y then x :: y :: l' else y :: insert_asc x l'
  end.

Definition sort_asc (l : list Z) : list Z := fold_right insert_asc [] l.

Definition sum_weeks (weekly : list (Z * Z)) (weeks : list Z) : Z :=
  fold_left (fun acc w => acc + match dict_get Z.eqb w weekly with
                                | Some n => n | None => 0 end) weeks 0.

(** [weekly_commits]: a [defaultdict(int)] keyed by week. *)
Definition weekly_counts (commits : list CommitInfo) : list (Z * Z) :=
  fold_left (fun weekly c =>
    let k := week_key c in
    match dict_get Z.eqb k weekly with
    | Some n => dict_set Z.eqb k (n + 1) weekly
    | None => dict_set Z.eqb k 1 weekly
    end) commits [].

(** [GitAnalyzer._analyze_commit_frequency_trend]; [weeks[-len(weeks)//3:]]
    starts at [len + (-len) // 3] (floor division). *)
Definition _analyze_commit_frequency_trend (commits : list CommitInfo) : string :=
  if Nat.ltb (length commits) 10 then "insufficient_data"
  else
    let weekly := weekly_counts commits in
    if Nat.ltb (length weekly) 3 then "insufficient_data"
    else
      let weeks := sort_asc (map fst weekly) in
      let n := Z.of_nat (length weeks) in
      let early := sum_weeks weekly (firstn (Z.to_nat (n / 3)) weeks) in
      let late := sum_weeks weekly (skipn (Z.to_nat (n + (- n) / 3)) weeks) in
      if Qlt_bool (QofZ early * (12 # 10)) (QofZ late) then "increasing"
      else if Qlt_bool (QofZ late) (QofZ early * (8 # 10)) then "decreasing"
      else "stable".

Definition day_names : list string :=
  ["Monday"; "Tuesday"; "Wednesday"; "Thursday"; "Friday"; "Saturday"; "Sunday"].

(** [GitAnalyzer._find_most_active_days]: [Counter.most_common(3)], i.e. a
    stable descending sort of the counts in first-seen order. *)
Definition _find_most_active_days (commits : list CommitInfo) : list string :=
  let day_counts := fold_left (fun m c =>
      let d := nth (Z.to_nat (weekday (date c))) day_names "Sunday" in
      match dict_get String.eqb d m with
      | Some n => dict_set String.eqb d (n + 1) m
      | None => dict_set String.eqb d 1 m
      end) commits [] in
  map fst (firstn 3 (sort_desc (fun dc => QofZ (snd dc)) day_counts)).

(** ASCII whitespace as [str.strip] sees it. *)
Definition is_space (c : ascii) : bool :=
  let n := nat_of_ascii c in
  ((Nat.leb 9 n && Nat.leb n 13) || (Nat.leb 28 n && Nat.leb n 32))%bool.

Fixpoint lstrip (s : string) : string :=
  match s with
  | EmptyString => EmptyString
  | String c s' => if is_space c then lstrip s' else s
  end.

Fixpoint rev_str (s : string) (acc : string) : string :=
  match s with
  | EmptyString => acc
  | String c s' => rev_str s' (String c acc)
  end.

Definition strip (s : string) : string :=
  rev_str (lstrip (rev_str (lstrip s) EmptyString)) EmptyString.

Definition newline : ascii := ascii_of_nat 10.

(** [\(.+\):] after the opening parenthesis: [.] matches no newline. *)
Fixpoint paren_scope_colon (t : string) (nonempty : bool) : bool :=
  match t with
  | EmptyString => false
  | String c t' =>
      if Ascii.eqb c newline then false
      else ((nonempty && Ascii.eqb c ")" && String.prefix ":" t')
            || paren_scope_colon t' true)%bool
  end.

(** [re.match(r'^(feat|fix|docs|style|refactor|test|chore)(\(.+\))?:', m)]. *)
Definition conventional_match (m : string) : bool :=
  existsb (fun w =>
    String.prefix w m &&
    (let rest := substring (String.length w) (String.length m - String.length w) m in
     String.prefix ":" rest
     || match rest with
        | String c t => Ascii.eqb c "(" && paren_scope_colon t false
        | EmptyString => false
        end))%bool
    ["feat"; "fix"; "docs"; "style"; "refactor"; "test"; "chore"].

(** [GitAnalyzer._assess_commit_message_quality]. *)
Definition _assess_commit_message_quality (commits : list CommitInfo) : Q :=
  match commits with
  | [] => 0%Q
  | _ =>
      let score c :=
        let m := strip (message c) in
        let s := 0%Q in
        let s := if Nat.leb 10 (String.length m) then (s + (3 # 10))%Q else s in
        let s := if conventional_match m then (s + (4 # 10))%Q else s in
        let s := if contains (String newline EmptyString) m then (s + (3 # 10))%Q else s in
        s in
      (fold_left (fun acc c => acc + score c) commits 0 / Qofnat (length commits))%Q
  end.

(** The per-commit counters of [_analyze_commit_patterns]:
    (feature, bug fix, refactor, documentation, merge). *)
Definition count_step (cfg : GitAnalysisConfig) (acc : Z * Z * Z * Z * Z)
  (commit : CommitInfo) : Z * Z * Z * Z * Z :=
  let '(f, b, r, d, m) := acc in
  let message_lower := lower (message commit) in
  let '(f, b, r, d) :=
    if any_in (FEATURE_PATTERNS cfg) message_lower then (f + 1, b, r, d)
    else if any_in (BUG_FIX_PATTERNS cfg) message_lower then (f, b + 1, r, d)
    else if any_in (REFACTOR_PATTERNS cfg) message_lower then (f, b, r + 1, d)
    else if any_in (DOCUMENTATION_PATTERNS cfg) message_lower then (f, b, r, d + 1)
    else (f, b, r, d) in
  let m := if is_merge commit then m + 1 else m in
  (f, b, r, d, m).

Definition min_date (d : Z) (l : list CommitInfo) : Z :=
  fold_left (fun a c => Z.min a (date c)) l d.
Definition max_date (d : Z) (l : list CommitInfo) : Z :=
  fold_left (fun a c => Z.max a (date c)) l d.

(** [GitAnalyzer._analyze_commit_patterns]. *)
Definition _analyze_commit_patterns (cfg : GitAnalysisConfig) (commits : list CommitInfo)
  : CommitPattern :=
  match commits with
  | [] => {| total_commits := 0; feature_commits := 0; bug_fix_commits := 0;
             refactor_commits := 0; documentation_commits := 0; merge_commits := 0;
             average_commits_per_day := 0%Q; commit_frequency_trend := "unknown";
             most_active_days := []; commit_message_quality := 0%Q |}
  | c0 :: rest =>
      let '(f, b, r, d, m) := fold_left (count_step cfg) commits (0, 0, 0, 0, 0) in
      let first_date := min_date (date c0) rest in
      let last_date := max_date (date c0) rest in
      let total_days := (last_date - first_date) / 86400 + 1 in
      let average_commits_per_day :=
        (Qofnat (length commits) / QofZ (Z.max total_days 1))%Q in
      {| total_commits := Z.of_nat (length commits);
         feature_commits := f; bug_fix_commits := b;
         refactor_commits := r; documentation_commits := d; merge_commits := m;
         average_commits_per_day := average_commits_per_day;
         commit_frequency_trend := _analyze_commit_frequency_trend commits;
         most_active_days := _find_most_active_days commits;
         commit_message_quality := _assess_commit_message_quality commits |}
  end.


(** [AuthorStats]; [first_commit] and [last_commit] are [None] until a
    commit of the author is seen. *)
Record AuthorStats := mkAuthorStats {
  name : string;
  email : string;
  commit_count : Z;
  total_lines_added : Z;
  total_lines_deleted : Z;
  first_commit : option Z;
  last_commit : option Z;
  commit_frequency : Q;
  average_commit_size : Q;
  contribution_percentage : Q
}.

(** The per-author entry of the [defaultdict] of [analyze_developers]. *)
Record AuthorAcc := {
  acc_commits : list CommitInfo;
  acc_lines_added : Z;
  acc_lines_deleted : Z;
  acc_first_commit : option Z;
  acc_last_commit : option Z
}.

Definition empty_author_acc : AuthorAcc :=
  {| acc_commits := []; acc_lines_added := 0; acc_lines_deleted := 0;
     acc_first_commit := None; acc_last_commit := None |}.

(** The body of the grouping loop for one commit of the author. *)
Definition author_acc_step (stats : AuthorAcc) (commit : CommitInfo) : AuthorAcc :=
  {| acc_commits := app (acc_commits stats) [commit];
     acc_lines_added := acc_lines_added stats + lines_added commit;
     acc_lines_deleted := acc_lines_deleted stats + lines_deleted commit;
     acc_first_commit :=
       match acc_first_commit stats with
       | None => Some (date commit)
       | Some f => if Z.ltb (date commit) f then Some (date commit) else Some f
       end;
     acc_last_commit :=
       match acc_last_commit stats with
       | None => Some (date commit)
       | Some l => if Z.ltb l (date commit) then Some (date commit) else Some l
       end |}.

(** [author_stats[author]...] on the [defaultdict]. *)
Definition group_step (author_stats : list (string * AuthorAcc)) (commit : CommitInfo)
  : list (string * AuthorAcc) :=
  let a := author commit in
  let stats := match dict_get String.eqb a author_stats with
               | Some st => st
               | None => empty_author_acc
               end in
  dict_set String.eqb a (author_acc_step stats commit) author_stats.

(** The body of the statistics loop for one author. *)
Definition make_author_stats (total_commits : nat) (entry : string * AuthorAcc)
  : AuthorStats :=
  let (a, stats) := entry in
  let commit_count := length (acc_commits stats) in
  let contribution_percentage :=
    (Qofnat commit_count / Qofnat total_commits * 100)%Q in
  let commit_frequency :=
    match acc_first_commit stats, acc_last_commit stats with
    | Some f, Some l =>
        let duration := (l - f) / 86400 in
        (Qofnat commit_count / QofZ (Z.max duration 1))%Q
    | _, _ => 0%Q
    end in
  let total_changes := acc_lines_added stats + acc_lines_deleted stats in
  let average_commit_size :=
    if Nat.ltb 0 commit_count then (QofZ total_changes / Qofnat commit_count)%Q else 0%Q in
  {| name := a;
     email := match acc_commits stats with c :: _ => author_email c | [] => EmptyString end;
     commit_count := Z.of_nat commit_count;
     total_lines_added := acc_lines_added stats;
     total_lines_deleted := acc_lines_deleted stats;
     first_commit := acc_first_commit stats;
     last_commit := acc_last_commit stats;
     commit_frequency := commit_frequency;
     average_commit_size := average_commit_size;
     contribution_percentage := contribution_percentage |}.

(** [GitAnalyzer.analyze_developers]. *)
Definition analyze_developers (commits : list CommitInfo) : list AuthorStats :=
  let author_stats := fold_left group_step commits [] in
  let total_commits := length commits in
  let author_list := map (make_author_stats total_commits) author_stats in
  sort_desc contribution_percentage author_list.

End GitAnalyzer.

(** ** [repo_analyzer.py]: technology stack *)
Module RepoAnalyzer.
Import Py.

(** [TechnologyInfo]. *)
Record TechnologyInfo := {
  tname : string;
  category : string;
  tconfidence : Q;
  evidence : list string;
  version : option string
}.

Definition tech_key (t : TechnologyInfo) : string * string := (tname t, category t).

Definition key_eqb (a b : string * string) : bool :=
  (String.eqb (fst a) (fst b) && String.eqb (snd a) (snd b))%bool.

(** The update of [existing] in place: [existing.evidence.extend(...)] and
    [existing.confidence = max(existing.confidence, tech.confidence)]. *)
Definition merge_into (existing tech : TechnologyInfo) : TechnologyInfo := {|
  tname := tname existing;
  category := category existing;
  tconfidence := pymax (tconfidence existing) (tconfidence tech);
  evidence := app (evidence existing) (evidence tech);
  version := version existing |}.

(** One iteration of the loop of [_deduplicate_technologies] over
    [tech_dict]. *)
Definition dedup_step (tech_dict : list ((string * string) * TechnologyInfo))
  (tech : TechnologyInfo) : list ((string * string) * TechnologyInfo) :=
  let key := tech_key tech in
  match dict_get key_eqb key tech_dict with
  | Some existing => dict_set key_eqb key (merge_into existing tech) tech_dict
  | None => dict_set key_eqb key tech tech_dict
  end.

(** [RepositoryAnalyzer._deduplicate_technologies]:
    [list(tech_dict.values())]. *)
Definition _deduplicate_technologies (tech_list : list TechnologyInfo)
  : list TechnologyInfo :=
  map snd (fold_left dedup_step tech_list []).

Section Stack.
(** The three passes read configuration and source files; the
    properties below hold whatever entries they return. *)
Variable FileInfo : Type.
Variable _analyze_config_files : list FileInfo -> list TechnologyInfo.
Variable _analyze_source_files : list FileInfo -> list TechnologyInfo.
Variable _analyze_build_files : list FileInfo -> list TechnologyInfo.

(** [RepositoryAnalyzer._identify_technology_stack]. *)
Definition _identify_technology_stack (file_info_list : list FileInfo)
  : list TechnologyInfo :=
  let tech_stack := app (app (_analyze_config_files file_info_list)
                             (_analyze_source_files file_info_list))
                        (_analyze_build_files file_info_list) in
  let unique_tech := _deduplicate_technologies tech_stack in
  sort_desc tconfidence unique_tech.
End Stack.

End RepoAnalyzer.

(** * [developer_analyzer.py]: team dynamics *)

Module DeveloperAnalyzer.
Import Py Git.

Record DeveloperProfile := mkDeveloperProfile {
  name : string;
  email : string;
  role : string;
  company : string;
  expertise_areas : list string;
  skill_level : string;
  skill_description : string;
  contribution_pattern : string;
  commit_frequency : Q;
  last_contribution : Z;
  business_value : string;
  knowledge_areas : list string;
  collaboration_score : Q;
  code_quality_score : Q
}.

(** The exceptions the team-dynamics code can raise. *)
Inductive exn := KeyError | TypeError | ZeroDivisionError.

(** A dynamically typed Python value, for the accumulators of
    [_calculate_knowledge_concentration], which mix [int] and [str]. *)
Inductive pyval :=
| PInt (z : Z)
| PFloat (q : Q)
| PStr (s : string).

Definition result (A : Type) : Type := (exn + A)%type.

Definition bind {A B} (m : result A) (k : A -> result B) : result B :=
  match m with
  | inl e => inl e
  | inr a => k a
  end.

Local Notation "'let!' x ':=' m 'in' k" := (bind m (fun x => k))
  (at level 200, x name, m at level 100, k at level 200).

Fixpoint fold_result {A B} (f : A -> B -> result A) (acc : A) (l : list B)
  : result A :=
  match l with
  | [] => inr acc
  | x :: l' => let! acc' := f acc x in fold_result f acc' l'
  end.

Record TeamDynamics := mkTeamDynamics {
  team_size : Z;
  collaboration_model : string;
  knowledge_distribution : string;
  bus_factor : Z;
  primary_contributors : list string;
  secondary_contributors : list string;
  knowledge_concentration : pyval;
  team_stability : string;
  communication_patterns : list string
}.

(** [s * n] / [n * s] on a string: [s] repeated, empty for [n <= 0]. *)
Fixpoint repeat_str (n : nat) (s : string) : string :=
  match n with
  | O => EmptyString
  | S n' => s ++ repeat_str n' s
  end.

Definition as_num (v : pyval) : option Q :=
  match v with
  | PInt z => Some (QofZ z)
  | PFloat q => Some q
  | PStr _ => None
  end.

(** Python's binary [+]. *)
Definition py_add (a b : pyval) : result pyval :=
  match a, b with
  | PInt x, PInt y => inr (PInt (x + y))
  | PStr x, PStr y => inr (PStr (x ++ y))
  | PStr _, _ | _, PStr _ => inl TypeError
  | _, _ =>
      match as_num a, as_num b with
      | Some x, Some y => inr (PFloat (x + y))
      | _, _ => inl TypeError
      end
  end.

(** Python's binary [*]. *)
Definition py_mul (a b : pyval) : result pyval :=
  match a, b with
  | PInt x, PInt y => inr (PInt (x * y))
  | PInt n, PStr s | PStr s, PInt n => inr (PStr (repeat_str (Z.to_nat n) s))
  | PStr _, _ | _, PStr _ => inl TypeError
  | _, _ =>
      match as_num a, as_num b with
      | Some x, Some y => inr (PFloat (x * y))
      | _, _ => inl TypeError
      end
  end.

(** Python's [/]. *)
Definition py_truediv (a b : pyval) : result pyval :=
  match as_num a, as_num b with
  | Some x, Some y => if Qeq_bool y 0 then inl ZeroDivisionError
                      else inr (PFloat (x / y))
  | _, _ => inl TypeError
  end.

(** Python's [a > 0] on a number; a [str] raises [TypeError]. *)
Definition py_gt_zero (a : pyval) : result bool :=
  match as_num a with
  | Some x => inr (Qlt_bool 0 x)
  | None => inl TypeError
  end.

(** [_assess_business_value]: the only producer of [business_value]. *)
Definition _assess_business_value (contribution_percentage : Q) : string :=
  if Qle_bool 40 contribution_percentage then "Critical"
  else if Qle_bool 20 contribution_percentage then "High"
  else if Qle_bool 10 contribution_percentage then "Medium"
  else if Qle_bool 5 contribution_percentage then "Low"
  else "Minimal".

(** [{'Critical': 5, 'High': 4, 'Medium': 3, 'Low': 2, 'Minimal': 1}[v]];
    [None] is the [KeyError]. *)
Definition business_weight (v : string) : option Z :=
  if String.eqb v "Critical" then Some 5
  else if String.eqb v "High" then Some 4
  else if String.eqb v "Medium" then Some 3
  else if String.eqb v "Low" then Some 2
  else if String.eqb v "Minimal" then Some 1
  else None.

Definition valid_business_value (v : string) : bool :=
  match business_weight v with Some _ => true | None => false end.

Definition is_primary (p : DeveloperProfile) : bool :=
  str_mem (business_value p) ["Critical"; "High"].

Definition _determine_collaboration_model (developer_profiles : list DeveloperProfile)
  (commits : list CommitInfo) : string :=
  match developer_profiles with
  | [] => "Unknown"
  | _ =>
      let primary := length (filter is_primary developer_profiles) in
      let secondary := length (filter (fun p => str_mem (business_value p)
                                                  ["Medium"; "Low"])
                                      developer_profiles) in
      if (Nat.eqb primary 1 && Nat.leb secondary 2)%bool
      then "Single Lead with Support"
      else if (Nat.leb primary 2 && Nat.leb 3 secondary)%bool
      then "Small Core Team with Extended Support"
      else if Nat.leb 3 primary then "Collaborative Team"
      else "Distributed Team"
  end.

Definition _analyze_knowledge_distribution (developer_profiles : list DeveloperProfile)
  : string :=
  match developer_profiles with
  | [] => "Unknown"
  | _ =>
      let total_contributors := length developer_profiles in
      let primary := length (filter is_primary developer_profiles) in
      let concentration_ratio := (Qofnat primary / Qofnat total_contributors)%Q in
      if Qle_bool concentration_ratio (3 # 10) then "Well Distributed"
      else if Qle_bool concentration_ratio (1 # 2) then "Moderately Distributed"
      else "Highly Concentrated"
  end.

(** The sort key of [_calculate_bus_factor], used once every key is
    known to exist. *)
Definition bus_weight_key (p : DeveloperProfile) : Q :=
  match business_weight (business_value p) with
  | Some w => QofZ w
  | None => 0
  end.

(** [for profile in sorted_profiles: bus_factor += 1;
     if bus_factor >= total_contributors * 0.7: break]. *)
Fixpoint bus_factor_loop (total_contributors bus_factor : Z)
  (profiles : list DeveloperProfile) : Z :=
  match profiles with
  | [] => bus_factor
  | _ :: rest =>
      let bus_factor' := bus_factor + 1 in
      if Qle_bool (QofZ total_contributors * (7 # 10))%Q (QofZ bus_factor')
      then bus_factor'
      else bus_factor_loop total_contributors bus_factor' rest
  end.

(** [sorted] computes every key before sorting, so one unknown business
    value raises [KeyError]. *)
Definition _calculate_bus_factor (developer_profiles : list DeveloperProfile)
  : result Z :=
  match developer_profiles with
  | [] => inr 0
  | _ =>
      if forallb (fun p => valid_business_value (business_value p)) developer_profiles
      then inr (bus_factor_loop (Z.of_nat (length developer_profiles)) 0
                  (sort_desc bus_weight_key developer_profiles))
      else inl KeyError
  end.

Definition _categorize_contributors (developer_profiles : list DeveloperProfile)
  : list string * list string :=
  (map name (filter is_primary developer_profiles),
   map name (filter (fun p => str_mem (business_value p) ["Medium"; "Low"; "Minimal"])
               developer_profiles)).

(** One iteration of the loop of [_calculate_knowledge_concentration]:
    [weight = {...}[profile.business_value]; total_weight += weight;
     weighted_sum += weight * profile.contribution_pattern]. *)
Definition knowledge_step (acc : pyval * pyval) (profile : DeveloperProfile)
  : result (pyval * pyval) :=
  let (total_weight, weighted_sum) := acc in
  match business_weight (business_value profile) with
  | None => inl KeyError
  | Some weight =>
      let! total_weight' := py_add total_weight (PInt weight) in
      let! term := py_mul (PInt weight) (PStr (contribution_pattern profile)) in
      let! weighted_sum' := py_add weighted_sum term in
      inr (total_weight', weighted_sum')
  end.

Definition _calculate_knowledge_concentration (developer_profiles : list DeveloperProfile)
  : result pyval :=
  match developer_profiles with
  | [] => inr (PFloat 0)
  | _ =>
      let! acc := fold_result knowledge_step (PInt 0, PInt 0) developer_profiles in
      let (total_weight, weighted_sum) := acc in
      let! positive := py_gt_zero total_weight in
      if positive then py_truediv weighted_sum total_weight else inr (PFloat 0)
  end.

(** [_assess_team_stability]; [now] is [datetime.now()]. *)
Definition _assess_team_stability (now : Z) (developer_profiles : list DeveloperProfile)
  (commits : list CommitInfo) : string :=
  match developer_profiles, commits with
  | [], _ | _, [] => "Unknown"
  | _, _ =>
      let recent_cutoff := now - 30 * 86400 in
      let recent_commits := filter (fun c => Z.ltb recent_cutoff (date c)) commits in
      match recent_commits with
      | [] => "Inactive"
      | _ =>
          let recent_authors := nodup string_dec (map author recent_commits) in
          let active_ratio := (Qofnat (length recent_authors)
                               / Qofnat (length developer_profiles))%Q in
          if Qle_bool (8 # 10) active_ratio then "Very Stable"
          else if Qle_bool (6 # 10) active_ratio then "Stable"
          else if Qle_bool (4 # 10) active_ratio then "Moderately Stable"
          else "Unstable"
      end
  end.

Definition conventional_markers : list string :=
  ["feat:"; "fix:"; "docs:"; "refactor:"].

Definition _analyze_communication_patterns (commits : list CommitInfo) : list string :=
  match commits with
  | [] => []
  | _ =>
      let n := Qofnat (length commits) in
      let message_lengths := map (fun c => Z.of_nat (String.length (message c))) commits in
      let avg_message_length := (QofZ (fold_left Z.add message_lengths 0%Z) / n)%Q in
      let p1 := if Qle_bool 50 avg_message_length then "Detailed Communication"
                else if Qle_bool 20 avg_message_length then "Standard Communication"
                else "Minimal Communication" in
      let conventional_commits :=
        length (filter (fun c => any_in conventional_markers (lower (message c))) commits) in
      let conventional_ratio := (Qofnat conventional_commits / n)%Q in
      let p2 := if Qle_bool (7 # 10) conventional_ratio then "Structured Commit Messages"
                else if Qle_bool (4 # 10) conventional_ratio then "Mixed Commit Styles"
                else "Informal Commit Messages" in
      [p1; p2]
  end.

Definition analyze_team_dynamics (now : Z) (developer_profiles : list DeveloperProfile)
  (commits : list CommitInfo) : result TeamDynamics :=
  let team_size := Z.of_nat (length developer_profiles) in
  let collaboration_model := _determine_collaboration_model developer_profiles commits in
  let knowledge_distribution := _analyze_knowledge_distribution developer_profiles in
  let! bus_factor := _calculate_bus_factor developer_profiles in
  let (primary_contributors, secondary_contributors) :=
    _categorize_contributors developer_profiles in
  let! knowledge_concentration := _calculate_knowledge_concentration developer_profiles in
  let team_stability := _assess_team_stability now developer_profiles commits in
  let communication_patterns := _analyze_communication_patterns commits in
  inr {| team_size := team_size;
         collaboration_model := collaboration_model;
         knowledge_distribution := knowledge_distribution;
         bus_factor := bus_factor;
         primary_contributors := primary_contributors;
         secondary_contributors := secondary_contributors;
         knowledge_concentration := knowledge_concentration;
         team_stability := team_stability;
         communication_patterns := communication_patterns |}.

(** The quantity the documentation calls knowledge concentration: the
    share of Critical or High contributors in the team (the ratio
    [_analyze_knowledge_distribution] computes). *)
Definition documented_knowledge_concentration (developer_profiles : list DeveloperProfile)
  : Q :=
  (Qofnat (length (filter is_primary developer_profiles))
   / Qofnat (length developer_profiles))%Q.


(** [DeveloperAnalyzer._assess_skill_level]. *)
Definition _assess_skill_level (author_stat : GitAnalyzer.AuthorStats)
  (commits : list CommitInfo) : string * string :=
  let total_commits := GitAnalyzer.commit_count author_stat in
  let avg_commit_size := GitAnalyzer.average_commit_size author_stat in
  let contribution_percentage := GitAnalyzer.contribution_percentage author_stat in
  let skill_score := 0 in
  let skill_score :=
    if Z.leb 100 total_commits then skill_score + 3
    else if Z.leb 50 total_commits then skill_score + 2
    else if Z.leb 20 total_commits then skill_score + 1
    else skill_score in
  let skill_score :=
    if Qle_bool 50 contribution_percentage then skill_score + 2
    else if Qle_bool 20 contribution_percentage then skill_score + 1
    else skill_score in
  let skill_score :=
    if Qle_bool avg_commit_size 50 then skill_score + 2
    else if Qle_bool avg_commit_size 100 then skill_score + 1
    else skill_score in
  if Z.leb 6 skill_score then
    ("Expert", "Highly experienced developer with deep technical knowledge and excellent practices")
  else if Z.leb 4 skill_score then
    ("Senior", "Experienced developer with strong technical skills and good development practices")
  else if Z.leb 2 skill_score then
    ("Mid-level", "Developer with solid technical foundation and growing expertise")
  else
    ("Junior", "Early-career developer learning and building technical skills").

(** The [tech_keywords] table of [_identify_knowledge_areas], in order. *)
Definition tech_keywords : list (string * list string) :=
  [("frontend", ["react"; "vue"; "angular"; "javascript"; "typescript"; "css"; "html"]);
   ("backend", ["api"; "server"; "database"; "sql"; "nosql"; "rest"; "graphql"]);
   ("devops", ["docker"; "kubernetes"; "ci/cd"; "deployment"; "infrastructure"]);
   ("testing", ["test"; "testing"; "spec"; "unit"; "integration"; "e2e"]);
   ("security", ["security"; "auth"; "authentication"; "encryption"; "vulnerability"]);
   ("performance", ["performance"; "optimization"; "caching"; "scalability"])].

(** The inner [for commit in commits] loop, which [break]s at the first
    commit whose message mentions a keyword of [area]. *)
Fixpoint knowledge_area_loop (area : string) (keywords : list string)
  (knowledge_areas : list string) (commits : list CommitInfo) : list string :=
  match commits with
  | [] => knowledge_areas
  | commit :: rest =>
      let message_lower := lower (message commit) in
      if any_in keywords message_lower then
        if str_mem area knowledge_areas then knowledge_areas
        else app knowledge_areas [area]
      else knowledge_area_loop area keywords knowledge_areas rest
  end.

(** [DeveloperAnalyzer._identify_knowledge_areas]. *)
Definition _identify_knowledge_areas (commits : list CommitInfo) : list string :=
  let knowledge_areas :=
    fold_left (fun ka entry => knowledge_area_loop (fst entry) (snd entry) ka commits)
      tech_keywords [] in
  match knowledge_areas with
  | [] => ["General Software Development"]
  | _ => knowledge_areas
  end.

(** The per-commit score of [_calculate_code_quality_score]. *)
Definition code_quality_commit_score (commit : CommitInfo) : Q :=
  let score := (5 # 10)%Q in
  let msg := GitAnalyzer.strip (message commit) in
  let score := if Nat.leb 15 (String.length msg) then (score + (2 # 10))%Q else score in
  let score := if any_in ["feat:"; "fix:"; "docs:"; "refactor:"] (lower msg)
               then (score + (2 # 10))%Q else score in
  let total_changes := lines_added commit + lines_deleted commit in
  let score :=
    if Z.leb total_changes 50 then (score + (3 # 10))%Q
    else if Z.leb total_changes 200 then (score + (2 # 10))%Q
    else if Z.leb total_changes 500 then (score + (1 # 10))%Q
    else score in
  let score :=
    if Z.leb (files_changed commit) 3 then (score + (2 # 10))%Q
    else if Z.leb (files_changed commit) 10 then (score + (1 # 10))%Q
    else score in
  pymin score 1.

(** [DeveloperAnalyzer._calculate_code_quality_score]. *)
Definition _calculate_code_quality_score (commits : list CommitInfo) : Q :=
  match commits with
  | [] => 0%Q
  | _ =>
      let quality_scores := map code_quality_commit_score commits in
      (fold_left Qplus quality_scores 0 / Qofnat (length quality_scores))%Q
  end.

(** [[(dates[i] - dates[i-1]).days for i in range(1, len(dates))]]:
    [timedelta.days] is the floor of the seconds over 86400. *)
Fixpoint day_gaps (dates : list Z) : list Z :=
  match dates with
  | d1 :: ((d2 :: _) as rest) => (d2 - d1) / 86400 :: day_gaps rest
  | _ => []
  end.

(** The per-commit score of factor 3 of [_calculate_collaboration_score]. *)
Definition collaboration_quality_score (commit : CommitInfo) : Q :=
  let score := (5 # 10)%Q in
  let score := if Nat.leb 20 (String.length (message commit))
               then (score + (2 # 10))%Q else score in
  let changes := lines_added commit + lines_deleted commit in
  let score :=
    if Z.leb changes 100 then (score + (3 # 10))%Q
    else if Z.leb changes 500 then (score + (1 # 10))%Q
    else score in
  score.

(** [DeveloperAnalyzer._calculate_collaboration_score]. *)
Definition _calculate_collaboration_score (developer_commits all_commits : list CommitInfo)
  : Q :=
  match developer_commits with
  | [] => 0%Q
  | _ =>
      let factor1 :=
        if Nat.ltb 1 (length developer_commits) then
          let dates := GitAnalyzer.sort_asc (map date developer_commits) in
          let gaps := day_gaps dates in
          let avg_gap := (QofZ (fold_left Z.add gaps 0%Z) / Qofnat (length gaps))%Q in
          if Qle_bool avg_gap 3 then 1%Q
          else if Qle_bool avg_gap 7 then (8 # 10)%Q
          else if Qle_bool avg_gap 14 then (6 # 10)%Q
          else (4 # 10)%Q
        else (5 # 10)%Q in
      let total_commits := length all_commits in
      let developer_commits_count := length developer_commits in
      let contribution_ratio :=
        if Nat.ltb 0 total_commits
        then (Qofnat developer_commits_count / Qofnat total_commits)%Q else 0%Q in
      let factor2 :=
        if Qle_bool (3 # 10) contribution_ratio then 1%Q
        else if Qle_bool (2 # 10) contribution_ratio then (8 # 10)%Q
        else if Qle_bool (1 # 10) contribution_ratio then (6 # 10)%Q
        else (4 # 10)%Q in
      let quality_scores := map collaboration_quality_score developer_commits in
      let avg_quality :=
        match quality_scores with
        | [] => (5 # 10)%Q
        | _ => (fold_left Qplus quality_scores 0 / Qofnat (length quality_scores))%Q
        end in
      let factors := [factor1; factor2; avg_quality] in
      (fold_left Qplus factors 0 / Qofnat (length factors))%Q
  end.
End DeveloperAnalyzer.


(** * [risk_assessor.py]: business risks *)

Module RiskAssessor.
Import Py Git.

Record Risk := mkRisk {
  id : string;
  name : string;
  category : string;
  probability : string;
  impact : string;
  business_impact : string;
  description : string;
  mitigation_strategy : string;
  risk_score : Q;
  detection_date : Z;
  status : string
}.

Definition nonempty {A} (l : list A) : bool :=
  match l with [] => false | _ => true end.

Definition _assess_scope_creep (features : list FeatureMapper.Feature)
  (commits : list CommitInfo) : Q :=
  match features, commits with
  | [], _ | _, [] => 0
  | _, _ => 3 # 10
  end.

Definition _assess_timeline_risks (features : list FeatureMapper.Feature)
  (commits : list CommitInfo) : Q :=
  match features with
  | [] => 0
  | _ =>
      let high_complexity_features :=
        filter (fun f => String.eqb (FeatureMapper.complexity f) "high") features in
      let total_features := length features in
      if Nat.eqb total_features 0 then 0
      else
        let complexity_risk := (Qofnat (length high_complexity_features)
                                / Qofnat total_features)%Q in
        let additional_risk := 0%Q in
        let high_risk_features :=
          filter (fun f => String.eqb (FeatureMapper.risk_level f) "High") features in
        let additional_risk :=
          if nonempty high_risk_features then (additional_risk + (2 # 10))%Q
          else additional_risk in
        let features_with_deps :=
          filter (fun f => nonempty (FeatureMapper.dependencies f)) features in
        let additional_risk :=
          if nonempty features_with_deps then (additional_risk + (1 # 10))%Q
          else additional_risk in
        let x := (complexity_risk + additional_risk)%Q in
        if Qlt_bool 1 x then 1 else x
  end.

Definition _assess_resource_constraints (commits : list CommitInfo)
  (features : list FeatureMapper.Feature) : Q :=
  match commits, features with
  | [], _ | _, [] => 0
  | _, _ => 4 # 10
  end.

(** [_identify_business_risks]; [now] is [datetime.now()]. *)
Definition _identify_business_risks (now : Z) (features : list FeatureMapper.Feature)
  (commits : list CommitInfo) : list Risk :=
  let scope_creep_score := _assess_scope_creep features commits in
  let risks :=
    if Qlt_bool (6 # 10) scope_creep_score then
      [{| id := "BUS_001"; name := "Scope Creep"; category := "business";
          probability := "medium"; impact := "high";
          business_impact := "Delayed delivery and increased costs";
          description := "Project shows signs of scope creep with expanding feature set";
          mitigation_strategy := "Strict change control, regular scope reviews, stakeholder alignment";
          risk_score := scope_creep_score; detection_date := now;
          status := "identified" |}]
    else [] in
  let timeline_risk := _assess_timeline_risks features commits in
  let risks :=
    if Qlt_bool (7 # 10) timeline_risk then
      app risks [{| id := "BUS_002"; name := "Timeline Risks"; category := "business";
          probability := "high"; impact := "high";
          business_impact := "Missed deadlines and stakeholder dissatisfaction";
          description := "Project timeline shows significant risks of delays";
          mitigation_strategy := "Resource reallocation, scope reduction, stakeholder communication";
          risk_score := timeline_risk; detection_date := now;
          status := "identified" |}]
    else risks in
  let resource_risk := _assess_resource_constraints commits features in
  let risks :=
    if Qlt_bool (6 # 10) resource_risk then
      app risks [{| id := "BUS_003"; name := "Resource Constraints"; category := "business";
          probability := "medium"; impact := "medium";
          business_impact := "Reduced development velocity and quality";
          description := "Project may face resource constraints affecting delivery";
          mitigation_strategy := "Resource planning, prioritization, external support";
          risk_score := resource_risk; detection_date := now;
          status := "identified" |}]
    else risks in
  risks.

(** [RiskAssessment]. *)
Record RiskAssessment := {
  total_risks : Z;
  high_risk_count : Z;
  medium_risk_count : Z;
  low_risk_count : Z;
  overall_risk_level : string;
  technical_risks : list Risk;
  team_risks : list Risk;
  business_risks : list Risk;
  risk_trend : string;
  mitigation_coverage : Q
}.

(** The [repo_structure] dict ([_convert_to_dict] of a [ProjectStructure])
    as the risk code reads it: [.get(key, default)] on three keys. *)
Record RepoStructure := {
  rs_directories : option (list string);
  rs_technology_stack : option (list RepoAnalyzer.TechnologyInfo);
  rs_file_types : option (list (string * Z))
}.

Definition get_or_nil {A} (o : option (list A)) : list A :=
  match o with Some l => l | None => [] end.

(** One iteration of the loop of [_assess_technical_debt]. *)
Definition debt_step (debt_indicators : Q) (commit : CommitInfo) : Q :=
  let message_lower := lower (message commit) in
  let debt_indicators :=
    if any_in ["refactor"; "cleanup"; "technical debt"; "legacy"] message_lower
    then (debt_indicators + 1)%Q else debt_indicators in
  let debt_indicators :=
    if Z.ltb 500 (lines_added commit + lines_deleted commit)
    then (debt_indicators + (5 # 10))%Q else debt_indicators in
  let debt_indicators :=
    if any_in ["fix"; "bug"; "patch"; "hotfix"] message_lower
    then (debt_indicators + (3 # 10))%Q else debt_indicators in
  debt_indicators.

(** [RiskAssessor._assess_technical_debt]. *)
Definition _assess_technical_debt (commits : list CommitInfo) : Q :=
  match commits with
  | [] => 0%Q
  | _ =>
      let debt_indicators := fold_left debt_step commits 0%Q in
      let total_commits := length commits in
      pymin 1 (debt_indicators / pymax (Qofnat total_commits * (3 # 10)) 1)
  end.

(** [len(d.split('/'))]. *)
Definition split_depth (d : string) : nat := S (count_char "/" d).

(** [RiskAssessor._assess_architecture_complexity]. *)
Definition _assess_architecture_complexity (repo_structure : RepoStructure) : Q :=
  let complexity_score := 0%Q in
  let directories := get_or_nil (rs_directories repo_structure) in
  let max_depth :=
    match directories with
    | [] => 1%nat
    | d :: ds => fold_left (fun m d => Nat.max m (split_depth d)) ds (split_depth d)
    end in
  let complexity_score :=
    if Nat.ltb 5 max_depth then (complexity_score + (4 # 10))%Q
    else if Nat.ltb 3 max_depth then (complexity_score + (2 # 10))%Q
    else complexity_score in
  let tech_stack := get_or_nil (rs_technology_stack repo_structure) in
  let complexity_score :=
    if Nat.ltb 5 (length tech_stack) then (complexity_score + (3 # 10))%Q
    else if Nat.ltb 3 (length tech_stack) then (complexity_score + (2 # 10))%Q
    else complexity_score in
  let file_types := get_or_nil (rs_file_types repo_structure) in
  let complexity_score :=
    if Nat.ltb 10 (length file_types) then (complexity_score + (3 # 10))%Q
    else if Nat.ltb 5 (length file_types) then (complexity_score + (2 # 10))%Q
    else complexity_score in
  pymin complexity_score 1.

(** [RiskAssessor._assess_testing_coverage]. *)
Definition _assess_testing_coverage (commits : list CommitInfo)
  (repo_structure : RepoStructure) : Q :=
  match commits with
  | [] => 0%Q
  | _ =>
      let test_commits :=
        length (filter (fun c => any_in ["test"; "testing"; "spec"; "unit"; "integration"]
                                   (lower (message c))) commits) in
      let total_commits := length commits in
      let test_coverage :=
        if Nat.ltb 0 total_commits then (Qofnat test_commits / Qofnat total_commits)%Q
        else 0%Q in
      pymin (test_coverage * 3) 1
  end.

(** [RiskAssessor._assess_dependency_risks]: a placeholder. *)
Definition _assess_dependency_risks (repo_structure : RepoStructure) : bool := false.

(** [RiskAssessor._assess_knowledge_concentration]. *)
Definition _assess_knowledge_concentration
  (developer_profiles : list DeveloperAnalyzer.DeveloperProfile) : Q :=
  match developer_profiles with
  | [] => 0%Q
  | _ =>
      let total_contributors := length developer_profiles in
      let primary_contributors := filter DeveloperAnalyzer.is_primary developer_profiles in
      (Qofnat (length primary_contributors) / Qofnat total_contributors)%Q
  end.

(** [RiskAssessor._assess_team_stability]; [now] is [datetime.now()]. *)
Definition _assess_team_stability (now : Z)
  (developer_profiles : list DeveloperAnalyzer.DeveloperProfile)
  (commits : list CommitInfo) : Q :=
  match developer_profiles, commits with
  | [], _ | _, [] => 0%Q
  | _, _ =>
      let recent_cutoff := now - 30 * 86400 in
      let recent_commits := filter (fun c => Z.ltb recent_cutoff (date c)) commits in
      match recent_commits with
      | [] => 0%Q
      | _ =>
          let recent_authors := nodup string_dec (map author recent_commits) in
          (Qofnat (length recent_authors) / Qofnat (length developer_profiles))%Q
      end
  end.

(** [RiskAssessor._assess_skill_gaps]: a placeholder. *)
Definition _assess_skill_gaps (developer_profiles : list DeveloperAnalyzer.DeveloperProfile)
  : list string := [].

(** The per-commit score of [RiskAssessor._assess_communication_quality]. *)
Definition communication_score (commit : CommitInfo) : Q :=
  let score := (5 # 10)%Q in
  let msg := GitAnalyzer.strip (message commit) in
  let score := if Nat.leb 15 (String.length msg) then (score + (2 # 10))%Q else score in
  let score := if any_in ["feat:"; "fix:"; "docs:"; "refactor:"] (lower msg)
               then (score + (3 # 10))%Q else score in
  score.

(** [RiskAssessor._assess_communication_quality]. *)
Definition _assess_communication_quality (commits : list CommitInfo) : Q :=
  match commits with
  | [] => 0%Q
  | _ => (fold_left (fun acc c => acc + communication_score c) commits 0
          / Qofnat (length commits))%Q
  end.

(** [RiskAssessor._identify_technical_risks]; [now] is [datetime.now()]. *)
Definition _identify_technical_risks (now : Z) (commits : list CommitInfo)
  (features : list FeatureMapper.Feature) (repo_structure : RepoStructure) : list Risk :=
  let risks := [] in
  let high_complexity_features :=
    filter (fun f => String.eqb (FeatureMapper.complexity f) "high") features in
  let risks :=
    if nonempty high_complexity_features then
      let risk_score := pymin (8 # 10) (Qofnat (length high_complexity_features) * (2 # 10)) in
      app risks [{| id := "TECH_001"; name := "High Complexity Features";
          category := "technical"; probability := "medium"; impact := "high";
          business_impact := "Delayed delivery and increased maintenance costs";
          description := "Project contains " ++ str_of_Z (Z.of_nat (length high_complexity_features))
                         ++ " high-complexity features that may cause delays and quality issues";
          mitigation_strategy := "Break down complex features, increase testing coverage, allocate senior developers";
          risk_score := risk_score; detection_date := now; status := "identified" |}]
    else risks in
  let technical_debt_score := _assess_technical_debt commits in
  let risks :=
    if Qlt_bool (6 # 10) technical_debt_score then
      app risks [{| id := "TECH_002"; name := "High Technical Debt";
          category := "technical"; probability := "high"; impact := "medium";
          business_impact := "Reduced development velocity and increased bug frequency";
          description := "Technical debt score of " ++ fmt2f technical_debt_score
                         ++ " indicates accumulated technical issues";
          mitigation_strategy := "Implement refactoring sprints, improve code review process, establish coding standards";
          risk_score := technical_debt_score; detection_date := now; status := "identified" |}]
    else risks in
  let arch_complexity := _assess_architecture_complexity repo_structure in
  let risks :=
    if Qlt_bool (7 # 10) arch_complexity then
      app risks [{| id := "TECH_003"; name := "Complex Architecture";
          category := "technical"; probability := "medium"; impact := "high";
          business_impact := "Difficult maintenance and onboarding challenges";
          description := "Project architecture shows high complexity that may impact maintainability";
          mitigation_strategy := "Document architecture decisions, create onboarding guides, simplify complex components";
          risk_score := arch_complexity; detection_date := now; status := "identified" |}]
    else risks in
  let testing_coverage := _assess_testing_coverage commits repo_structure in
  let risks :=
    if Qlt_bool testing_coverage (5 # 10) then
      app risks [{| id := "TECH_004"; name := "Low Testing Coverage";
          category := "technical"; probability := "high"; impact := "medium";
          business_impact := "Increased bug frequency and deployment risks";
          description := "Testing coverage of " ++ fmt2f testing_coverage
                         ++ " indicates insufficient testing";
          mitigation_strategy := "Implement automated testing, establish testing requirements, increase test coverage";
          risk_score := (1 - testing_coverage)%Q; detection_date := now; status := "identified" |}]
    else risks in
  let dependency_risks := _assess_dependency_risks repo_structure in
  let risks :=
    if dependency_risks then
      app risks [{| id := "TECH_005"; name := "Dependency Vulnerabilities";
          category := "technical"; probability := "medium"; impact := "medium";
          business_impact := "Security vulnerabilities and maintenance overhead";
          description := "Project has potential dependency and security risks";
          mitigation_strategy := "Regular dependency updates, security scanning, vulnerability monitoring";
          risk_score := 6 # 10; detection_date := now; status := "identified" |}]
    else risks in
  risks.

(** [RiskAssessor._identify_team_risks]; [now] is [datetime.now()]. *)
Definition _identify_team_risks (now : Z)
  (developer_profiles : list DeveloperAnalyzer.DeveloperProfile)
  (commits : list CommitInfo) : list Risk :=
  match developer_profiles with
  | [] => []
  | _ =>
      let risks := [] in
      let knowledge_concentration := _assess_knowledge_concentration developer_profiles in
      let risks :=
        if Qlt_bool (7 # 10) knowledge_concentration then
          app risks [{| id := "TEAM_001"; name := "High Knowledge Concentration";
              category := "team"; probability := "medium"; impact := "high";
              business_impact := "Project becomes unmaintainable if key developers leave";
              description := "Knowledge concentration score of " ++ fmt2f knowledge_concentration
                             ++ " indicates over-reliance on few developers";
              mitigation_strategy := "Cross-training, documentation, knowledge sharing sessions, pair programming";
              risk_score := knowledge_concentration; detection_date := now;
              status := "identified" |}]
        else risks in
      let team_stability := _assess_team_stability now developer_profiles commits in
      let risks :=
        if Qlt_bool team_stability (5 # 10) then
          app risks [{| id := "TEAM_002"; name := "Team Instability";
              category := "team"; probability := "high"; impact := "medium";
              business_impact := "Reduced productivity and knowledge loss";
              description := "Team shows signs of instability with frequent changes";
              mitigation_strategy := "Improve retention, establish clear roles, provide growth opportunities";
              risk_score := (1 - team_stability)%Q; detection_date := now;
              status := "identified" |}]
        else risks in
      let skill_gaps := _assess_skill_gaps developer_profiles in
      let risks :=
        if nonempty skill_gaps then
          app risks [{| id := "TEAM_003"; name := "Skill Gaps";
              category := "team"; probability := "medium"; impact := "medium";
              business_impact := "Reduced development velocity and quality issues";
              description := "Team has skill gaps in areas: " ++ String.concat ", " skill_gaps;
              mitigation_strategy := "Training programs, hiring, knowledge transfer, external consultants";
              risk_score := 6 # 10; detection_date := now; status := "identified" |}]
        else risks in
      let communication_score := _assess_communication_quality commits in
      let risks :=
        if Qlt_bool communication_score (6 # 10) then
          app risks [{| id := "TEAM_004"; name := "Communication Issues";
              category := "team"; probability := "medium"; impact := "medium";
              business_impact := "Misunderstandings and coordination problems";
              description := "Commit messages and communication patterns indicate potential communication issues";
              mitigation_strategy := "Improve documentation, establish communication protocols, regular team meetings";
              risk_score := (1 - communication_score)%Q; detection_date := now;
              status := "identified" |}]
        else risks in
      risks
  end.

(** [RiskAssessor._determine_overall_risk_level]. *)
Definition _determine_overall_risk_level (risks : list Risk) : string :=
  match risks with
  | [] => "Low"
  | _ =>
      let avg_risk_score :=
        (fold_left (fun acc r => acc + risk_score r) risks 0 / Qofnat (length risks))%Q in
      if Qle_bool (7 # 10) avg_risk_score then "High"
      else if Qle_bool (4 # 10) avg_risk_score then "Medium"
      else "Low"
  end.

(** [RiskAssessor._analyze_risk_trend]: a placeholder. *)
Definition _analyze_risk_trend (commits : list CommitInfo) (risks : list Risk) : string :=
  match commits, risks with
  | [], _ | _, [] => "Unknown"
  | _, _ => "Stable"
  end.

(** [RiskAssessor._calculate_mitigation_coverage]: [if r.mitigation_strategy]
    is a non-empty string. *)
Definition _calculate_mitigation_coverage (risks : list Risk) : Q :=
  match risks with
  | [] => 1%Q
  | _ =>
      let risks_with_mitigation :=
        length (filter (fun r => nonempty (list_ascii_of_string (mitigation_strategy r))) risks) in
      (Qofnat risks_with_mitigation / Qofnat (length risks))%Q
  end.

Definition is_high_risk (r : Risk) : bool := Qle_bool (7 # 10) (risk_score r).
Definition is_medium_risk (r : Risk) : bool :=
  (Qle_bool (4 # 10) (risk_score r) && Qlt_bool (risk_score r) (7 # 10))%bool.
Definition is_low_risk (r : Risk) : bool := Qlt_bool (risk_score r) (4 # 10).

(** [RiskAssessor.assess_project_risks]; [now] is [datetime.now()]. *)
Definition assess_project_risks (now : Z) (commits : list CommitInfo)
  (features : list FeatureMapper.Feature)
  (developer_profiles : list DeveloperAnalyzer.DeveloperProfile)
  (repo_structure : RepoStructure) : RiskAssessment :=
  let technical_risks := _identify_technical_risks now commits features repo_structure in
  let team_risks := _identify_team_risks now developer_profiles commits in
  let business_risks := _identify_business_risks now features commits in
  let all_risks := app (app technical_risks team_risks) business_risks in
  {| total_risks := Z.of_nat (length all_risks);
     high_risk_count := Z.of_nat (length (filter is_high_risk all_risks));
     medium_risk_count := Z.of_nat (length (filter is_medium_risk all_risks));
     low_risk_count := Z.of_nat (length (filter is_low_risk all_risks));
     overall_risk_level := _determine_overall_risk_level all_risks;
     technical_risks := technical_risks;
     team_risks := team_risks;
     business_risks := business_risks;
     risk_trend := _analyze_risk_trend commits all_risks;
     mitigation_coverage := _calculate_mitigation_coverage all_risks |}.

End RiskAssessor.

(** * Facts about the shared helpers *)
Module PyFacts.
Import Py.

Lemma In_insert_desc {A} (key : A -> Q) x y l :
  In y (insert_desc key x l) <-> x = y \/ In y l.
Proof.
  induction l as [| a l IH]; simpl.
  - tauto.
  - destruct (Qlt_bool (key a) (key x)); simpl; [tauto|].
    rewrite IH. tauto.
Qed.

Lemma In_sort_desc {A} (key : A -> Q) l y :
  In y (sort_desc key l) <-> In y l.
Proof.
  unfold sort_desc.
  assert (G : forall acc, In y (fold_left (fun acc x => insert_desc key x acc) l acc)
                          <-> In y acc \/ In y l).
  { induction l as [| a l IH]; intros acc; simpl.
    - tauto.
    - rewrite IH, In_insert_desc. tauto. }
  rewrite G. simpl. tauto.
Qed.

Lemma dict_set_Forall {K V} (eqb : K -> K -> bool) (P : V -> Prop) k v d :
  Forall (fun kv => P (snd kv)) d -> P v ->
  Forall (fun kv => P (snd kv)) (dict_set eqb k v d).
Proof.
  induction d as [| [k' v'] d IH]; intros Hd Hv; simpl.
  - constructor; auto.
  - inversion Hd; subst. destruct (eqb k k'); constructor; auto.
Qed.

Lemma dict_get_Forall {K V} (eqb : K -> K -> bool) (P : V -> Prop) k d v :
  Forall (fun kv => P (snd kv)) d -> dict_get eqb k d = Some v -> P v.
Proof.
  induction d as [| [k' v'] d IH]; intros Hd Hg; simpl in Hg.
  - discriminate.
  - inversion Hd; subst. destruct (eqb k k').
    + injection Hg as <-. assumption.
    + apply IH; assumption.
Qed.

Lemma Qlt_bool_true a b : Qlt_bool a b = true -> (a < b)%Q.
Proof.
  unfold Qlt_bool. intro H. apply negb_true_iff in H.
  apply Qnot_le_lt. intro H'. apply Qle_bool_iff in H'. congruence.
Qed.

Lemma Qlt_bool_false a b : Qlt_bool a b = false -> (b <= a)%Q.
Proof.
  unfold Qlt_bool. intro H. apply negb_false_iff in H. apply Qle_bool_iff. exact H.
Qed.

Lemma Permutation_insert_desc {A} (key : A -> Q) x l :
  Permutation (insert_desc key x l) (x :: l).
Proof.
  induction l as [| y l IH]; simpl; [reflexivity|].
  destruct (Qlt_bool (key y) (key x)); [reflexivity|].
  rewrite IH. apply perm_swap.
Qed.

Lemma Permutation_sort_desc {A} (key : A -> Q) l :
  Permutation (sort_desc key l) l.
Proof.
  unfold sort_desc.
  assert (G : forall acc, Permutation (fold_left (fun acc x => insert_desc key x acc) l acc)
                                      (app acc l)).
  { induction l as [| a l IH]; intros acc; simpl.
    - rewrite app_nil_r. reflexivity.
    - rewrite IH, Permutation_insert_desc.
      rewrite <- Permutation_middle. reflexivity. }
  rewrite G. reflexivity.
Qed.

Definition desc {A} (key : A -> Q) (a b : A) : Prop := (key b <= key a)%Q.

Lemma Sorted_insert_desc {A} (key : A -> Q) x l :
  Sorted (desc key) l -> Sorted (desc key) (insert_desc key x l).
Proof.
  induction l as [| y l IH]; intros H; simpl.
  - repeat constructor.
  - destruct (Qlt_bool (key y) (key x)) eqn:E.
    + constructor; [exact H|]. constructor. unfold desc.
      apply Qlt_le_weak, Qlt_bool_true, E.
    + apply Sorted_inv in H as [Hs Hh]. constructor; [apply IH, Hs|].
      destruct l as [| z l]; simpl.
      * constructor. unfold desc. apply Qlt_bool_false, E.
      * destruct (Qlt_bool (key z) (key x)); constructor; unfold desc.
        -- apply Qlt_bool_false, E.
        -- inversion Hh; assumption.
Qed.

Lemma Sorted_sort_desc {A} (key : A -> Q) l : Sorted (desc key) (sort_desc key l).
Proof.
  unfold sort_desc.
  assert (G : forall acc, Sorted (desc key) acc ->
            Sorted (desc key) (fold_left (fun acc x => insert_desc key x acc) l acc)).
  { induction l as [| a l IH]; intros acc H; simpl; [exact H|].
    apply IH, Sorted_insert_desc, H. }
  apply G. constructor.
Qed.

Lemma pymax_ge_l a b : (a <= pymax a b)%Q.
Proof.
  unfold pymax. destruct (Qlt_bool a b) eqn:E; [|apply Qle_refl].
  apply Qlt_le_weak, Qlt_bool_true, E.
Qed.

Lemma pymax_ge_r a b : (b <= pymax a b)%Q.
Proof.
  unfold pymax. destruct (Qlt_bool a b) eqn:E; [apply Qle_refl|].
  apply Qlt_bool_false, E.
Qed.

Lemma pymax_cases a b : pymax a b = a \/ pymax a b = b.
Proof. unfold pymax. destruct (Qlt_bool a b); auto. Qed.

Lemma dict_get_set {K V} (eqb : K -> K -> bool)
  (eqb_spec : forall a b, eqb a b = true <-> a = b) k k' (v : V) d :
  dict_get eqb k (dict_set eqb k' v d) = if eqb k k' then Some v else dict_get eqb k d.
Proof.
  induction d as [| [k0 v0] d IH]; simpl.
  - destruct (eqb k k'); reflexivity.
  - destruct (eqb k' k0) eqn:E0.
    + apply eqb_spec in E0. subst k0. simpl. destruct (eqb k k'); reflexivity.
    + simpl. rewrite IH. destruct (eqb k k0) eqn:E1; [|reflexivity].
      destruct (eqb k k') eqn:E2; [|reflexivity].
      apply eqb_spec in E1. apply eqb_spec in E2. subst.
      rewrite (proj2 (eqb_spec _ _) eq_refl) in E0. discriminate.
Qed.

End PyFacts.

(** * Properties of the feature mapper *)
Module FeatureMapperFacts.
Import Py Config FeatureMapper.

(** Ordering of the complexity tiers. *)
Definition tier (c : string) : nat :=
  if String.eqb c "low" then 0%nat
  else if String.eqb c "medium" then 1%nat
  else 2%nat.

(** Risk levels produced by [_determine_risk_level], ordered. *)
Definition risk_rank (r : string) : option nat :=
  if String.eqb r "Low" then Some 0%nat
  else if String.eqb r "Medium" then Some 1%nat
  else if String.eqb r "High" then Some 2%nat
  else None.

Definition with_deps_risk (f : Feature) (deps : list string) (r : string) : Feature :=
  {| name := name f; description := description f; complexity := complexity f;
     status := status f; estimated_hours := estimated_hours f;
     actual_hours := actual_hours f; commit_count := commit_count f;
     lines_of_code := lines_of_code f; business_value := business_value f;
     priority := priority f; risk_level := r;
     confidence := confidence f; start_date := start_date f;
     end_date := end_date f; dependencies := deps; tags := tags f |}.

Lemma get_complexity_level_cases c loc n :
  get_complexity_level c loc n = "low" \/ get_complexity_level c loc n = "medium"
  \/ get_complexity_level c loc n = "high".
Proof.
  unfold get_complexity_level.
  destruct (_ && _); [auto|]. destruct (_ && _); auto.
Qed.

Lemma assess_complexity_cases c f :
  assess_complexity c f = "low" \/ assess_complexity c f = "medium"
  \/ assess_complexity c f = "high".
Proof.
  unfold assess_complexity.
  destruct (get_complexity_level_cases c (lines_of_code f) (commit_count f))
    as [E | [E | E]]; rewrite E;
  destruct (_ && _); destruct (String.eqb (risk_level f) "high"); simpl; auto.
Qed.

(** The dependency step alone, as [assess_complexity] computes it. *)
Definition dep_step (deps : list string) (c : string) : string :=
  if (negb (match deps with [] => true | _ => false end)) && (Nat.ltb 3 (length deps))
  then if String.eqb c "low" then "medium"
       else if String.eqb c "medium" then "high" else c
  else c.

Lemma assess_complexity_no_high c f :
  risk_level f <> "high" ->
  assess_complexity c f
  = dep_step (dependencies f) (get_complexity_level c (lines_of_code f) (commit_count f)).
Proof.
  intro H. unfold assess_complexity, dep_step.
  apply String.eqb_neq in H. rewrite H. reflexivity.
Qed.

Lemma risk_rank_not_high r n : risk_rank r = Some n -> r <> "high".
Proof.
  unfold risk_rank. intros H E. subst r. discriminate H.
Qed.

Lemma dep_step_mono deps extra b :
  (b = "low" \/ b = "medium" \/ b = "high") ->
  (tier (dep_step deps b) <= tier (dep_step (app deps extra) b))%nat.
Proof.
  intros Hb. unfold dep_step.
  destruct deps as [| d ds]; simpl.
  - destruct extra as [| e es]; simpl; [lia|].
    destruct (Nat.ltb 3 (S (length es))); destruct Hb as [-> | [-> | ->]];
      unfold tier; simpl; lia.
  - rewrite length_app.
    destruct (Nat.ltb 3 (S (length ds))) eqn:E1.
    + apply Nat.ltb_lt in E1.
      assert (E2 : Nat.ltb 3 (S (length ds + length extra)) = true)
        by (apply Nat.ltb_lt; lia).
      rewrite E2. simpl. lia.
    + destruct (Nat.ltb 3 (S (length ds + length extra)));
        destruct Hb as [-> | [-> | ->]]; unfold tier; simpl; lia.
Qed.

Lemma Qfloor_nonneg x : (0 <= x)%Q -> 0 <= Qfloor x.
Proof.
  intro H. rewrite <- (Qfloor_Z 0). apply Qfloor_resp_le. exact H.
Qed.

Lemma round_half_even_nonneg x : (0 <= x)%Q -> 0 <= round_half_even x.
Proof.
  intro H. pose proof (Qfloor_nonneg x H).
  unfold round_half_even.
  destruct (Qcompare _ _); [destruct (Z.even _)|..]; lia.
Qed.

Lemma round1_nonneg x : (0 <= x)%Q -> (0 <= round1 x)%Q.
Proof.
  intro H. unfold round1.
  assert (0 <= round_half_even (x * 10)).
  { apply round_half_even_nonneg.
    apply Qmult_le_0_compat; [exact H | discriminate]. }
  unfold Qle; simpl; lia.
Qed.

Lemma round1_idem z : round1 (z # 10) = (z # 10)%Q.
Proof.
  unfold round1, round_half_even.
  change ((z # 10) * 10)%Q with (z * 10 # 10)%Q.
  unfold Qfloor. rewrite Z.div_mul by lia.
  unfold Qcompare, Qminus, Qplus, Qopp, inject_Z. simpl.
  replace ((z * 10 * 1 + - z * 10) * 2) with 0 by ring.
  reflexivity.
Qed.

Lemma round1_shape x : exists z, round1 x = (z # 10)%Q.
Proof. exists (round_half_even (x * 10)). reflexivity. Qed.

(** A feature passed to [assess_complexity] with the risk level ['High'],
    the value [_determine_risk_level] produces. *)
Definition feature_high_risk : Feature := {|
  name := "Payments"; description := "Development work"; complexity := "medium";
  status := "planned"; estimated_hours := 0%Q; actual_hours := None;
  commit_count := 1; lines_of_code := 50; business_value := "High";
  priority := "High"; risk_level := "High"; confidence := (5 # 10)%Q;
  start_date := None; end_date := None; dependencies := []; tags := [] |}.

(** Feature data over 1000 changed lines, for which [_determine_risk_level]
    returns ['High']. *)
Definition data_1200_lines : FeatureData := {|
  fd_commits := []; fd_lines_changed := 1200; fd_start_date := None;
  fd_end_date := None; fd_tags := []; fd_dependencies := None |}.

(** C3 (evaluated at the failing input): the risk levels produced by
    [_determine_risk_level] are capitalised (['High']), and a feature whose
    base level is ['low'] and whose risk level is ['High'] keeps ['low'];
    [assess_complexity] only escalates on the lower-case string ['high']. *)
Theorem assess_complexity_High_risk_not_escalated :
  _determine_risk_level data_1200_lines = "High"
  /\ get_complexity_level default_thresholds (lines_of_code feature_high_risk)
       (commit_count feature_high_risk) = "low"
  /\ assess_complexity default_thresholds feature_high_risk = "low".
Proof. vm_compute. repeat split. Qed.

(** C6: holding the other fields fixed, appending dependencies and raising
    the risk level within Low < Medium < High never lowers the tier that
    [assess_complexity] returns. *)
Theorem assess_complexity_monotone c f extra r a b :
  risk_rank (risk_level f) = Some a -> risk_rank r = Some b -> (a <= b)%nat ->
  (tier (assess_complexity c f)
   <= tier (assess_complexity c (with_deps_risk f (app (dependencies f) extra) r)))%nat.
Proof.
  intros Ha Hb _.
  rewrite (assess_complexity_no_high c f) by (eapply risk_rank_not_high; eauto).
  rewrite (assess_complexity_no_high c (with_deps_risk f _ r))
    by (simpl; eapply risk_rank_not_high; eauto).
  simpl. apply dep_step_mono, get_complexity_level_cases.
Qed.

Definition feature_low_risk : Feature := {|
  name := "Core"; description := "Development work"; complexity := "medium";
  status := "planned"; estimated_hours := 0%Q; actual_hours := None;
  commit_count := 4; lines_of_code := 200; business_value := "High";
  priority := "High"; risk_level := "Low"; confidence := (5 # 10)%Q;
  start_date := None; end_date := None; dependencies := ["Backend API"]; tags := [] |}.

Lemma assess_complexity_monotone_witness :
  risk_rank (risk_level feature_low_risk) = Some 0%nat
  /\ risk_rank "High" = Some 2%nat
  /\ (tier (assess_complexity default_thresholds feature_low_risk)
      <= tier (assess_complexity default_thresholds
                 (with_deps_risk feature_low_risk
                    (app (dependencies feature_low_risk) ["Database"; "UI Components"; "Cache"])
                    "High")))%nat.
Proof.
  split; [reflexivity|]. split; [reflexivity|].
  apply (assess_complexity_monotone default_thresholds feature_low_risk
           ["Database"; "UI Components"; "Cache"] "High" 0%nat 2%nat);
    [reflexivity | reflexivity | lia].
Defined.

Lemma QofZ_nonneg z : 0 <= z -> (0 <= QofZ z)%Q.
Proof. intro H. unfold QofZ, Qle; simpl; lia. Qed.

Lemma Qofnat_nonneg n : (0 <= Qofnat n)%Q.
Proof. unfold Qofnat, Qle; simpl; lia. Qed.

Lemma get_time_estimate_nonneg c cx n :
  (0 <= LOW_COMPLEXITY_MULTIPLIER c)%Q -> (0 <= MEDIUM_COMPLEXITY_MULTIPLIER c)%Q ->
  (0 <= HIGH_COMPLEXITY_MULTIPLIER c)%Q -> (0 <= TOTAL_BUFFER c)%Q -> 0 <= n ->
  (0 <= get_time_estimate c cx n)%Q.
Proof.
  intros Hl Hm Hh Hb Hn. unfold get_time_estimate.
  apply round1_nonneg. apply Qmult_le_0_compat.
  - apply Qmult_le_0_compat; [|apply QofZ_nonneg; exact Hn].
    destruct (String.eqb cx "low"); [exact Hl|].
    destruct (String.eqb cx "medium"); [exact Hm|].
    destruct (String.eqb cx "high"); [exact Hh | discriminate].
  - apply (Qle_trans _ (0 + 0)); [discriminate|].
    apply Qplus_le_compat; [discriminate | exact Hb].
Qed.

(** C8: under thresholds with non-negative multipliers and buffer (the
    defaults among them) and a non-negative commit count,
    [estimate_development_time] is non-negative, is its own rounding to
    one decimal, and depends only on the feature's complexity, commit
    count, business value, risk level and dependency list. *)
Theorem estimate_development_time_spec c f :
  (0 <= LOW_COMPLEXITY_MULTIPLIER c)%Q -> (0 <= MEDIUM_COMPLEXITY_MULTIPLIER c)%Q ->
  (0 <= HIGH_COMPLEXITY_MULTIPLIER c)%Q -> (0 <= TOTAL_BUFFER c)%Q ->
  0 <= commit_count f ->
  (0 <= estimate_development_time c f)%Q
  /\ round1 (estimate_development_time c f) = estimate_development_time c f
  /\ (forall g, complexity g = complexity f -> commit_count g = commit_count f ->
        business_value g = business_value f -> risk_level g = risk_level f ->
        dependencies g = dependencies f ->
        estimate_development_time c g = estimate_development_time c f).
Proof.
  intros Hl Hm Hh Hb Hn. split; [|split].
  - unfold estimate_development_time. apply round1_nonneg.
    apply Qmult_le_0_compat; [apply get_time_estimate_nonneg; assumption|].
    assert (Hd : forall q, (0 <= q)%Q ->
               (0 <= match dependencies f with
                     | [] => q
                     | _ => q * (1 + Qofnat (length (dependencies f)) * (1 # 10))
                     end)%Q).
    { intros q Hq. destruct (dependencies f); [exact Hq|].
      apply Qmult_le_0_compat; [exact Hq|].
      apply (Qle_trans _ (0 + 0)); [discriminate|].
      apply Qplus_le_compat; [discriminate|].
      apply Qmult_le_0_compat; [apply Qofnat_nonneg | discriminate]. }
    apply Hd.
    destruct (String.eqb (business_value f) "Critical");
      [|destruct (String.eqb (business_value f) "Minimal")];
    (destruct (String.eqb (risk_level f) "High");
      [|destruct (String.eqb (risk_level f) "Low")]);
    vm_compute; discriminate.
  - assert (E : exists z, estimate_development_time c f = (z # 10)%Q)
      by (unfold estimate_development_time; apply round1_shape).
    destruct E as [z Hz]. rewrite Hz. apply round1_idem.
  - intros g H1 H2 H3 H4 H5. unfold estimate_development_time.
    rewrite H1, H2, H3, H4, H5. reflexivity.
Qed.

Lemma estimate_development_time_spec_witness :
  (0 <= estimate_development_time default_thresholds feature_low_risk)%Q
  /\ round1 (estimate_development_time default_thresholds feature_low_risk)
     = estimate_development_time default_thresholds feature_low_risk.
Proof.
  destruct (estimate_development_time_spec default_thresholds feature_low_risk)
    as [H1 [H2 _]];
    try (vm_compute; discriminate); try (vm_compute; reflexivity).
  split; assumption.
Defined.

Lemma create_feature_complexity c n d commits :
  complexity (_create_feature_object c n d commits) = "low"
  \/ complexity (_create_feature_object c n d commits) = "medium"
  \/ complexity (_create_feature_object c n d commits) = "high".
Proof. unfold _create_feature_object. simpl. apply assess_complexity_cases. Qed.

Definition valid_complexity (f : Feature) : Prop :=
  complexity f = "low" \/ complexity f = "medium" \/ complexity f = "high".

Lemma group_fold_Forall (fs : list Feature) g :
  Forall valid_complexity fs ->
  Forall (fun kv => Forall valid_complexity (snd kv)) g ->
  Forall (fun kv => Forall valid_complexity (snd kv))
    (fold_left group_step fs g).
Proof.
  revert g. induction fs as [| f fs IH]; intros g Hfs Hg; simpl; [exact Hg|].
  inversion Hfs; subst. apply IH; [assumption|]. unfold group_step.
  destruct (dict_get String.eqb (_determine_feature_group f) g) eqn:E.
  - apply PyFacts.dict_set_Forall; [exact Hg|].
    apply Forall_app. split; [|constructor; auto].
    exact (PyFacts.dict_get_Forall _ _ _ _ _ Hg E).
  - apply PyFacts.dict_set_Forall; [exact Hg | constructor; auto].
Qed.

Lemma sum_complexity_scores_Some fs :
  Forall valid_complexity fs -> exists t, sum_complexity_scores fs = Some t.
Proof.
  induction fs as [| f fs IH]; intros H; simpl; [eauto|].
  inversion H as [| ? ? Hf Hfs]; subst. destruct (IH Hfs) as [t Ht]. rewrite Ht.
  destruct Hf as [E | [E | E]]; rewrite E; cbn; eauto.
Qed.

Lemma make_groups_Some gs :
  Forall (fun kv => Forall valid_complexity (snd kv)) gs ->
  exists r, make_groups gs = Some r.
Proof.
  induction gs as [| [n fs] gs IH]; intros H; simpl; [eauto|].
  inversion H as [| ? ? Hf Hgs]; subst. simpl in Hf.
  unfold make_group. destruct (sum_complexity_scores_Some fs Hf) as [t Ht].
  rewrite Ht. destruct (IH Hgs) as [r Hr]. rewrite Hr. eauto.
Qed.

(** C10: every feature returned by [identify_features] has complexity
    ['low'], ['medium'] or ['high'], so [group_features] never hits a
    missing key of its complexity-score table on that list; this holds
    for every dict the commit-message extractor may return. *)
Theorem identify_features_complexity_valid c extract commits directories :
  Forall valid_complexity (identify_features c extract commits directories)
  /\ group_features (identify_features c extract commits directories) <> None.
Proof.
  assert (HF : Forall valid_complexity (identify_features c extract commits directories)).
  { apply Forall_forall. intros f Hf.
    unfold identify_features in Hf. apply PyFacts.In_sort_desc in Hf.
    apply in_map_iff in Hf. destruct Hf as [[n d] [<- _]].
    apply create_feature_complexity. }
  split; [exact HF|].
  unfold group_features.
  destruct (make_groups_Some _ (group_fold_Forall _ [] HF (Forall_nil _))) as [r Hr].
  rewrite Hr. discriminate.
Qed.

End FeatureMapperFacts.

(** * Properties of the commit pattern analysis *)
Module GitAnalyzerFacts.
Import Py Git GitAnalyzer.

(** The four commit categories of the classifier. *)
Inductive Category := Feat | BugFix | Refactor | Docs.

Definition category_eq_dec (x y : option Category) : {x = y} + {x <> y}.
Proof. decide equality. decide equality. Defined.

(** First-match classification of one commit, in the order
    feature, bug fix, refactor, documentation. *)
Definition classify (cfg : GitAnalysisConfig) (c : CommitInfo) : option Category :=
  let m := lower (message c) in
  if any_in (FEATURE_PATTERNS cfg) m then Some Feat
  else if any_in (BUG_FIX_PATTERNS cfg) m then Some BugFix
  else if any_in (REFACTOR_PATTERNS cfg) m then Some Refactor
  else if any_in (DOCUMENTATION_PATTERNS cfg) m then Some Docs
  else None.

(** Number of commits classified as [o] ([None]: unclassified). *)
Definition count_class (cfg : GitAnalysisConfig) (o : option Category)
  (l : list CommitInfo) : nat :=
  length (filter (fun c => if category_eq_dec (classify cfg c) o then true else false) l).

Lemma tuple5_eq (a b c d e a' b' c' d' e' : Z) :
  a = a' -> b = b' -> c = c' -> d = d' -> e = e' ->
  (a, b, c, d, e) = (a', b', c', d', e').
Proof. intros; subst; reflexivity. Qed.

Definition ind (cfg : GitAnalysisConfig) (c : CommitInfo) (o : option Category) : Z :=
  if category_eq_dec (classify cfg c) o then 1 else 0.

Lemma count_step_eq cfg f b r d m c :
  count_step cfg (f, b, r, d, m) c
  = (f + ind cfg c (Some Feat), b + ind cfg c (Some BugFix),
     r + ind cfg c (Some Refactor), d + ind cfg c (Some Docs),
     if is_merge c then m + 1 else m).
Proof.
  unfold count_step, ind, classify.
  destruct (any_in (FEATURE_PATTERNS cfg) (lower (message c)));
  [|destruct (any_in (BUG_FIX_PATTERNS cfg) (lower (message c)));
  [|destruct (any_in (REFACTOR_PATTERNS cfg) (lower (message c)));
  [|destruct (any_in (DOCUMENTATION_PATTERNS cfg) (lower (message c)))]]];
  simpl; apply tuple5_eq; lia.
Qed.

Lemma count_class_cons cfg o c l :
  Z.of_nat (count_class cfg o (c :: l)) = ind cfg c o + Z.of_nat (count_class cfg o l).
Proof.
  unfold count_class, ind. cbn [filter].
  destruct (category_eq_dec (classify cfg c) o); cbn [length]; lia.
Qed.

Lemma count_step_fold cfg l f b r d m :
  exists m',
    fold_left (count_step cfg) l (f, b, r, d, m)
    = (f + Z.of_nat (count_class cfg (Some Feat) l),
       b + Z.of_nat (count_class cfg (Some BugFix) l),
       r + Z.of_nat (count_class cfg (Some Refactor) l),
       d + Z.of_nat (count_class cfg (Some Docs) l), m').
Proof.
  revert f b r d m.
  induction l as [| c l IH]; intros f b r d m.
  - exists m. simpl. apply tuple5_eq; lia.
  - cbn [fold_left]. rewrite count_step_eq.
    destruct (IH (f + ind cfg c (Some Feat)) (b + ind cfg c (Some BugFix))
                (r + ind cfg c (Some Refactor)) (d + ind cfg c (Some Docs))
                (if is_merge c then m + 1 else m)) as [m' Hm'].
    exists m'. rewrite Hm'. rewrite !count_class_cons. apply tuple5_eq; lia.
Qed.

Lemma count_class_partition cfg l :
  (count_class cfg (Some Feat) l + count_class cfg (Some BugFix) l
   + count_class cfg (Some Refactor) l + count_class cfg (Some Docs) l
   + count_class cfg None l)%nat = length l.
Proof.
  induction l as [| c l IH]; [reflexivity|].
  unfold count_class in *; simpl.
  destruct (classify cfg c) as [[]|]; simpl; lia.
Qed.

(** C2: each commit is counted in at most one category, the one of the
    first matching pattern table (feature, bug fix, refactor,
    documentation), and the four counters plus the unclassified commits
    add up to [total_commits]. *)
Theorem commit_classification_partition cfg commits :
  let P := _analyze_commit_patterns cfg commits in
  feature_commits P = Z.of_nat (count_class cfg (Some Feat) commits)
  /\ bug_fix_commits P = Z.of_nat (count_class cfg (Some BugFix) commits)
  /\ refactor_commits P = Z.of_nat (count_class cfg (Some Refactor) commits)
  /\ documentation_commits P = Z.of_nat (count_class cfg (Some Docs) commits)
  /\ feature_commits P + bug_fix_commits P + refactor_commits P
     + documentation_commits P + Z.of_nat (count_class cfg None commits)
     = total_commits P.
Proof.
  intro P. subst P.
  pose proof (count_class_partition cfg commits) as Hp.
  destruct commits as [| c0 rest] eqn:Ec.
  - simpl. repeat split.
  - unfold _analyze_commit_patterns.
    destruct (count_step_fold cfg (c0 :: rest) 0 0 0 0 0) as [m' Hm].
    rewrite Hm. cbn -[Z.of_nat length count_class Z.add]. repeat split; lia.
Qed.

Lemma dict_set_keys {V} k (v : V) d x :
  In x (map fst (dict_set Z.eqb k v d)) <-> k = x \/ In x (map fst d).
Proof.
  induction d as [| [k' v'] d IH]; simpl.
  - tauto.
  - destruct (Z.eqb k k') eqn:E; simpl.
    + apply Z.eqb_eq in E. subst k'. tauto.
    + rewrite IH. tauto.
Qed.

Lemma dict_set_NoDup {V} k (v : V) d :
  NoDup (map fst d) -> NoDup (map fst (dict_set Z.eqb k v d)).
Proof.
  induction d as [| [k' v'] d IH]; simpl; intros H.
  - constructor; [intros []| constructor].
  - inversion H as [| ? ? Hn Hd]; subst.
    destruct (Z.eqb k k') eqn:E; simpl.
    + exact H.
    + constructor; [|apply IH; exact Hd].
      rewrite dict_set_keys. intros [E' | E'].
      * subst k'. rewrite Z.eqb_refl in E. discriminate.
      * contradiction.
Qed.

Lemma weekly_fold_spec l acc :
  NoDup (map fst acc) ->
  NoDup (map fst (fold_left (fun weekly c =>
    let k := week_key c in
    match dict_get Z.eqb k weekly with
    | Some n => dict_set Z.eqb k (n + 1) weekly
    | None => dict_set Z.eqb k 1 weekly
    end) l acc))
  /\ forall x, In x (map fst (fold_left (fun weekly c =>
    let k := week_key c in
    match dict_get Z.eqb k weekly with
    | Some n => dict_set Z.eqb k (n + 1) weekly
    | None => dict_set Z.eqb k 1 weekly
    end) l acc)) <-> In x (map fst acc) \/ In x (map week_key l).
Proof.
  revert acc. induction l as [| c l IH]; intros acc H; simpl.
  - split; [exact H | tauto].
  - destruct (dict_get Z.eqb (week_key c) acc) as [n|].
    + destruct (IH _ (dict_set_NoDup (week_key c) (n + 1) acc H)) as [H1 H2].
      split; [exact H1 | intros x; rewrite H2, dict_set_keys; tauto].
    + destruct (IH _ (dict_set_NoDup (week_key c) 1 acc H)) as [H1 H2].
      split; [exact H1 | intros x; rewrite H2, dict_set_keys; tauto].
Qed.

Lemma NoDup_same_length (a b : list Z) :
  NoDup a -> NoDup b -> (forall x, In x a <-> In x b) -> length a = length b.
Proof.
  intros Ha Hb H.
  apply Nat.le_antisymm; apply NoDup_incl_length; try assumption;
    intros x Hx; apply H; assumption.
Qed.

(** Number of distinct weeks the commits fall in. *)
Definition distinct_weeks (commits : list CommitInfo) : nat :=
  length (nodup Z.eq_dec (map week_key commits)).

Lemma weekly_counts_length commits :
  length (weekly_counts commits) = distinct_weeks commits.
Proof.
  unfold weekly_counts, distinct_weeks.
  destruct (weekly_fold_spec commits [] (NoDup_nil _)) as [H1 H2].
  rewrite <- (length_map fst). apply NoDup_same_length.
  - exact H1.
  - apply NoDup_nodup.
  - intros x. rewrite H2, nodup_In. simpl. tauto.
Qed.

Definition trend_values : list string :=
  ["increasing"; "decreasing"; "stable"; "insufficient_data"].

(** C4 (counterexample): on the empty commit list the trend is
    ['unknown'], none of the four values. *)
Lemma commit_frequency_trend_empty_unknown :
  commit_frequency_trend (_analyze_commit_patterns default_git_config []) = "unknown"
  /\ ~ In (commit_frequency_trend (_analyze_commit_patterns default_git_config []))
         trend_values.
Proof. split; [reflexivity|]. vm_compute. intuition discriminate. Qed.

Lemma trend_cases commits :
  In (_analyze_commit_frequency_trend commits) trend_values
  /\ ((length commits < 10 \/ distinct_weeks commits < 3)%nat ->
      _analyze_commit_frequency_trend commits = "insufficient_data").
Proof.
  unfold _analyze_commit_frequency_trend, trend_values.
  rewrite <- weekly_counts_length.
  destruct (Nat.ltb (length commits) 10) eqn:E1.
  - split; [simpl; do 3 right; left; reflexivity | reflexivity].
  - destruct (Nat.ltb (length (weekly_counts commits)) 3) eqn:E2.
    + split; [simpl; do 3 right; left; reflexivity | reflexivity].
    + apply Nat.ltb_ge in E1. apply Nat.ltb_ge in E2. split.
      * destruct (Qlt_bool _ _); [simpl; left; reflexivity|].
        destruct (Qlt_bool _ _); simpl;
          [right; left; reflexivity | right; right; left; reflexivity].
      * intros [H | H]; lia.
Qed.

(** C4 (amended): the empty list yields ['unknown']; every non-empty
    commit list yields one of ['increasing'], ['decreasing'], ['stable'],
    ['insufficient_data'], and ['insufficient_data'] when it has fewer
    than 10 commits or spans fewer than 3 distinct weeks. *)
Theorem commit_frequency_trend_values cfg commits :
  (commits = [] -> commit_frequency_trend (_analyze_commit_patterns cfg commits) = "unknown")
  /\ (commits <> [] ->
      In (commit_frequency_trend (_analyze_commit_patterns cfg commits)) trend_values
      /\ ((length commits < 10 \/ distinct_weeks commits < 3)%nat ->
          commit_frequency_trend (_analyze_commit_patterns cfg commits)
          = "insufficient_data")).
Proof.
  split.
  - intros ->. reflexivity.
  - intros Hne. destruct commits as [| c0 rest]; [contradiction|].
    unfold _analyze_commit_patterns.
    destruct (fold_left (count_step cfg) (c0 :: rest) (0, 0, 0, 0, 0))
      as [[[[f b] r] d] m].
    cbn [commit_frequency_trend]. apply trend_cases.
Qed.

Definition sample_commit (t : Z) (m : string) : CommitInfo := {|
  hash := "0000000"; author := "dev"; author_email := "dev@example.com";
  date := t; message := m; files_changed := 1; lines_added := 10;
  lines_deleted := 0; is_merge := false; branch := "main" |}.

Definition sample_commits : list CommitInfo :=
  [sample_commit 0 "feat: add login"; sample_commit 86400 "fix: null pointer";
   sample_commit 200000 "docs: update readme"].

Lemma commit_frequency_trend_values_witness :
  sample_commits <> [] /\ (length sample_commits < 10)%nat
  /\ commit_frequency_trend (_analyze_commit_patterns default_git_config sample_commits)
     = "insufficient_data".
Proof.
  split; [discriminate|]. split; [simpl; lia|].
  apply (proj2 (proj2 (commit_frequency_trend_values default_git_config sample_commits)
                 ltac:(discriminate))).
  left. simpl. lia.
Defined.

End GitAnalyzerFacts.

(** * Properties of the technology deduplication *)
Module RepoAnalyzerFacts.
Import Py PyFacts RepoAnalyzer.

Lemma key_eqb_spec a b : key_eqb a b = true <-> a = b.
Proof.
  destruct a as [a1 a2], b as [b1 b2]. unfold key_eqb. simpl.
  rewrite andb_true_iff, !String.eqb_eq. split.
  - intros [-> ->]. reflexivity.
  - intros H. injection H as -> ->. auto.
Qed.

Lemma key_eqb_sym a b : key_eqb a b = key_eqb b a.
Proof.
  destruct (key_eqb a b) eqn:E; symmetry.
  - apply key_eqb_spec in E. subst. apply key_eqb_spec. reflexivity.
  - apply not_true_iff_false. intro H. apply key_eqb_spec in H. subst.
    rewrite (proj2 (key_eqb_spec _ _) eq_refl) in E. discriminate.
Qed.

(** Successive merges of later entries into the first one. *)
Definition merge_all (x : TechnologyInfo) (xs : list TechnologyInfo) : TechnologyInfo :=
  fold_left merge_into xs x.

Lemma merge_all_spec x xs :
  tech_key (merge_all x xs) = tech_key x
  /\ evidence (merge_all x xs) = concat (map evidence (x :: xs))
  /\ (forall y, In y (x :: xs) -> (tconfidence y <= tconfidence (merge_all x xs))%Q)
  /\ In (tconfidence (merge_all x xs)) (map tconfidence (x :: xs)).
Proof.
  revert x. induction xs as [| y ys IH]; intros x.
  - simpl. rewrite app_nil_r. repeat split.
    + intros z [<- | []]. apply Qle_refl.
    + left. reflexivity.
  - unfold merge_all. simpl. fold (merge_all (merge_into x y) ys).
    destruct (IH (merge_into x y)) as [Hk [He [Hm Hin]]].
    repeat split.
    + rewrite Hk. reflexivity.
    + rewrite He. simpl. rewrite app_assoc. reflexivity.
    + intros z [<- | [<- | Hz]].
      * apply (Qle_trans _ (tconfidence (merge_into x y))).
        -- apply pymax_ge_l.
        -- apply Hm. left. reflexivity.
      * apply (Qle_trans _ (tconfidence (merge_into x y))).
        -- apply pymax_ge_r.
        -- apply Hm. left. reflexivity.
      * apply Hm. right. exact Hz.
    + destruct Hin as [E | E].
      * simpl in E. destruct (pymax_cases (tconfidence x) (tconfidence y)) as [P | P];
          rewrite <- E, P; [left | right; left]; reflexivity.
      * right. right. exact E.
Qed.

Definition key_filter (k : string * string) (l : list TechnologyInfo) :=
  filter (fun y => key_eqb (tech_key y) k) l.

Lemma dedup_fold_get l acc k :
  dict_get key_eqb k (fold_left dedup_step l acc)
  = match dict_get key_eqb k acc with
    | Some t => Some (merge_all t (key_filter k l))
    | None => match key_filter k l with
              | [] => None
              | x :: xs => Some (merge_all x xs)
              end
    end.
Proof.
  revert acc. induction l as [| x l IH]; intros acc; simpl.
  - destruct (dict_get key_eqb k acc); reflexivity.
  - rewrite IH. unfold key_filter. simpl.
    unfold dedup_step.
    destruct (key_eqb (tech_key x) k) eqn:Ek.
    + apply key_eqb_spec in Ek. subst k.
      destruct (dict_get key_eqb (tech_key x) acc) as [t|] eqn:Eg;
        rewrite (dict_get_set key_eqb key_eqb_spec);
        rewrite (proj2 (key_eqb_spec _ _) eq_refl); reflexivity.
    + destruct (dict_get key_eqb (tech_key x) acc);
        rewrite (dict_get_set key_eqb key_eqb_spec);
        rewrite key_eqb_sym, Ek; reflexivity.
Qed.

Lemma dict_set_keys_gen {V} k (v : V) (d : list ((string * string) * V)) x :
  In x (map fst (dict_set key_eqb k v d)) <-> k = x \/ In x (map fst d).
Proof.
  induction d as [| [k' v'] d IH]; simpl.
  - tauto.
  - destruct (key_eqb k k') eqn:E; simpl.
    + apply key_eqb_spec in E. subst k'. tauto.
    + rewrite IH. tauto.
Qed.

Lemma dict_set_NoDup_gen {V} k (v : V) d :
  NoDup (map fst d) -> NoDup (map fst (dict_set key_eqb k v d)).
Proof.
  induction d as [| [k' v'] d IH]; simpl; intros H.
  - constructor; [intros []| constructor].
  - inversion H as [| ? ? Hn Hd]; subst.
    destruct (key_eqb k k') eqn:E; simpl.
    + exact H.
    + constructor; [|apply IH; exact Hd].
      rewrite dict_set_keys_gen. intros [E' | E'].
      * subst k'. rewrite (proj2 (key_eqb_spec k k) eq_refl) in E. discriminate.
      * contradiction.
Qed.

Lemma dict_set_keyed k t d :
  tech_key t = k -> Forall (fun kv => tech_key (snd kv) = fst kv) d ->
  Forall (fun kv => tech_key (snd kv) = fst kv) (dict_set key_eqb k t d).
Proof.
  intros Ht. induction d as [| [k' v'] d IH]; intros H; simpl.
  - constructor; [exact Ht | constructor].
  - inversion H as [| ? ? Hh Hd]. destruct (key_eqb k k') eqn:E.
    + apply key_eqb_spec in E. subst k'. constructor; [exact Ht | exact Hd].
    + constructor; [exact Hh | apply IH; exact Hd].
Qed.

Lemma dict_get_In {V} k (v : V) d :
  dict_get key_eqb k d = Some v -> In (k, v) d.
Proof.
  induction d as [| [k' v'] d IH]; simpl; intros H; [discriminate|].
  destruct (key_eqb k k') eqn:E.
  - apply key_eqb_spec in E. subst. injection H as ->. left. reflexivity.
  - right. apply IH, H.
Qed.

Lemma dedup_fold_inv l acc :
  NoDup (map fst acc) -> Forall (fun kv => tech_key (snd kv) = fst kv) acc ->
  NoDup (map fst (fold_left dedup_step l acc))
  /\ Forall (fun kv => tech_key (snd kv) = fst kv) (fold_left dedup_step l acc).
Proof.
  revert acc. induction l as [| x l IH]; intros acc H1 H2; simpl; [auto|].
  apply IH; unfold dedup_step;
    destruct (dict_get key_eqb (tech_key x) acc) as [t|] eqn:Eg;
    try apply dict_set_NoDup_gen; try apply dict_set_keyed; auto.
  apply dict_get_In in Eg. rewrite Forall_forall in H2.
  exact (H2 _ Eg).
Qed.

Lemma In_dict_get {V} k (v : V) d :
  NoDup (map fst d) -> In (k, v) d -> dict_get key_eqb k d = Some v.
Proof.
  induction d as [| [k' v'] d IH]; simpl; intros Hn H; [contradiction|].
  inversion Hn as [| ? ? Hk Hd]; subst.
  destruct H as [H | H].
  - injection H as -> ->. rewrite (proj2 (key_eqb_spec k k) eq_refl). reflexivity.
  - destruct (key_eqb k k') eqn:E.
    + apply key_eqb_spec in E. subst k'. exfalso. apply Hk.
      apply (in_map fst) in H. exact H.
    + apply IH; assumption.
Qed.

Lemma dedup_final_inv l :
  NoDup (map fst (fold_left dedup_step l []))
  /\ Forall (fun kv => tech_key (snd kv) = fst kv) (fold_left dedup_step l []).
Proof. apply dedup_fold_inv; constructor. Qed.

Lemma dedup_keys l :
  map tech_key (_deduplicate_technologies l) = map fst (fold_left dedup_step l []).
Proof.
  unfold _deduplicate_technologies. rewrite map_map.
  apply map_ext_in. intros [k t] H. simpl.
  destruct (dedup_final_inv l) as [_ H2]. rewrite Forall_forall in H2.
  exact (H2 _ H).
Qed.

(** C5: after [_deduplicate_technologies] no two entries share
    (name, category); every input key is represented; each output entry
    carries the concatenation, in input order, of the evidence lists of
    the inputs with its key and a confidence that is the maximum of
    theirs; and [_identify_technology_stack] returns those entries
    sorted by descending confidence. *)
Theorem deduplicate_technologies_spec (FileInfo : Type) config_pass source_pass
  build_pass (files : list FileInfo) (l : list TechnologyInfo) :
  NoDup (map tech_key (_deduplicate_technologies l))
  /\ (forall x, In x l ->
        exists t, In t (_deduplicate_technologies l) /\ tech_key t = tech_key x)
  /\ (forall t, In t (_deduplicate_technologies l) ->
        exists x xs, key_filter (tech_key t) l = x :: xs
        /\ evidence t = concat (map evidence (x :: xs))
        /\ (forall y, In y (x :: xs) -> (tconfidence y <= tconfidence t)%Q)
        /\ In (tconfidence t) (map tconfidence (x :: xs)))
  /\ Sorted (desc tconfidence)
       (_identify_technology_stack FileInfo config_pass source_pass build_pass files)
  /\ Permutation
       (_identify_technology_stack FileInfo config_pass source_pass build_pass files)
       (_deduplicate_technologies
          (app (app (config_pass files) (source_pass files)) (build_pass files)))
  /\ NoDup (map tech_key
       (_identify_technology_stack FileInfo config_pass source_pass build_pass files)).
Proof.
  destruct (dedup_final_inv l) as [Hnd Hkey].
  assert (HND : forall l', NoDup (map tech_key (_deduplicate_technologies l'))).
  { intros l'. rewrite dedup_keys. apply dedup_final_inv. }
  repeat split.
  - apply HND.
  - intros x Hx.
    pose proof (dedup_fold_get l [] (tech_key x)) as G. simpl in G.
    assert (Hf : In x (key_filter (tech_key x) l)).
    { unfold key_filter. apply filter_In. split; [exact Hx|].
      apply key_eqb_spec. reflexivity. }
    destruct (key_filter (tech_key x) l) as [| y ys]; [contradiction|].
    apply dict_get_In in G. exists (merge_all y ys). split.
    + unfold _deduplicate_technologies. apply (in_map snd) in G. exact G.
    + rewrite Forall_forall in Hkey. exact (Hkey _ G).
  - intros t Ht.
    unfold _deduplicate_technologies in Ht. apply in_map_iff in Ht.
    destruct Ht as [[k t'] [Et Hin]]. simpl in Et. subst t'.
    assert (Hk : tech_key t = k).
    { rewrite Forall_forall in Hkey. exact (Hkey _ Hin). }
    pose proof (In_dict_get _ _ _ Hnd Hin) as G1.
    rewrite dedup_fold_get in G1. simpl in G1. subst k.
    destruct (key_filter (tech_key t) l) as [| x xs] eqn:Ef; [discriminate|].
    injection G1 as G1. subst t.
    exists x, xs. destruct (merge_all_spec x xs) as [_ [He [Hm Hi]]].
    repeat split; assumption.
  - apply Sorted_sort_desc.
  - apply Permutation_sort_desc.
  - unfold _identify_technology_stack.
    eapply Permutation_NoDup; [|apply HND].
    apply Permutation_map. symmetry. apply Permutation_sort_desc.
Qed.

End RepoAnalyzerFacts.


(** * Facts about [developer_analyzer.py] *)

Module DeveloperAnalyzerFacts.
Import Py PyFacts Git DeveloperAnalyzer.

Lemma bus_factor_loop_bounds total l : forall bf,
  bf <= bus_factor_loop total bf l <= bf + Z.of_nat (length l)
  /\ (l <> [] -> bf + 1 <= bus_factor_loop total bf l).
Proof.
  induction l as [| p l IH]; intros bf.
  - simpl. split; [lia | congruence].
  - cbn [bus_factor_loop length].
    destruct (Qle_bool _ _).
    + split; [lia | intros _; lia].
    + destruct (IH (bf + 1)) as [[H1 H2] _].
      split; [lia | intros _; lia].
Qed.

Lemma calculate_bus_factor_cons p ps :
  _calculate_bus_factor (p :: ps)
  = if forallb (fun q => valid_business_value (business_value q)) (p :: ps)
    then inr (bus_factor_loop (Z.of_nat (length (p :: ps))) 0
                (sort_desc bus_weight_key (p :: ps)))
    else inl KeyError.
Proof. reflexivity. Qed.

Lemma knowledge_step_first p :
  valid_business_value (business_value p) = true ->
  knowledge_step (PInt 0, PInt 0) p = inl TypeError.
Proof.
  unfold knowledge_step, valid_business_value.
  destruct (business_weight (business_value p)); [reflexivity | discriminate].
Qed.

Lemma knowledge_concentration_cons p ps :
  valid_business_value (business_value p) = true ->
  _calculate_knowledge_concentration (p :: ps) = inl TypeError.
Proof.
  intros Hv. unfold _calculate_knowledge_concentration.
  cbn [fold_result]. rewrite (knowledge_step_first p Hv). reflexivity.
Qed.

Definition failing_profile : DeveloperProfile :=
  {| name := "alice"; email := "alice@example.com"; role := "Developer";
     company := "Example"; expertise_areas := []; skill_level := "Junior";
     skill_description := "new contributor";
     contribution_pattern := "Single contribution";
     commit_frequency := 1; last_contribution := 0;
     business_value := "High"; knowledge_areas := [];
     collaboration_score := 0; code_quality_score := 1 |}.

(** C1 (code bug): for every non-empty profile list
    [analyze_team_dynamics] raises instead of returning a
    [TeamDynamics]. [_calculate_knowledge_concentration] evaluates
    [weight * profile.contribution_pattern], an [int] times a [str],
    which is a string, and adds it to the integer [weighted_sum], which
    raises [TypeError]; a business value outside the five known ones
    makes [_calculate_bus_factor] raise [KeyError] first. *)
Theorem analyze_team_dynamics_raises (now : Z) (ps : list DeveloperProfile)
  (commits : list CommitInfo) :
  ps <> [] ->
  analyze_team_dynamics now ps commits
  = inl (if forallb (fun p => valid_business_value (business_value p)) ps
         then TypeError else KeyError).
Proof.
  destruct ps as [| p ps]; [congruence | intros _].
  unfold analyze_team_dynamics. rewrite calculate_bus_factor_cons.
  destruct (forallb _ (p :: ps)) eqn:Hv; [| reflexivity].
  cbn [bind]. destruct (_categorize_contributors (p :: ps)).
  simpl in Hv. apply andb_prop in Hv. destruct Hv as [Hp _].
  rewrite (knowledge_concentration_cons p ps Hp). reflexivity.
Qed.

Lemma analyze_team_dynamics_raises_witness :
  analyze_team_dynamics 0 [failing_profile] [] = inl TypeError
  /\ (documented_knowledge_concentration [failing_profile] == 1)%Q.
Proof.
  split.
  - rewrite (analyze_team_dynamics_raises 0 [failing_profile] []);
      [reflexivity | discriminate].
  - vm_compute. reflexivity.
Defined.

(** C7: [_calculate_bus_factor] returns 0 on the empty list; on a
    non-empty list whose business values are the five produced by
    [_assess_business_value] it returns an integer between 1 and the
    number of profiles. *)
Theorem calculate_bus_factor_bounds (ps : list DeveloperProfile) :
  _calculate_bus_factor [] = inr 0
  /\ (forall pct, valid_business_value (_assess_business_value pct) = true)
  /\ (ps <> [] ->
      forallb (fun p => valid_business_value (business_value p)) ps = true ->
      exists b, _calculate_bus_factor ps = inr b /\ 1 <= b <= Z.of_nat (length ps)).
Proof.
  split; [reflexivity | split].
  - intros pct. unfold _assess_business_value.
    repeat match goal with |- context [if ?c then _ else _] => destruct c end;
      reflexivity.
  - destruct ps as [| p ps]; [congruence | intros _ Hv].
    rewrite calculate_bus_factor_cons, Hv. eexists; split; [reflexivity |].
    pose proof (Permutation_length (Permutation_sort_desc bus_weight_key (p :: ps))) as Hl.
    destruct (sort_desc bus_weight_key (p :: ps)) as [| q qs] eqn:Es;
      [simpl in Hl; discriminate |].
    destruct (bus_factor_loop_bounds (Z.of_nat (length (p :: ps))) (q :: qs) 0)
      as [[H1 H2] H3].
    specialize (H3 ltac:(discriminate)).
    rewrite Hl in H2. lia.
Qed.

Lemma calculate_bus_factor_bounds_witness :
  exists b, _calculate_bus_factor [failing_profile] = inr b
            /\ 1 <= b <= Z.of_nat (length [failing_profile]).
Proof.
  apply (proj2 (proj2 (calculate_bus_factor_bounds [failing_profile])));
    [discriminate | reflexivity].
Defined.

End DeveloperAnalyzerFacts.


(** * Facts about [risk_assessor.py] *)

Module RiskAssessorFacts.
Import Py Git RiskAssessor.

(** C9: [_identify_business_risks] only ever reports the Timeline risk
    [BUS_002]: the scope-creep and resource-constraint scores are the
    constants 0.3 and 0.4 (0 when features or commits are empty), both
    below the 0.6 trigger. *)
Theorem identify_business_risks_only_timeline (now : Z)
  (features : list FeatureMapper.Feature) (commits : list CommitInfo) :
  Forall (fun r => id r = "BUS_002") (_identify_business_risks now features commits)
  /\ (length (_identify_business_risks now features commits) <= 1)%nat
  /\ _assess_scope_creep features commits
     = (if (nonempty features && nonempty commits)%bool then 3 # 10 else 0%Q)
  /\ _assess_resource_constraints commits features
     = (if (nonempty features && nonempty commits)%bool then 4 # 10 else 0%Q)
  /\ (_assess_scope_creep features commits < 6 # 10)%Q
  /\ (_assess_resource_constraints commits features < 6 # 10)%Q.
Proof.
  assert (Hs : _assess_scope_creep features commits
               = if (nonempty features && nonempty commits)%bool then 3 # 10 else 0%Q)
    by (destruct features, commits; reflexivity).
  assert (Hr : _assess_resource_constraints commits features
               = if (nonempty features && nonempty commits)%bool then 4 # 10 else 0%Q)
    by (destruct features, commits; reflexivity).
  assert (Hs' : Qlt_bool (6 # 10) (_assess_scope_creep features commits) = false)
    by (rewrite Hs; destruct (_ && _)%bool; reflexivity).
  assert (Hr' : Qlt_bool (6 # 10) (_assess_resource_constraints commits features) = false)
    by (rewrite Hr; destruct (_ && _)%bool; reflexivity).
  unfold _identify_business_risks. cbv zeta. rewrite Hs', Hr'.
  split; [| split; [| split; [exact Hs | split; [exact Hr | split]]]].
  - destruct (Qlt_bool (7 # 10) (_assess_timeline_risks features commits)); simpl; repeat constructor.
  - destruct (Qlt_bool (7 # 10) (_assess_timeline_risks features commits)); simpl; lia.
  - rewrite Hs. destruct (_ && _)%bool; reflexivity.
  - rewrite Hr. destruct (_ && _)%bool; reflexivity.
Qed.

End RiskAssessorFacts.


(** * Further facts about the shared helpers *)

Module PyExtraFacts.
Import Py PyFacts.

Lemma pymin_le_l a b : (pymin a b <= a)%Q.
Proof.
  unfold pymin. destruct (Qlt_bool b a) eqn:E; [|apply Qle_refl].
  apply Qlt_le_weak, Qlt_bool_true, E.
Qed.

Lemma pymin_le_r a b : (pymin a b <= b)%Q.
Proof.
  unfold pymin. destruct (Qlt_bool b a) eqn:E; [apply Qle_refl|].
  apply Qlt_bool_false, E.
Qed.

Lemma pymin_glb c a b : (c <= a)%Q -> (c <= b)%Q -> (c <= pymin a b)%Q.
Proof. unfold pymin. destruct (Qlt_bool b a); auto. Qed.

Lemma Qofnat_ge0 n : (0 <= Qofnat n)%Q.
Proof. unfold Qofnat, Qle; simpl; lia. Qed.

Lemma QofZ_ge0 z : 0 <= z -> (0 <= QofZ z)%Q.
Proof. intro H. unfold QofZ, Qle; simpl; lia. Qed.

Lemma Qofnat_S n : (Qofnat (S n) == Qofnat n + 1)%Q.
Proof.
  unfold Qofnat. rewrite Nat2Z.inj_succ, <- Z.add_1_r, inject_Z_plus. reflexivity.
Qed.

Lemma Qofnat_le m n : (m <= n)%nat -> (Qofnat m <= Qofnat n)%Q.
Proof. intros H. unfold Qofnat. rewrite <- Zle_Qle. lia. Qed.

Lemma Qofnat_pos n : (0 < n)%nat -> (0 < Qofnat n)%Q.
Proof. intros H. unfold Qofnat, Qlt; simpl; lia. Qed.

Lemma Qdiv_nonneg a b : (0 <= a)%Q -> (0 <= b)%Q -> (0 <= a / b)%Q.
Proof.
  intros Ha Hb. unfold Qdiv. apply Qmult_le_0_compat; [exact Ha|].
  apply Qinv_le_0_compat, Hb.
Qed.

(** [k / n] for [k <= n] lies in [[0, 1]]. *)
Lemma ratio_bounds k n :
  (k <= n)%nat -> (0 < n)%nat ->
  (0 <= Qofnat k / Qofnat n <= 1)%Q.
Proof.
  intros Hk Hn. split.
  - apply Qdiv_nonneg; apply Qofnat_ge0.
  - apply Qle_shift_div_r; [apply Qofnat_pos, Hn|].
    rewrite Qmult_1_l. apply Qofnat_le, Hk.
Qed.

(** Bounds on a running sum. *)
Lemma fold_sum_bounds {A} (f : A -> Q) (lo hi : Q) (l : list A) : forall acc,
  (forall x, In x l -> lo <= f x <= hi)%Q ->
  (acc + lo * Qofnat (length l) <= fold_left (fun a x => a + f x) l acc
   <= acc + hi * Qofnat (length l))%Q.
Proof.
  induction l as [| x l IH]; intros acc H; simpl.
  - unfold Qofnat; simpl. rewrite !Qmult_0_r, !Qplus_0_r. split; apply Qle_refl.
  - destruct (H x (or_introl eq_refl)) as [H1 H2].
    destruct (IH (acc + f x)%Q (fun y Hy => H y (or_intror Hy))) as [H3 H4].
    rewrite Qofnat_S. split.
    + eapply Qle_trans; [| exact H3].
      rewrite Qmult_plus_distr_r, Qmult_1_r.
      setoid_replace (acc + (lo * Qofnat (length l) + lo))%Q
        with (acc + lo + lo * Qofnat (length l))%Q by ring.
      apply Qplus_le_compat; [apply Qplus_le_compat; [apply Qle_refl | exact H1] | apply Qle_refl].
    + eapply Qle_trans; [exact H4|].
      rewrite Qmult_plus_distr_r, Qmult_1_r.
      setoid_replace (acc + (hi * Qofnat (length l) + hi))%Q
        with (acc + hi + hi * Qofnat (length l))%Q by ring.
      apply Qplus_le_compat; [apply Qplus_le_compat; [apply Qle_refl | exact H2] | apply Qle_refl].
Qed.

(** The mean of per-item scores in [[lo, hi]] lies in [[lo, hi]]. *)
Lemma average_bounds {A} (f : A -> Q) (lo hi : Q) (l : list A) :
  l <> [] ->
  (forall x, In x l -> lo <= f x <= hi)%Q ->
  (lo <= fold_left (fun a x => a + f x) l 0 / Qofnat (length l) <= hi)%Q.
Proof.
  intros Hne H.
  assert (Hp : (0 < Qofnat (length l))%Q)
    by (apply Qofnat_pos; destruct l; [congruence | simpl; lia]).
  destruct (fold_sum_bounds f lo hi l 0 H) as [H1 H2].
  rewrite Qplus_0_l in H1, H2. split.
  - apply Qle_shift_div_l; [exact Hp | exact H1].
  - apply Qle_shift_div_r; [exact Hp | exact H2].
Qed.

End PyExtraFacts.


(** * Further facts about [risk_assessor.py] *)

Module RiskAssessorExtraFacts.
Import Py PyFacts PyExtraFacts Git RiskAssessor.

Ltac destruct_ifs :=
  repeat match goal with |- context [if ?b then _ else _] => destruct b end.

Lemma debt_step_ge acc c : (acc <= debt_step acc c)%Q.
Proof. unfold debt_step. destruct_ifs; lra. Qed.

Lemma debt_fold_ge l : forall acc, (acc <= fold_left debt_step l acc)%Q.
Proof.
  induction l as [| c l IH]; intros acc; simpl; [lra|].
  eapply Qle_trans; [apply debt_step_ge | apply IH].
Qed.

Lemma technical_debt_bounds commits : (0 <= _assess_technical_debt commits <= 1)%Q.
Proof.
  unfold _assess_technical_debt. destruct commits as [| c cs]; [lra|].
  split; [| apply pymin_le_l].
  apply pymin_glb; [lra|].
  apply Qdiv_nonneg; [apply debt_fold_ge|].
  eapply Qle_trans; [| apply pymax_ge_r]. lra.
Qed.

Lemma architecture_complexity_bounds rs :
  (0 <= _assess_architecture_complexity rs <= 1)%Q.
Proof.
  unfold _assess_architecture_complexity. split; [| apply pymin_le_r].
  apply pymin_glb; [destruct_ifs; lra | lra].
Qed.

Lemma testing_coverage_bounds commits rs :
  (0 <= _assess_testing_coverage commits rs <= 1)%Q.
Proof.
  unfold _assess_testing_coverage. destruct commits as [| c cs]; [lra|].
  split; [| apply pymin_le_r].
  apply pymin_glb; [| lra].
  destruct (Nat.ltb _ _); [| lra].
  apply Qmult_le_0_compat; [| lra].
  apply Qdiv_nonneg; apply Qofnat_ge0.
Qed.

Lemma knowledge_concentration_bounds ps :
  (0 <= _assess_knowledge_concentration ps <= 1)%Q.
Proof.
  unfold _assess_knowledge_concentration. destruct ps as [| p ps']; [lra|].
  apply ratio_bounds; [apply filter_length_le | simpl; lia].
Qed.

Lemma team_stability_nonneg now ps commits :
  (0 <= _assess_team_stability now ps commits)%Q.
Proof.
  unfold _assess_team_stability.
  destruct ps, commits; try lra.
  destruct (filter _ _); [lra|].
  apply Qdiv_nonneg; apply Qofnat_ge0.
Qed.

Lemma communication_score_bounds c : (1 # 2 <= communication_score c <= 1)%Q.
Proof. unfold communication_score. destruct_ifs; lra. Qed.

Lemma communication_quality_bounds commits :
  commits <> [] -> (1 # 2 <= _assess_communication_quality commits <= 1)%Q.
Proof.
  intros Hne. unfold _assess_communication_quality. destruct commits as [| c cs];
    [congruence|].
  apply (average_bounds communication_score); [exact Hne|].
  intros x _. apply communication_score_bounds.
Qed.

Lemma timeline_risks_bounds features commits :
  (0 <= _assess_timeline_risks features commits <= 1)%Q.
Proof.
  unfold _assess_timeline_risks. destruct features as [| f fs]; [lra|].
  cbv zeta. destruct (Nat.eqb _ 0); [lra|].
  set (cr := (Qofnat _ / Qofnat _)%Q).
  assert (Hcr : (0 <= cr)%Q) by (apply Qdiv_nonneg; apply Qofnat_ge0).
  destruct (nonempty (filter _ _)), (nonempty (filter _ _));
    match goal with |- context [Qlt_bool 1 ?x] =>
      destruct (Qlt_bool 1 x) eqn:E; [lra|]; apply Qlt_bool_false in E; lra
    end.
Qed.

Lemma communication_quality_range commits :
  (0 <= _assess_communication_quality commits <= 1)%Q.
Proof.
  destruct commits as [| c cs]; [unfold _assess_communication_quality; lra|].
  pose proof (communication_quality_bounds (c :: cs) ltac:(discriminate)). lra.
Qed.

Lemma scope_creep_le1 features commits : (_assess_scope_creep features commits <= 1)%Q.
Proof. unfold _assess_scope_creep. destruct features, commits; lra. Qed.

Lemma resource_constraints_le1 commits features :
  (_assess_resource_constraints commits features <= 1)%Q.
Proof. unfold _assess_resource_constraints. destruct commits, features; lra. Qed.

Lemma Forall_snoc_if {A} (P : A -> Prop) (c : bool) (x : A) (l : list A) :
  Forall P l -> (c = true -> P x) -> Forall P (if c then app l [x] else l).
Proof.
  intros Hl Hx. destruct c; [| exact Hl].
  apply Forall_app. split; [exact Hl | constructor; [apply Hx; reflexivity | constructor]].
Qed.

Lemma Forall_single_if {A} (P : A -> Prop) (c : bool) (x : A) :
  (c = true -> P x) -> Forall P (if c then [x] else []).
Proof. intros Hx. destruct c; [constructor; [apply Hx; reflexivity | constructor] | constructor]. Qed.

Definition score_in_range (r : Risk) : Prop := (0 <= risk_score r <= 1)%Q.

Lemma technical_risks_in_range now commits features rs :
  Forall score_in_range (_identify_technical_risks now commits features rs).
Proof.
  unfold _identify_technical_risks. cbv zeta.
  repeat apply Forall_snoc_if; unfold score_in_range; cbn [risk_score].
  - constructor.
  - intros _. split.
    + apply pymin_glb; [lra|]. apply Qmult_le_0_compat; [apply Qofnat_ge0 | lra].
    + eapply Qle_trans; [apply pymin_le_l | lra].
  - intros H. apply Qlt_bool_true in H.
    pose proof (technical_debt_bounds commits). lra.
  - intros H. apply Qlt_bool_true in H.
    pose proof (architecture_complexity_bounds rs). lra.
  - intros H. apply Qlt_bool_true in H.
    pose proof (testing_coverage_bounds commits rs). lra.
  - intros _. lra.
Qed.

Lemma team_risks_in_range now ps commits :
  Forall score_in_range (_identify_team_risks now ps commits).
Proof.
  unfold _identify_team_risks. destruct ps as [| p ps']; [constructor|].
  cbv zeta.
  repeat apply Forall_snoc_if; unfold score_in_range; cbn [risk_score].
  - constructor.
  - intros H. apply Qlt_bool_true in H.
    pose proof (knowledge_concentration_bounds (p :: ps')). lra.
  - intros H. apply Qlt_bool_true in H.
    pose proof (team_stability_nonneg now (p :: ps') commits). lra.
  - intros _. lra.
  - intros H. apply Qlt_bool_true in H.
    pose proof (communication_quality_range commits). lra.
Qed.

Lemma business_risks_in_range now features commits :
  Forall score_in_range (_identify_business_risks now features commits).
Proof.
  unfold _identify_business_risks. cbv zeta.
  repeat apply Forall_snoc_if; [apply Forall_single_if | ..];
    unfold score_in_range; cbn [risk_score]; intros H; apply Qlt_bool_true in H.
  - pose proof (scope_creep_le1 features commits). lra.
  - pose proof (timeline_risks_bounds features commits). lra.
  - pose proof (resource_constraints_le1 commits features). lra.
Qed.

Lemma In_snoc_if {A} (c : bool) (x y : A) (l : list A) :
  In y (if c then app l [x] else l) <-> In y l \/ (c = true /\ x = y).
Proof.
  destruct c; rewrite ?in_app_iff; simpl; intuition congruence.
Qed.

Lemma In_single_if {A} (c : bool) (x y : A) :
  In y (if c then [x] else []) <-> c = true /\ x = y.
Proof. destruct c; simpl; intuition congruence. Qed.

Lemma nonempty_length {A} (l : list A) : nonempty l = true <-> (0 < length l)%nat.
Proof. destruct l; simpl; split; intros; try lia; congruence. Qed.

Definition has_mitigation (r : Risk) : Prop :=
  nonempty (list_ascii_of_string (mitigation_strategy r)) = true.

Ltac mitigation_goal :=
  intros _; unfold has_mitigation; cbn [mitigation_strategy]; vm_compute; reflexivity.

Lemma technical_risks_mitigated now commits features rs :
  Forall has_mitigation (_identify_technical_risks now commits features rs).
Proof.
  unfold _identify_technical_risks. cbv zeta.
  repeat apply Forall_snoc_if; [constructor | ..]; mitigation_goal.
Qed.

Lemma team_risks_mitigated now ps commits :
  Forall has_mitigation (_identify_team_risks now ps commits).
Proof.
  unfold _identify_team_risks. destruct ps; [constructor|]. cbv zeta.
  repeat apply Forall_snoc_if; [constructor | ..]; mitigation_goal.
Qed.

Lemma business_risks_mitigated now features commits :
  Forall has_mitigation (_identify_business_risks now features commits).
Proof.
  unfold _identify_business_risks. cbv zeta.
  repeat apply Forall_snoc_if; [apply Forall_single_if | ..]; mitigation_goal.
Qed.


Lemma risk_class_one (r : Risk) :
  (Nat.b2n (is_high_risk r) + Nat.b2n (is_medium_risk r) + Nat.b2n (is_low_risk r) = 1)%nat.
Proof.
  unfold is_high_risk, is_medium_risk, is_low_risk, Qlt_bool.
  destruct (Qle_bool (7 # 10) (risk_score r)) eqn:E7;
    destruct (Qle_bool (4 # 10) (risk_score r)) eqn:E4; try reflexivity.
  apply Qle_bool_iff in E7.
  assert (Qle_bool (4 # 10) (risk_score r) = true) by (apply Qle_bool_iff; lra).
  congruence.
Qed.

Lemma risk_classes_partition (l : list Risk) :
  (length (filter is_high_risk l) + length (filter is_medium_risk l)
   + length (filter is_low_risk l) = length l)%nat.
Proof.
  induction l as [| r l IH]; [reflexivity|]. simpl.
  pose proof (risk_class_one r).
  destruct (is_high_risk r), (is_medium_risk r), (is_low_risk r); simpl in *; lia.
Qed.

Section ProjectRisks.
Variables (now : Z) (commits : list CommitInfo) (features : list FeatureMapper.Feature)
  (ps : list DeveloperAnalyzer.DeveloperProfile) (rs : RepoStructure).

Let all := app (app (_identify_technical_risks now commits features rs)
  (_identify_team_risks now ps commits)) (_identify_business_risks now features commits).

Lemma apr_lists :
  technical_risks (assess_project_risks now commits features ps rs)
    = _identify_technical_risks now commits features rs
  /\ team_risks (assess_project_risks now commits features ps rs)
    = _identify_team_risks now ps commits
  /\ business_risks (assess_project_risks now commits features ps rs)
    = _identify_business_risks now features commits.
Proof. repeat split. Qed.

Lemma apr_counts :
  total_risks (assess_project_risks now commits features ps rs) = Z.of_nat (length all)
  /\ high_risk_count (assess_project_risks now commits features ps rs)
     = Z.of_nat (length (filter is_high_risk all))
  /\ medium_risk_count (assess_project_risks now commits features ps rs)
     = Z.of_nat (length (filter is_medium_risk all))
  /\ low_risk_count (assess_project_risks now commits features ps rs)
     = Z.of_nat (length (filter is_low_risk all))
  /\ mitigation_coverage (assess_project_risks now commits features ps rs)
     = _calculate_mitigation_coverage all.
Proof. repeat split. Qed.

End ProjectRisks.

(** Every risk reported by [assess_project_risks], technical, team or
    business, has a risk score between 0 and 1. *)
Theorem assess_project_risks_scores_in_range now commits features ps rs :
  let ra := assess_project_risks now commits features ps rs in
  Forall (fun r => 0 <= risk_score r <= 1)%Q
    (app (app (technical_risks ra) (team_risks ra)) (business_risks ra)).
Proof.
  cbv zeta. destruct (apr_lists now commits features ps rs) as (-> & -> & ->).
  apply Forall_app; split; [apply Forall_app; split|].
  - apply technical_risks_in_range.
  - apply team_risks_in_range.
  - apply business_risks_in_range.
Qed.

(** The high, medium and low counts of [assess_project_risks] (score
    [>= 0.7], in [[0.4, 0.7)], [< 0.4]) add up to [total_risks]. *)
Theorem assess_project_risks_counts_partition now commits features ps rs :
  let ra := assess_project_risks now commits features ps rs in
  high_risk_count ra + medium_risk_count ra + low_risk_count ra = total_risks ra.
Proof.
  cbv zeta. destruct (apr_counts now commits features ps rs) as (-> & -> & -> & -> & _).
  rewrite <- (risk_classes_partition (app (app _ _) _)). lia.
Qed.

(** Every risk template carries a mitigation strategy, so the
    [mitigation_coverage] of [assess_project_risks] is always 1.0. *)
Theorem assess_project_risks_full_mitigation now commits features ps rs :
  (mitigation_coverage (assess_project_risks now commits features ps rs) == 1)%Q.
Proof.
  destruct (apr_counts now commits features ps rs) as (_ & _ & _ & _ & ->).
  assert (H : Forall has_mitigation
    (app (app (_identify_technical_risks now commits features rs)
      (_identify_team_risks now ps commits)) (_identify_business_risks now features commits))).
  { apply Forall_app; split; [apply Forall_app; split|].
    - apply technical_risks_mitigated.
    - apply team_risks_mitigated.
    - apply business_risks_mitigated. }
  revert H. generalize (app (app (_identify_technical_risks now commits features rs)
    (_identify_team_risks now ps commits)) (_identify_business_risks now features commits)).
  intros l H. unfold _calculate_mitigation_coverage.
  destruct l as [| r l']; [reflexivity|]. cbv zeta.
  rewrite forallb_filter_id.
  - field. apply Qnot_eq_sym, Qlt_not_eq, Qofnat_pos. simpl; lia.
  - apply forallb_forall. intros x Hx. rewrite Forall_forall in H. exact (H x Hx).
Qed.

(** The sub-assessments behind the risks all score in [[0, 1]]:
    technical debt, architecture complexity, testing coverage, knowledge
    concentration, communication quality and timeline risk; team stability
    is never negative. *)
Theorem risk_sub_assessments_in_range now commits features ps rs :
  (0 <= _assess_technical_debt commits <= 1)%Q
  /\ (0 <= _assess_architecture_complexity rs <= 1)%Q
  /\ (0 <= _assess_testing_coverage commits rs <= 1)%Q
  /\ (0 <= _assess_knowledge_concentration ps <= 1)%Q
  /\ (0 <= _assess_team_stability now ps commits)%Q
  /\ (0 <= _assess_communication_quality commits <= 1)%Q
  /\ (0 <= _assess_timeline_risks features commits <= 1)%Q.
Proof.
  repeat split; try apply technical_debt_bounds; try apply architecture_complexity_bounds;
    try apply testing_coverage_bounds; try apply knowledge_concentration_bounds;
    try apply team_stability_nonneg; try apply communication_quality_range;
    try apply timeline_risks_bounds.
Qed.

Definition sample_commit : CommitInfo :=
  {| hash := "a1b2c3"; author := "alice"; author_email := "alice@example.com";
     date := 0; message := "fix typo"; files_changed := 1; lines_added := 1;
     lines_deleted := 1; is_merge := false; branch := "main" |}.

(** On a non-empty commit list, [_assess_communication_quality] is at least
    0.5 (every message scores 0.5 before its bonuses), so the Communication
    Issues risk, when raised, scores at most 0.5. *)
Theorem communication_quality_nonempty commits :
  commits <> [] ->
  (1 # 2 <= _assess_communication_quality commits <= 1)%Q.
Proof. apply communication_quality_bounds. Qed.

Lemma communication_quality_nonempty_witness :
  [sample_commit] <> []
  /\ (1 # 2 <= _assess_communication_quality [sample_commit] <= 1)%Q.
Proof.
  split; [discriminate | apply (communication_quality_nonempty [sample_commit]); discriminate].
Defined.


Definition chainP (A : list string) (l : list Risk) : Prop :=
  NoDup (map id l) /\ Forall (fun r => In (id r) A) l.

Lemma chain_nil A : chainP A [].
Proof. split; constructor. Qed.

Lemma chain_step s A (c : bool) (x : Risk) l :
  id x = s -> ~ In s A -> chainP A l -> chainP (s :: A) (if c then app l [x] else l).
Proof.
  intros Hx Hn [Hd Hf]. destruct c.
  - split.
    + rewrite map_app. apply NoDup_app; [exact Hd | repeat constructor; simpl; tauto |].
      intros a Ha Hin. simpl in Hin. destruct Hin as [<- | []].
      apply in_map_iff in Ha as (r & Hrx & Hr). rewrite Forall_forall in Hf.
      apply Hn. rewrite <- Hx, <- Hrx. apply Hf, Hr.
    + apply Forall_app; split.
      * eapply Forall_impl; [| exact Hf]. intros r Hr; simpl; tauto.
      * constructor; [simpl; left; symmetry; exact Hx | constructor].
  - split; [exact Hd|]. eapply Forall_impl; [| exact Hf]. intros r Hr; simpl; tauto.
Qed.

Lemma chain_single_if s (c : bool) (x : Risk) :
  id x = s -> chainP [s] (if c then [x] else []).
Proof.
  intros Hx. destruct c; [| apply chain_nil].
  split; [repeat constructor; simpl; tauto | constructor; [simpl; left; symmetry; exact Hx | constructor]].
Qed.

Ltac chain_tac :=
  repeat (apply chain_step; [reflexivity | simpl; intuition discriminate |]);
  first [apply chain_nil | apply chain_single_if; reflexivity].

Lemma technical_risks_chain now commits features rs :
  chainP ["TECH_004"; "TECH_003"; "TECH_002"; "TECH_001"]
    (_identify_technical_risks now commits features rs).
Proof.
  unfold _identify_technical_risks, _assess_dependency_risks. cbv zeta. cbn iota.
  chain_tac.
Qed.

Lemma team_risks_chain now ps commits :
  chainP ["TEAM_004"; "TEAM_002"; "TEAM_001"] (_identify_team_risks now ps commits).
Proof.
  unfold _identify_team_risks. destruct ps; [apply chain_nil|].
  unfold _assess_skill_gaps. cbv zeta. cbn [nonempty]. cbn iota.
  chain_tac.
Qed.

Lemma business_risks_chain now features commits :
  chainP ["BUS_003"; "BUS_002"; "BUS_001"] (_identify_business_risks now features commits).
Proof.
  unfold _identify_business_risks. cbv zeta.
  chain_tac.
Qed.

Lemma In_ids_snoc_if t (c : bool) (x : Risk) l :
  In t (map id (if c then app l [x] else l)) <-> In t (map id l) \/ (c = true /\ id x = t).
Proof.
  destruct c; rewrite ?map_app, ?in_app_iff; simpl; intuition congruence.
Qed.

Lemma nonempty_filter_Exists {A} (f : A -> bool) l :
  nonempty (filter f l) = true <-> Exists (fun x => f x = true) l.
Proof.
  induction l as [| a l IH]; simpl.
  - split; [discriminate | intros H; inversion H].
  - rewrite Exists_cons. destruct (f a) eqn:E; simpl.
    + split; [left; reflexivity | reflexivity].
    + rewrite IH. intuition discriminate.
Qed.

Lemma Qofnat_succ_pos (m : nat) : Qofnat (S m) = (Zpos (Pos.of_succ_nat m) # 1)%Q.
Proof. unfold Qofnat. rewrite Nat2Z.inj_succ, <- Zpos_P_of_succ_nat. reflexivity. Qed.

Lemma testing_coverage_low_iff c cs rs :
  Qlt_bool (_assess_testing_coverage (c :: cs) rs) (5 # 10) = true
  <-> (6 * length (filter (fun c => any_in ["test"; "testing"; "spec"; "unit"; "integration"]
                                     (lower (message c))) (c :: cs)) < length (c :: cs))%nat.
Proof.
  unfold _assess_testing_coverage. cbv zeta.
  generalize (length (filter (fun c => any_in ["test"; "testing"; "spec"; "unit"; "integration"]
                                     (lower (message c))) (c :: cs))) as k.
  cbn [length Nat.ltb Nat.leb]. generalize (length cs) as m. intros m k.
  unfold Qlt_bool. rewrite negb_true_iff, <- not_true_iff_false, Qle_bool_iff.
  rewrite Qofnat_succ_pos.
  unfold pymin, Qlt_bool.
  destruct (Qle_bool (Qofnat k / (Zpos (Pos.of_succ_nat m) # 1) * 3) 1) eqn:E; simpl negb; cbv iota.
  - apply Qle_bool_iff in E. unfold Qle, Qlt, Qofnat in *. simpl in *.
    rewrite Pos2Z.inj_mul in *. rewrite Zpos_P_of_succ_nat in *. nia.
  - apply not_true_iff_false in E. rewrite Qle_bool_iff in E.
    unfold Qle, Qlt, Qofnat in *. simpl in *.
    rewrite Pos2Z.inj_mul in *. rewrite Zpos_P_of_succ_nat in *. nia.
Qed.

(** [_identify_technical_risks] raises the High Complexity Features risk
    (TECH_001) exactly when some feature has complexity ["high"]; its score
    is [min(0.8, 0.2 * k)] for the [k] such features. *)
Theorem technical_risks_tech001_iff now commits features rs :
  (In "TECH_001" (map id (_identify_technical_risks now commits features rs))
   <-> Exists (fun f => FeatureMapper.complexity f = "high") features)
  /\ (forall r, In r (_identify_technical_risks now commits features rs) ->
      id r = "TECH_001" ->
      risk_score r = pymin (8 # 10)
        (Qofnat (length (filter (fun f => String.eqb (FeatureMapper.complexity f) "high")
                                 features)) * (2 # 10))).
Proof.
  split.
  - unfold _identify_technical_risks. cbv zeta.
    rewrite !In_ids_snoc_if. cbn [id map In].
    rewrite nonempty_filter_Exists.
    split.
    + intros H. intuition (try discriminate).
      eapply Exists_impl; [| eassumption]. intros f Hf. apply String.eqb_eq, Hf.
    + intros H. do 4 left. right. split; [| reflexivity].
      eapply Exists_impl; [| eassumption]. intros f Hf. apply String.eqb_eq, Hf.
  - intros r. unfold _identify_technical_risks. cbv zeta.
    rewrite !In_snoc_if. cbn [In].
    intros H Hid. intuition (subst; try discriminate; reflexivity).
Qed.

Definition is_test_commit (c : CommitInfo) : bool :=
  any_in ["test"; "testing"; "spec"; "unit"; "integration"] (lower (message c)).

Lemma testing_coverage_low_iff' commits rs :
  Qlt_bool (_assess_testing_coverage commits rs) (5 # 10) = true
  <-> commits = [] \/ (6 * length (filter is_test_commit commits) < length commits)%nat.
Proof.
  destruct commits as [| c cs].
  - split; [left; reflexivity | reflexivity].
  - rewrite testing_coverage_low_iff. unfold is_test_commit.
    split; [right; exact H | intros [H | H]; [discriminate | exact H]].
Qed.

(** [_identify_technical_risks] raises the Low Testing Coverage risk
    (TECH_004) exactly when there is no commit or fewer than one commit in
    six mentions testing (["test"], ["testing"], ["spec"], ["unit"] or
    ["integration"] in the lower-cased message). *)
Theorem technical_risks_tech004_iff now commits features rs :
  In "TECH_004" (map id (_identify_technical_risks now commits features rs))
  <-> commits = [] \/ (6 * length (filter is_test_commit commits) < length commits)%nat.
Proof.
  rewrite <- testing_coverage_low_iff'.
  unfold _identify_technical_risks. cbv zeta.
  rewrite !In_ids_snoc_if. cbn [id map In].
  split.
  - intros H. intuition (try discriminate).
  - intros H. do 1 left. right. split; [exact H | reflexivity].
Qed.

(** With at least one developer profile and no commit,
    [_identify_team_risks] reports both Team Instability (TEAM_002) and
    Communication Issues (TEAM_004), each with risk score 1.0. *)
Theorem team_risks_no_commits now ps :
  ps <> [] ->
  (exists r, In r (_identify_team_risks now ps []) /\ id r = "TEAM_002" /\ risk_score r == 1)%Q
  /\ (exists r, In r (_identify_team_risks now ps []) /\ id r = "TEAM_004" /\ risk_score r == 1)%Q.
Proof.
  intros Hps. destruct ps as [| p ps']; [contradiction|].
  unfold _identify_team_risks, _assess_skill_gaps. cbv zeta. cbn [nonempty]. cbn iota.
  replace (_assess_team_stability now (p :: ps') []) with 0%Q by reflexivity.
  replace (_assess_communication_quality []) with 0%Q by reflexivity.
  replace (Qlt_bool 0 (5 # 10)) with true by reflexivity.
  replace (Qlt_bool 0 (6 # 10)) with true by reflexivity.
  split; eexists; split.
  - apply in_app_iff; left; apply in_app_iff; right; left; reflexivity.
  - split; reflexivity.
  - apply in_app_iff; right; left; reflexivity.
  - split; reflexivity.
Qed.

(** Every risk reported by [assess_project_risks] has a distinct id. *)
Theorem assess_project_risks_ids_distinct now commits features ps rs :
  let ra := assess_project_risks now commits features ps rs in
  NoDup (map id (app (app (technical_risks ra) (team_risks ra)) (business_risks ra))).
Proof.
  cbv zeta. destruct (apr_lists now commits features ps rs) as (-> & -> & ->).
  destruct (technical_risks_chain now commits features rs) as [Dt Ft].
  destruct (team_risks_chain now ps commits) as [Dm Fm].
  destruct (business_risks_chain now features commits) as [Db Fb].
  rewrite Forall_forall in Ft, Fm, Fb.
  rewrite !map_app. apply NoDup_app; [apply NoDup_app | |].
  - exact Dt.
  - exact Dm.
  - intros a Ha Hb. apply in_map_iff in Ha as (r1 & <- & H1). apply in_map_iff in Hb as (r2 & E & H2).
    apply Ft in H1. apply Fm in H2. rewrite E in H2. simpl in H1, H2.
    intuition congruence.
  - exact Db.
  - intros a Ha Hb. apply in_app_iff in Ha.
    apply in_map_iff in Hb as (r2 & E & H2). apply Fb in H2. rewrite E in H2. simpl in H2.
    destruct Ha as [Ha | Ha]; apply in_map_iff in Ha as (r1 & <- & H1);
      [apply Ft in H1 | apply Fm in H1]; simpl in H1; intuition congruence.
Qed.

(** The placeholder checks never fire: [_identify_technical_risks] reports
    only TECH_001 to TECH_004 (never Dependency Vulnerabilities, TECH_005)
    and so at most four risks; [_identify_team_risks] reports only TEAM_001,
    TEAM_002 and TEAM_004 (never Skill Gaps, TEAM_003) and so at most three. *)
Theorem technical_team_risks_ids now commits features ps rs :
  incl (map id (_identify_technical_risks now commits features rs))
    ["TECH_001"; "TECH_002"; "TECH_003"; "TECH_004"]
  /\ (length (_identify_technical_risks now commits features rs) <= 4)%nat
  /\ incl (map id (_identify_team_risks now ps commits)) ["TEAM_001"; "TEAM_002"; "TEAM_004"]
  /\ (length (_identify_team_risks now ps commits) <= 3)%nat.
Proof.
  destruct (technical_risks_chain now commits features rs) as [Dt Ft].
  destruct (team_risks_chain now ps commits) as [Dm Fm].
  assert (It : incl (map id (_identify_technical_risks now commits features rs))
    ["TECH_004"; "TECH_003"; "TECH_002"; "TECH_001"]).
  { intros a Ha. apply in_map_iff in Ha as (r & <- & Hr). rewrite Forall_forall in Ft. apply Ft, Hr. }
  assert (Im : incl (map id (_identify_team_risks now ps commits))
    ["TEAM_004"; "TEAM_002"; "TEAM_001"]).
  { intros a Ha. apply in_map_iff in Ha as (r & <- & Hr). rewrite Forall_forall in Fm. apply Fm, Hr. }
  repeat split.
  - intros a Ha. apply It in Ha. simpl in *. tauto.
  - rewrite <- (length_map id). apply (NoDup_incl_length Dt It).
  - intros a Ha. apply Im in Ha. simpl in *. tauto.
  - rewrite <- (length_map id). apply (NoDup_incl_length Dm Im).
Qed.

Definition sample_profile : DeveloperAnalyzer.DeveloperProfile :=
  DeveloperAnalyzer.mkDeveloperProfile "alice" "alice@example.com" "Developer" "Unknown"
    ["General Development"] "Junior" "Learning and contributing" "Single contribution"
    1 0 "Low" ["General"] (5 # 10) (5 # 10).

Lemma team_risks_no_commits_witness :
  [sample_profile] <> []
  /\ (exists r, In r (_identify_team_risks 0 [sample_profile] []) /\ id r = "TEAM_002"
                /\ risk_score r == 1)%Q
  /\ (exists r, In r (_identify_team_risks 0 [sample_profile] []) /\ id r = "TEAM_004"
                /\ risk_score r == 1)%Q.
Proof.
  split; [discriminate | apply (team_risks_no_commits 0 [sample_profile]); discriminate].
Defined.

End RiskAssessorExtraFacts.


(** * Further facts about [developer_analyzer.py] *)

Module DeveloperAnalyzerExtraFacts.
Import Py PyFacts PyExtraFacts Git DeveloperAnalyzer.

Lemma fold_Qplus_map {A} (f : A -> Q) (l : list A) : forall a,
  fold_left Qplus (map f l) a = fold_left (fun acc x => acc + f x)%Q l a.
Proof. induction l as [| x l IH]; intros a; simpl; [reflexivity | apply IH]. Qed.

Ltac destruct_conds :=
  repeat match goal with
  | |- context [if ?c then _ else _] => destruct c eqn:?
  end.

(** *** Skill level *)

Definition skill_rank (s : string) : nat :=
  if String.eqb s "Expert" then 3
  else if String.eqb s "Senior" then 2
  else if String.eqb s "Mid-level" then 1
  else 0.

Definition commit_points (n : Z) : Z :=
  if Z.leb 100 n then 3 else if Z.leb 50 n then 2 else if Z.leb 20 n then 1 else 0.
Definition percentage_points (p : Q) : Z :=
  if Qle_bool 50 p then 2 else if Qle_bool 20 p then 1 else 0.
Definition size_points (s : Q) : Z :=
  if Qle_bool s 50 then 2 else if Qle_bool s 100 then 1 else 0.
Definition level_rank (score : Z) : nat :=
  if Z.leb 6 score then 3 else if Z.leb 4 score then 2 else if Z.leb 2 score then 1 else 0.

Lemma skill_level_rank a commits :
  skill_rank (fst (_assess_skill_level a commits))
  = level_rank (commit_points (GitAnalyzer.commit_count a)
                + percentage_points (GitAnalyzer.contribution_percentage a)
                + size_points (GitAnalyzer.average_commit_size a)).
Proof.
  unfold _assess_skill_level, commit_points, percentage_points, size_points. cbv zeta.
  set (n := GitAnalyzer.commit_count a).
  set (p := GitAnalyzer.contribution_percentage a).
  set (s := GitAnalyzer.average_commit_size a).
  destruct (Z.leb 100 n), (Z.leb 50 n), (Z.leb 20 n), (Qle_bool 50 p), (Qle_bool 20 p),
    (Qle_bool s 50), (Qle_bool s 100); reflexivity.
Qed.

Lemma commit_points_mono m n : m <= n -> commit_points m <= commit_points n.
Proof.
  intros H. unfold commit_points.
  destruct (Z.leb_spec 100 m), (Z.leb_spec 50 m), (Z.leb_spec 20 m),
    (Z.leb_spec 100 n), (Z.leb_spec 50 n), (Z.leb_spec 20 n); lia.
Qed.

Lemma percentage_points_mono p q : (p <= q)%Q -> percentage_points p <= percentage_points q.
Proof.
  intros H. unfold percentage_points.
  destruct (Qle_bool 50 p) eqn:E1, (Qle_bool 20 p) eqn:E2, (Qle_bool 50 q) eqn:E3,
    (Qle_bool 20 q) eqn:E4; try lia;
    repeat match goal with
    | E : Qle_bool _ _ = true |- _ => apply Qle_bool_iff in E
    | E : Qle_bool _ _ = false |- _ => apply not_true_iff_false in E; rewrite Qle_bool_iff in E
    end; exfalso; lra.
Qed.

Lemma size_points_anti s t : (s <= t)%Q -> size_points t <= size_points s.
Proof.
  intros H. unfold size_points.
  destruct (Qle_bool s 50) eqn:E1, (Qle_bool s 100) eqn:E2, (Qle_bool t 50) eqn:E3,
    (Qle_bool t 100) eqn:E4; try lia;
    repeat match goal with
    | E : Qle_bool _ _ = true |- _ => apply Qle_bool_iff in E
    | E : Qle_bool _ _ = false |- _ => apply not_true_iff_false in E; rewrite Qle_bool_iff in E
    end; exfalso; lra.
Qed.

Lemma level_rank_mono x y : x <= y -> (level_rank x <= level_rank y)%nat.
Proof.
  intros H. unfold level_rank.
  destruct (Z.leb_spec 6 x), (Z.leb_spec 4 x), (Z.leb_spec 2 x),
    (Z.leb_spec 6 y), (Z.leb_spec 4 y), (Z.leb_spec 2 y); lia.
Qed.

(** [_assess_skill_level] is monotone: more commits, a larger share of the
    commits or a smaller average commit size never gives a lower level in
    the order Junior < Mid-level < Senior < Expert. *)
Theorem assess_skill_level_monotone a b ca cb :
  GitAnalyzer.commit_count a <= GitAnalyzer.commit_count b ->
  (GitAnalyzer.contribution_percentage a <= GitAnalyzer.contribution_percentage b)%Q ->
  (GitAnalyzer.average_commit_size b <= GitAnalyzer.average_commit_size a)%Q ->
  (skill_rank (fst (_assess_skill_level a ca)) <= skill_rank (fst (_assess_skill_level b cb)))%nat.
Proof.
  intros H1 H2 H3. rewrite !skill_level_rank. apply level_rank_mono.
  pose proof (commit_points_mono _ _ H1). pose proof (percentage_points_mono _ _ H2).
  pose proof (size_points_anti _ _ H3). lia.
Qed.

Definition sample_stats (n : Z) (p s : Q) : GitAnalyzer.AuthorStats :=
  GitAnalyzer.mkAuthorStats "alice" "alice@example.com" n 0 0 None None 0 s p.

Lemma assess_skill_level_monotone_witness :
  GitAnalyzer.commit_count (sample_stats 30 10 80) <= GitAnalyzer.commit_count (sample_stats 120 60 40)
  /\ (GitAnalyzer.contribution_percentage (sample_stats 30 10 80)
      <= GitAnalyzer.contribution_percentage (sample_stats 120 60 40))%Q
  /\ (GitAnalyzer.average_commit_size (sample_stats 120 60 40)
      <= GitAnalyzer.average_commit_size (sample_stats 30 10 80))%Q
  /\ (skill_rank (fst (_assess_skill_level (sample_stats 30 10 80) []))
      <= skill_rank (fst (_assess_skill_level (sample_stats 120 60 40) [])))%nat.
Proof.
  split; [simpl; lia|]. split; [vm_compute; discriminate|]. split; [vm_compute; discriminate|].
  apply assess_skill_level_monotone; [simpl; lia | vm_compute; discriminate | vm_compute; discriminate].
Defined.

Lemma knowledge_area_loop_eq area keywords ka commits :
  knowledge_area_loop area keywords ka commits
  = if existsb (fun c => any_in keywords (lower (message c))) commits
    then (if str_mem area ka then ka else app ka [area]) else ka.
Proof.
  induction commits as [| c cs IH]; simpl; [reflexivity|].
  destruct (any_in keywords (lower (message c))); simpl; [reflexivity | exact IH].
Qed.

Lemma str_mem_false x l : ~ In x l -> str_mem x l = false.
Proof.
  unfold str_mem. intros H. apply not_true_iff_false. intros E.
  apply existsb_exists in E as (y & Hy & Eq). apply String.eqb_eq in Eq. subst. contradiction.
Qed.

Lemma fold_left_ext_eq {A B} (f g : A -> B -> A) (l : list B) :
  (forall a b, f a b = g a b) -> forall a, fold_left f l a = fold_left g l a.
Proof. intros H. induction l as [| x l IH]; intros a; simpl; [reflexivity | rewrite H; apply IH]. Qed.

Lemma fold_areas (g : string * list string -> bool) l : forall acc,
  NoDup (map fst l) -> (forall x, In x (map fst l) -> ~ In x acc) ->
  fold_left (fun ka e => if g e then if str_mem (fst e) ka then ka else app ka [fst e] else ka)
    l acc
  = app acc (map fst (filter g l)).
Proof.
  induction l as [| e l IH]; intros acc Hd Hn; simpl.
  - rewrite app_nil_r. reflexivity.
  - inversion Hd as [| ? ? Hnot Hd']; subst.
    destruct (g e); simpl.
    + rewrite str_mem_false by (apply Hn; left; reflexivity).
      rewrite IH; [rewrite <- app_assoc; reflexivity | exact Hd' |].
      intros x Hx Hin. apply in_app_iff in Hin as [Hin | [<- | []]].
      * apply (Hn x); [right; exact Hx | exact Hin].
      * contradiction.
    + apply IH; [exact Hd' |]. intros x Hx. apply Hn. right. exact Hx.
Qed.

(** [_identify_knowledge_areas] lists, in the order of its table, each
    area (frontend, backend, devops, testing, security, performance) for
    which some commit message mentions one of the area's keywords, each
    once; when there is none it returns [["General Software Development"]]. *)
Theorem identify_knowledge_areas_spec commits :
  let hits := map fst (filter (fun entry =>
                 existsb (fun c => any_in (snd entry) (lower (message c))) commits)
               tech_keywords) in
  _identify_knowledge_areas commits
  = match hits with [] => ["General Software Development"] | _ => hits end.
Proof.
  cbv zeta. unfold _identify_knowledge_areas.
  rewrite (fold_left_ext_eq _ (fun ka e =>
    if existsb (fun c => any_in (snd e) (lower (message c))) commits
    then if str_mem (fst e) ka then ka else app ka [fst e] else ka)).
  - rewrite fold_areas; [reflexivity | | intros x _ []].
    unfold tech_keywords; simpl. repeat constructor; simpl; intuition discriminate.
  - intros ka e. apply knowledge_area_loop_eq.
Qed.


(** Every score of [_calculate_code_quality_score] on a non-empty commit
    list lies in [[0.5, 1.0]]. *)
Lemma code_quality_commit_score_bounds c :
  (1 # 2 <= code_quality_commit_score c <= 1)%Q.
Proof.
  unfold code_quality_commit_score. cbv zeta. split.
  - apply pymin_glb; [| lra]. (destruct_conds; lra).
  - apply pymin_le_r.
Qed.

Theorem code_quality_score_bounds commits :
  commits <> [] -> (1 # 2 <= _calculate_code_quality_score commits <= 1)%Q.
Proof.
  intros H. destruct commits as [| c cs]; [congruence|].
  unfold _calculate_code_quality_score. cbv zeta.
  rewrite fold_Qplus_map, length_map.
  apply average_bounds; [exact H|]. intros x _. apply code_quality_commit_score_bounds.
Qed.

Lemma collaboration_quality_score_bounds c :
  (1 # 2 <= collaboration_quality_score c <= 1)%Q.
Proof. unfold collaboration_quality_score. cbv zeta. (destruct_conds; split; lra). Qed.

Theorem collaboration_score_bounds dev all :
  dev <> [] -> (13 # 30 <= _calculate_collaboration_score dev all <= 1)%Q.
Proof.
  intros H. destruct dev as [| c cs]; [congruence|].
  unfold _calculate_collaboration_score. cbv zeta.
  match goal with |- context [fold_left Qplus [?a; ?b; ?d] 0%Q] =>
    assert (H1 : (4 # 10 <= a <= 1)%Q) by (destruct_conds; split; lra);
    assert (H2 : (4 # 10 <= b <= 1)%Q) by (destruct_conds; split; lra);
    assert (H3 : (1 # 2 <= d <= 1)%Q);
    [| generalize dependent d; generalize dependent b; generalize dependent a]
  end.
  - rewrite fold_Qplus_map, length_map.
    apply average_bounds; [exact H|]. intros x _. apply collaboration_quality_score_bounds.
  - intros f1 H1 f2 H2 f3 H3. cbn [fold_left length]. change (Qofnat 3) with (3 # 1)%Q.
    split.
    + apply Qle_shift_div_l; [reflexivity|]. lra.
    + apply Qle_shift_div_r; [reflexivity|]. lra.
Qed.

Lemma bus_threshold_iff n b :
  Qle_bool (QofZ n * (7 # 10))%Q (QofZ b) = true <-> 7 * n <= 10 * b.
Proof. rewrite Qle_bool_iff. unfold QofZ, Qle, Qmult, inject_Z. cbn [Qnum Qden]. lia. Qed.

Lemma bus_factor_loop_exact n l : forall b,
  0 <= b -> 10 * b < 7 * n -> 7 * n <= 10 * (b + Z.of_nat (length l)) ->
  bus_factor_loop n b l = (7 * n + 9) / 10.
Proof.
  induction l as [| x l IH]; intros b H0 H1 H2; cbn [length bus_factor_loop Z.of_nat] in *.
  - lia.
  - destruct (Qle_bool (QofZ n * (7 # 10))%Q (QofZ (b + 1))) eqn:E.
    + apply bus_threshold_iff in E. apply (Z.div_unique _ _ _ (7 * n + 9 - 10 * (b + 1))); lia.
    + apply IH; [lia | | lia].
      apply not_true_iff_false in E. rewrite bus_threshold_iff in E. lia.
Qed.

(** On a non-empty team whose business values are all known,
    [_calculate_bus_factor] is [ceil(0.7 * n)] for the team size [n]: it
    depends on the size only, not on who holds which business value. *)
Theorem calculate_bus_factor_exact ps :
  ps <> [] ->
  forallb (fun p => valid_business_value (business_value p)) ps = true ->
  _calculate_bus_factor ps = inr ((7 * Z.of_nat (length ps) + 9) / 10).
Proof.
  intros Hne Hv. destruct ps as [| p ps']; [congruence|].
  unfold _calculate_bus_factor. rewrite Hv. f_equal.
  apply bus_factor_loop_exact.
  - lia.
  - simpl length. lia.
  - rewrite <- (Permutation_length (Permutation_sort_desc bus_weight_key (p :: ps'))).
    simpl length. lia.
Qed.

Lemma categorize_one v :
  (Nat.b2n (str_mem v ["Critical"; "High"])
   + Nat.b2n (str_mem v ["Medium"; "Low"; "Minimal"])
   = Nat.b2n (valid_business_value v))%nat.
Proof.
  unfold str_mem, valid_business_value, business_weight. simpl existsb.
  destruct (String.eqb_spec v "Critical"); [subst; reflexivity|].
  destruct (String.eqb_spec v "High"); [subst; reflexivity|].
  destruct (String.eqb_spec v "Medium"); [subst; reflexivity|].
  destruct (String.eqb_spec v "Low"); [subst; reflexivity|].
  destruct (String.eqb_spec v "Minimal"); [subst; reflexivity|].
  reflexivity.
Qed.

(** [_categorize_contributors] lists every profile whose business value is
    one of the five known ones in exactly one of its two lists (primary for
    Critical and High, secondary for Medium, Low and Minimal), and no other
    profile. *)
Theorem categorize_contributors_counts ps :
  let '(primary, secondary) := _categorize_contributors ps in
  (length primary + length secondary
   = length (filter (fun p => valid_business_value (business_value p)) ps))%nat.
Proof.
  unfold _categorize_contributors. rewrite !length_map.
  induction ps as [| p ps IH]; [reflexivity|]. cbn [filter].
  pose proof (categorize_one (business_value p)) as E.
  change (is_primary p) with (str_mem (business_value p) ["Critical"; "High"]).
  destruct (str_mem (business_value p) ["Critical"; "High"]),
    (str_mem (business_value p) ["Medium"; "Low"; "Minimal"]),
    (valid_business_value (business_value p)); cbn [length Nat.b2n] in *; lia.
Qed.

Definition sample_dev_commit : CommitInfo :=
  {| hash := "a1b2c3"; author := "alice"; author_email := "alice@example.com";
     date := 0; message := "fix: handle empty input"; files_changed := 2;
     lines_added := 12; lines_deleted := 3; is_merge := false; branch := "main" |}.

Definition sample_dev_profile (v : string) : DeveloperProfile :=
  mkDeveloperProfile "alice" "alice@example.com" "Developer" "Unknown"
    ["Bug Fixing"] "Junior" "Learning" "Single contribution" 1 0 v
    ["General Software Development"] (5 # 10) (5 # 10).

Lemma code_quality_score_bounds_witness :
  [sample_dev_commit] <> []
  /\ (1 # 2 <= _calculate_code_quality_score [sample_dev_commit] <= 1)%Q.
Proof.
  split; [discriminate | apply (code_quality_score_bounds [sample_dev_commit]); discriminate].
Defined.

Lemma collaboration_score_bounds_witness :
  [sample_dev_commit] <> []
  /\ (13 # 30 <= _calculate_collaboration_score [sample_dev_commit] [sample_dev_commit] <= 1)%Q.
Proof.
  split; [discriminate |].
  apply (collaboration_score_bounds [sample_dev_commit] [sample_dev_commit]); discriminate.
Defined.

Lemma calculate_bus_factor_exact_witness :
  let ps := [sample_dev_profile "Critical"; sample_dev_profile "Low"; sample_dev_profile "Minimal"] in
  ps <> []
  /\ forallb (fun p => valid_business_value (business_value p)) ps = true
  /\ _calculate_bus_factor ps = inr ((7 * Z.of_nat (length ps) + 9) / 10).
Proof.
  cbv zeta. split; [discriminate|]. split; [reflexivity|].
  apply calculate_bus_factor_exact; [discriminate | reflexivity].
Defined.

End DeveloperAnalyzerExtraFacts.


(** * Further facts about [git_analyzer.py] *)

Module GitAnalyzerExtraFacts.
Import Py PyFacts PyExtraFacts Git GitAnalyzer GitAnalyzerFacts.

Lemma dict_get_Some_In {V} k (d : list (string * V)) v :
  dict_get String.eqb k d = Some v -> In (k, v) d.
Proof.
  induction d as [| [k' v'] d IH]; simpl; [discriminate|].
  destruct (String.eqb k k') eqn:E.
  - apply String.eqb_eq in E as ->. intros [= ->]. left; reflexivity.
  - intros H; right; auto.
Qed.

Lemma dict_get_None_notin {V} k (d : list (string * V)) :
  dict_get String.eqb k d = None -> ~ In k (map fst d).
Proof.
  induction d as [| [k' v'] d IH]; simpl; [auto|].
  destruct (String.eqb k k') eqn:E; [discriminate|].
  apply String.eqb_neq in E. intros H [-> | Hin]; [congruence | exact (IH H Hin)].
Qed.

Lemma dict_set_keys_In {V} k v (d : list (string * V)) :
  In k (map fst d) -> map fst (dict_set String.eqb k v d) = map fst d.
Proof.
  induction d as [| [k' v'] d IH]; simpl; [contradiction|].
  destruct (String.eqb k k') eqn:E; [reflexivity|].
  apply String.eqb_neq in E. intros [-> | Hin]; [congruence|]. simpl. rewrite IH; auto.
Qed.

Lemma dict_set_notin {V} k v (d : list (string * V)) :
  ~ In k (map fst d) -> dict_set String.eqb k v d = app d [(k, v)].
Proof.
  induction d as [| [k' v'] d IH]; simpl; [reflexivity|].
  intros Hn. destruct (String.eqb k k') eqn:E.
  - apply String.eqb_eq in E. exfalso; auto.
  - rewrite IH; auto.
Qed.

Lemma dict_set_In_inv {V} k v (d : list (string * V)) a st :
  NoDup (map fst d) -> In (a, st) (dict_set String.eqb k v d) ->
  (a = k /\ st = v) \/ (a <> k /\ In (a, st) d).
Proof.
  induction d as [| [k' v'] d IH]; simpl; intros Hnd Hin.
  - destruct Hin as [[= <- <-] | []]. left; auto.
  - inversion Hnd as [| ? ? Hk' Hnd']; subst.
    destruct (String.eqb k k') eqn:E.
    + apply String.eqb_eq in E as <-.
      destruct Hin as [[= <- <-] | Hin]; [left; auto|].
      right. split; [|right; exact Hin].
      intros ->. apply Hk'. apply (in_map fst _ _ Hin).
    + apply String.eqb_neq in E. destruct Hin as [[= <- <-] | Hin].
      * right. split; [congruence | left; reflexivity].
      * destruct (IH Hnd' Hin) as [H | [H1 H2]]; [left; exact H | right; auto].
Qed.

Definition dict_sum {V} (f : V -> Z) (d : list (string * V)) : Z :=
  fold_right Z.add 0 (map (fun e => f (snd e)) d).

Lemma dict_sum_set_Some {V} (f : V -> Z) k v old (d : list (string * V)) :
  dict_get String.eqb k d = Some old ->
  dict_sum f (dict_set String.eqb k v d) + f old = dict_sum f d + f v.
Proof.
  unfold dict_sum. induction d as [| [k' v'] d IH]; simpl; [discriminate|].
  destruct (String.eqb k k'); simpl.
  - intros [= ->]. lia.
  - intros H. specialize (IH H). lia.
Qed.

Lemma dict_sum_set_None {V} (f : V -> Z) k v (d : list (string * V)) :
  dict_get String.eqb k d = None ->
  dict_sum f (dict_set String.eqb k v d) = dict_sum f d + f v.
Proof.
  unfold dict_sum. induction d as [| [k' v'] d IH]; simpl; [lia|].
  destruct (String.eqb k k'); [discriminate|]. simpl. intros H. rewrite IH; auto. lia.
Qed.

(** The commits of author [a], in order. *)
Definition commits_of (a : string) (commits : list CommitInfo) : list CommitInfo :=
  filter (fun c => String.eqb (author c) a) commits.

(** What an entry of the grouping dictionary holds once it has seen [cs]. *)
Definition acc_ok (cs : list CommitInfo) (st : AuthorAcc) : Prop :=
  acc_commits st = cs /\ cs <> [] /\
  acc_lines_added st = fold_right Z.add 0 (map lines_added cs) /\
  acc_lines_deleted st = fold_right Z.add 0 (map lines_deleted cs) /\
  exists f l, acc_first_commit st = Some f /\ acc_last_commit st = Some l /\
    Forall (fun c => f <= date c <= l) cs /\
    Exists (fun c => date c = f) cs /\ Exists (fun c => date c = l) cs.

Lemma fold_right_add_snoc (l : list Z) x :
  fold_right Z.add 0 (app l [x]) = fold_right Z.add 0 l + x.
Proof. induction l as [| y l IH]; simpl; lia. Qed.

Lemma acc_ok_first c : acc_ok [c] (author_acc_step empty_author_acc c).
Proof.
  unfold acc_ok, author_acc_step, empty_author_acc; cbn.
  repeat split; [discriminate | lia | lia |].
  exists (date c), (date c). repeat split; auto.
  constructor; [lia | constructor].
Qed.

Lemma acc_ok_step cs st c :
  acc_ok cs st -> acc_ok (app cs [c]) (author_acc_step st c).
Proof.
  intros (Hc & Hne & Ha & Hd & f & l & Hf & Hl & Hall & Hef & Hel).
  unfold acc_ok, author_acc_step; cbn [acc_commits acc_lines_added acc_lines_deleted
    acc_first_commit acc_last_commit].
  rewrite Hc, Ha, Hd, Hf, Hl, !map_app; cbn [map]; rewrite !fold_right_add_snoc.
  split; [reflexivity|]. split; [destruct cs; [congruence | discriminate]|].
  split; [reflexivity|]. split; [reflexivity|].
  exists (if Z.ltb (date c) f then date c else f), (if Z.ltb l (date c) then date c else l).
  split; [destruct (Z.ltb (date c) f); reflexivity|].
  split; [destruct (Z.ltb l (date c)); reflexivity|].
  destruct (Z.ltb_spec (date c) f), (Z.ltb_spec l (date c)).
  - split; [apply Forall_app; split; [eapply Forall_impl; [|exact Hall]; intros; simpl in *; lia
                                       | constructor; [lia | constructor]]|].
    split; apply Exists_app; right; constructor; reflexivity.
  - split; [apply Forall_app; split; [eapply Forall_impl; [|exact Hall]; intros; simpl in *; lia
                                       | constructor; [lia | constructor]]|].
    split; apply Exists_app; [right; constructor; reflexivity | left; exact Hel].
  - split; [apply Forall_app; split; [eapply Forall_impl; [|exact Hall]; intros; simpl in *; lia
                                       | constructor; [lia | constructor]]|].
    split; apply Exists_app; [left; exact Hef | right; constructor; reflexivity].
  - split; [apply Forall_app; split; [eapply Forall_impl; [|exact Hall]; intros; simpl in *; lia
                                       | constructor; [lia | constructor]]|].
    split; apply Exists_app; left; assumption.
Qed.

(** The invariant of the grouping loop after the commits [pre]. *)
Definition group_inv (pre : list CommitInfo) (d : list (string * AuthorAcc)) : Prop :=
  NoDup (map fst d) /\
  (forall a, In a (map fst d) <-> In a (map author pre)) /\
  (forall a st, In (a, st) d -> acc_ok (commits_of a pre) st) /\
  dict_sum (fun st => Z.of_nat (length (acc_commits st))) d = Z.of_nat (length pre).

Lemma commits_of_snoc a pre c :
  commits_of a (app pre [c]) =
  if String.eqb (author c) a then app (commits_of a pre) [c] else commits_of a pre.
Proof.
  unfold commits_of. rewrite filter_app. simpl.
  destruct (String.eqb (author c) a); [reflexivity | apply app_nil_r].
Qed.

Lemma commits_of_absent a pre :
  ~ In a (map author pre) -> commits_of a pre = [].
Proof.
  unfold commits_of. induction pre as [| c pre IH]; simpl; [reflexivity|].
  intros Hn. destruct (String.eqb (author c) a) eqn:E.
  - apply String.eqb_eq in E. exfalso; auto.
  - apply IH. auto.
Qed.

Lemma group_inv_step pre d c :
  group_inv pre d -> group_inv (app pre [c]) (group_step d c).
Proof.
  intros (Hnd & Hkeys & Hent & Hsum). unfold group_step.
  destruct (dict_get String.eqb (author c) d) as [st|] eqn:Eg.
  - pose proof (dict_get_Some_In _ _ _ Eg) as Hin.
    pose proof (in_map fst _ _ Hin) as Hk. simpl in Hk.
    split; [rewrite dict_set_keys_In; auto|].
    split.
    { intros a. rewrite dict_set_keys_In by auto. rewrite Hkeys, map_app, in_app_iff.
      simpl. split; [tauto|]. intros [H | [<- | []]]; [exact H|]. apply Hkeys, Hk. }
    split.
    { intros a st' Hin'. rewrite commits_of_snoc.
      destruct (dict_set_In_inv _ _ _ _ _ Hnd Hin') as [[-> ->] | [Hne Hin'']].
      - rewrite String.eqb_refl. apply acc_ok_step, Hent, Hin.
      - apply String.eqb_neq in Hne. rewrite String.eqb_sym, Hne. apply Hent, Hin''. }
    pose proof (dict_sum_set_Some (fun st => Z.of_nat (length (acc_commits st)))
                  (author c) (author_acc_step st c) _ _ Eg) as Hs.
    cbn beta in Hs. rewrite Hsum in Hs.
    assert (Hl : length (acc_commits (author_acc_step st c)) = S (length (acc_commits st)))
      by (unfold author_acc_step; cbn [acc_commits]; rewrite length_app; simpl; lia).
    rewrite Hl in Hs. rewrite length_app. simpl. lia.
  - pose proof (dict_get_None_notin _ _ Eg) as Hn.
    unfold group_inv. rewrite dict_set_notin by exact Hn. rewrite map_app. simpl.
    assert (Hna : ~ In (author c) (map author pre)) by (rewrite <- Hkeys; exact Hn).
    split; [apply NoDup_app; [exact Hnd | repeat constructor; auto | intros x Hx [<- | []]; auto]|].
    split.
    { intros a. rewrite map_app, !in_app_iff, Hkeys. simpl. tauto. }
    split.
    { intros a st' Hin'. rewrite commits_of_snoc. apply in_app_iff in Hin' as [Hin' | [[= <- <-] | []]].
      - destruct (String.eqb (author c) a) eqn:E.
        + apply String.eqb_eq in E as <-. exfalso. apply Hn, (in_map fst _ _ Hin').
        + apply Hent, Hin'.
      - rewrite String.eqb_refl, commits_of_absent by exact Hna. apply acc_ok_first. }
    unfold dict_sum in *. rewrite map_app, fold_right_app. simpl.
    rewrite length_app. simpl.
    assert (G : forall l z, fold_right Z.add z l = fold_right Z.add 0 l + z)
      by (induction l as [| y l IH]; intros z; simpl; [lia | rewrite IH; lia]).
    rewrite G. lia.
Qed.

Lemma group_inv_fold_from commits pre d :
  group_inv pre d -> group_inv (app pre commits) (fold_left group_step commits d).
Proof.
  revert pre d. induction commits as [| c l IH]; intros pre d H; simpl.
  - rewrite app_nil_r. exact H.
  - replace (app pre (c :: l)) with (app (app pre [c]) l) by (rewrite <- app_assoc; reflexivity).
    apply IH, group_inv_step, H.
Qed.

Lemma group_inv_fold commits :
  group_inv commits (fold_left group_step commits []).
Proof.
  apply (group_inv_fold_from commits []).
  unfold group_inv, dict_sum; simpl.
  split; [constructor|]. split; [tauto|]. split; [intros ? ? []|reflexivity].
Qed.

Lemma make_author_stats_fields n e :
  name (make_author_stats n e) = fst e /\
  commit_count (make_author_stats n e) = Z.of_nat (length (acc_commits (snd e))) /\
  email (make_author_stats n e) =
    match acc_commits (snd e) with c :: _ => author_email c | [] => EmptyString end /\
  total_lines_added (make_author_stats n e) = acc_lines_added (snd e) /\
  total_lines_deleted (make_author_stats n e) = acc_lines_deleted (snd e) /\
  first_commit (make_author_stats n e) = acc_first_commit (snd e) /\
  last_commit (make_author_stats n e) = acc_last_commit (snd e) /\
  contribution_percentage (make_author_stats n e) =
    (Qofnat (length (acc_commits (snd e))) / Qofnat n * 100)%Q.
Proof. destruct e as [a st]. repeat split. Qed.

Lemma Permutation_sum_Z (l l' : list Z) :
  Permutation l l' -> fold_right Z.add 0 l = fold_right Z.add 0 l'.
Proof. induction 1; simpl; lia. Qed.


Lemma analyze_developers_perm commits :
  Permutation (analyze_developers commits)
              (map (make_author_stats (length commits)) (fold_left group_step commits [])).
Proof. unfold analyze_developers. apply Permutation_sort_desc. Qed.

Lemma map_name_make n (d : list (string * AuthorAcc)) :
  map name (map (make_author_stats n) d) = map fst d.
Proof.
  rewrite map_map. apply map_ext. intros e. apply make_author_stats_fields.
Qed.

(** [analyze_developers] returns one entry per distinct author of the
    commits, the commit counts add up to the number of commits, and the
    entries are in non-increasing order of contribution percentage. *)
Theorem analyze_developers_authors commits :
  let stats := analyze_developers commits in
  NoDup (map name stats) /\
  (forall a, In a (map name stats) <-> In a (map author commits)) /\
  fold_right Z.add 0 (map commit_count stats) = Z.of_nat (length commits) /\
  Sorted (desc contribution_percentage) stats.
Proof.
  cbv zeta. pose proof (analyze_developers_perm commits) as P.
  destruct (group_inv_fold commits) as (Hnd & Hkeys & _ & Hsum).
  pose proof (Permutation_map name P) as Pn. rewrite map_name_make in Pn.
  split; [exact (Permutation_NoDup (Permutation_sym Pn) Hnd)|].
  split; [intros a; rewrite <- Hkeys; split; apply Permutation_in;
          [exact Pn | exact (Permutation_sym Pn)]|].
  split; [|apply Sorted_sort_desc].
  rewrite (Permutation_sum_Z _ _ (Permutation_map commit_count P)), <- Hsum.
  unfold dict_sum. rewrite map_map. f_equal. apply map_ext. intros e.
  apply make_author_stats_fields.
Qed.

(** Each entry of [analyze_developers] describes exactly the commits of
    its author: their number, the email of the first one, the summed line
    counts, and the earliest and latest commit dates. *)
Theorem analyze_developers_entries commits :
  Forall (fun s =>
    let mine := commits_of (name s) commits in
    commit_count s = Z.of_nat (length mine) /\ mine <> [] /\
    email s = match mine with c :: _ => author_email c | [] => EmptyString end /\
    total_lines_added s = fold_right Z.add 0 (map lines_added mine) /\
    total_lines_deleted s = fold_right Z.add 0 (map lines_deleted mine) /\
    exists f l, first_commit s = Some f /\ last_commit s = Some l /\
      Forall (fun c => f <= date c <= l) mine /\
      Exists (fun c => date c = f) mine /\ Exists (fun c => date c = l) mine)
    (analyze_developers commits).
Proof.
  apply Forall_forall. intros s Hs.
  apply (Permutation_in _ (analyze_developers_perm commits)), in_map_iff in Hs.
  destruct Hs as [[a st] [<- Hin]].
  destruct (group_inv_fold commits) as (_ & _ & Hent & _).
  destruct (Hent a st Hin) as (Hc & Hne & Ha & Hd & f & l & Hf & Hl & Hrest).
  destruct (make_author_stats_fields (length commits) (a, st))
    as (Hn & Hcc & He & Hta & Htd & Hfc & Hlc & _).
  cbn [fst snd] in *. rewrite Hn, Hcc, He, Hta, Htd, Hfc, Hlc, Hc.
  repeat split; auto. exists f, l. auto.
Qed.


(** *** Commit patterns *)

Lemma merge_fold cfg l f b r d m :
  snd (fold_left (count_step cfg) l (f, b, r, d, m))
  = m + Z.of_nat (length (filter is_merge l)).
Proof.
  revert f b r d m. induction l as [| c l IH]; intros f b r d m; cbn [fold_left filter].
  - simpl. lia.
  - rewrite count_step_eq, IH. destruct (is_merge c); cbn [length]; lia.
Qed.

Lemma min_date_le d l : min_date d l <= d /\ Forall (fun c => min_date d l <= date c) l.
Proof.
  unfold min_date. revert d. induction l as [| c l IH]; intros d; simpl.
  - split; [lia | constructor].
  - destruct (IH (Z.min d (date c))) as [H1 H2]. split; [lia | constructor; [lia | exact H2]].
Qed.

Lemma max_date_ge d l : d <= max_date d l.
Proof.
  unfold max_date. revert d. induction l as [| c l IH]; intros d; simpl; [lia|].
  specialize (IH (Z.max d (date c))). lia.
Qed.

(** For a non-empty commit list, [_analyze_commit_patterns] counts the
    merge commits, and its average number of commits per day is positive
    and at most the number of commits. *)
Theorem analyze_commit_patterns_merges_rate cfg commits :
  commits <> [] ->
  let P := _analyze_commit_patterns cfg commits in
  total_commits P = Z.of_nat (length commits) /\
  merge_commits P = Z.of_nat (length (filter is_merge commits)) /\
  (0 < average_commits_per_day P <= Qofnat (length commits))%Q.
Proof.
  intros Hne. cbv zeta. destruct commits as [| c0 rest]; [congruence|].
  pose proof (merge_fold cfg (c0 :: rest) 0 0 0 0 0) as Hm.
  unfold _analyze_commit_patterns.
  destruct (fold_left (count_step cfg) (c0 :: rest) (0, 0, 0, 0, 0))
    as [[[[f b] r] d] m] eqn:E.
  cbn [snd] in Hm.
  pose proof (max_date_ge (date c0) rest) as Hmax.
  pose proof (proj1 (min_date_le (date c0) rest)) as Hmin.
  set (lo := min_date (date c0) rest) in *. set (hi := max_date (date c0) rest) in *.
  cbn [total_commits merge_commits average_commits_per_day].
  split; [reflexivity|]. split; [exact Hm|].
  assert (Hd : 0 <= (hi - lo) / 86400) by (apply Z.div_pos; lia).
  set (n := length (c0 :: rest)).
  assert (Hn : (1 <= Qofnat n)%Q) by (unfold Qofnat, Qle; simpl; lia).
  assert (Hk : (1 <= QofZ (Z.max ((hi - lo) / 86400 + 1) 1))%Q)
    by (unfold QofZ, Qle; simpl; lia).
  split.
  - apply Qlt_shift_div_l; lra.
  - apply Qle_shift_div_r; [lra|].
    setoid_replace (Qofnat n) with (Qofnat n * 1)%Q at 1 by ring.
    apply Qmult_le_l; lra.
Qed.

(** *** Commit message quality *)

Definition message_score (c : CommitInfo) : Q :=
  let m := strip (message c) in
  let s := 0%Q in
  let s := if Nat.leb 10 (String.length m) then (s + (3 # 10))%Q else s in
  let s := if conventional_match m then (s + (4 # 10))%Q else s in
  let s := if contains (String newline EmptyString) m then (s + (3 # 10))%Q else s in
  s.

Lemma assess_commit_message_quality_eq commits :
  _assess_commit_message_quality commits =
  match commits with
  | [] => 0%Q
  | _ => (fold_left (fun acc c => acc + message_score c) commits 0 / Qofnat (length commits))%Q
  end.
Proof. destruct commits; reflexivity. Qed.

(** [_assess_commit_message_quality] is always between 0 and 1 (0 for no
    commits). *)
Theorem commit_message_quality_bounds commits :
  (0 <= _assess_commit_message_quality commits <= 1)%Q.
Proof.
  rewrite assess_commit_message_quality_eq.
  destruct commits as [| c cs]; [split; lra|].
  apply average_bounds; [discriminate|]. intros x _. unfold message_score. cbv zeta.
  destruct (Nat.leb 10 _), (conventional_match _), (contains _ _); split; lra.
Qed.

(** *** Most active days *)

(** [commit.date.strftime('%A')]. *)
Definition day_name (c : CommitInfo) : string :=
  nth (Z.to_nat (weekday (date c))) day_names "Sunday".

(** [day_counts[day_name] += 1] on the [Counter]. *)
Definition day_count_step (m : list (string * Z)) (c : CommitInfo) : list (string * Z) :=
  let d := day_name c in
  match dict_get String.eqb d m with
  | Some n => dict_set String.eqb d (n + 1) m
  | None => dict_set String.eqb d 1 m
  end.

Lemma find_most_active_days_eq commits :
  _find_most_active_days commits =
  map fst (firstn 3 (sort_desc (fun dc => QofZ (snd dc))
                      (fold_left day_count_step commits []))).
Proof. reflexivity. Qed.

Definition count_day (d : string) (l : list CommitInfo) : nat :=
  length (filter (fun c => String.eqb (day_name c) d) l).

Definition day_inv (pre : list CommitInfo) (m : list (string * Z)) : Prop :=
  NoDup (map fst m) /\
  (forall d, In d (map fst m) <-> In d (map day_name pre)) /\
  (forall d n, In (d, n) m -> n = Z.of_nat (count_day d pre)).

Lemma count_day_snoc d pre c :
  count_day d (app pre [c]) = (count_day d pre + if String.eqb (day_name c) d then 1 else 0)%nat.
Proof.
  unfold count_day. rewrite filter_app, length_app. simpl.
  destruct (String.eqb (day_name c) d); reflexivity.
Qed.

Lemma count_day_absent d pre : ~ In d (map day_name pre) -> count_day d pre = 0%nat.
Proof.
  unfold count_day. induction pre as [| c pre IH]; simpl; [reflexivity|].
  intros Hn. destruct (String.eqb (day_name c) d) eqn:E.
  - apply String.eqb_eq in E. exfalso; auto.
  - apply IH. auto.
Qed.

Lemma day_inv_step pre m c : day_inv pre m -> day_inv (app pre [c]) (day_count_step m c).
Proof.
  intros (Hnd & Hkeys & Hent). unfold day_count_step.
  destruct (dict_get String.eqb (day_name c) m) as [k|] eqn:Eg.
  - pose proof (dict_get_Some_In _ _ _ Eg) as Hin.
    pose proof (in_map fst _ _ Hin) as Hk. simpl in Hk.
    split; [rewrite dict_set_keys_In; auto|].
    split.
    { intros a. rewrite dict_set_keys_In by auto. rewrite Hkeys, map_app, in_app_iff.
      simpl. split; [tauto|]. intros [H | [<- | []]]; [exact H|]. apply Hkeys, Hk. }
    intros a n Hin'. rewrite count_day_snoc.
    destruct (dict_set_In_inv _ _ _ _ _ Hnd Hin') as [[-> ->] | [Hne Hin'']].
    + rewrite String.eqb_refl, (Hent _ _ Hin). lia.
    + apply String.eqb_neq in Hne. rewrite String.eqb_sym, Hne, (Hent _ _ Hin''). lia.
  - pose proof (dict_get_None_notin _ _ Eg) as Hn.
    unfold day_inv. rewrite dict_set_notin by exact Hn. rewrite map_app. simpl.
    assert (Hna : ~ In (day_name c) (map day_name pre)) by (rewrite <- Hkeys; exact Hn).
    split; [apply NoDup_app; [exact Hnd | repeat constructor; auto | intros x Hx [<- | []]; auto]|].
    split; [intros a; rewrite map_app, !in_app_iff, Hkeys; simpl; tauto|].
    intros a n Hin'. rewrite count_day_snoc. apply in_app_iff in Hin' as [Hin' | [[= <- <-] | []]].
    + destruct (String.eqb (day_name c) a) eqn:E.
      * apply String.eqb_eq in E as <-. exfalso. apply Hn, (in_map fst _ _ Hin').
      * rewrite (Hent _ _ Hin'). lia.
    + rewrite String.eqb_refl, count_day_absent by exact Hna. reflexivity.
Qed.

Lemma day_inv_fold commits : day_inv commits (fold_left day_count_step commits []).
Proof.
  assert (G : forall l pre m, day_inv pre m ->
            day_inv (app pre l) (fold_left day_count_step l m)).
  { induction l as [| c l IH]; intros pre m H; simpl.
    - rewrite app_nil_r. exact H.
    - replace (app pre (c :: l)) with (app (app pre [c]) l)
        by (rewrite <- app_assoc; reflexivity).
      apply IH, day_inv_step, H. }
  apply (G commits []). split; [constructor|]. split; [simpl; tauto | intros ? ? []].
Qed.

Lemma NoDup_firstn {A} n (l : list A) : NoDup l -> NoDup (firstn n l).
Proof.
  intros H. rewrite <- (firstn_skipn n l) in H. exact (NoDup_app_remove_r _ _ H).
Qed.

Lemma StronglySorted_app_rel {A} (R : A -> A -> Prop) l1 l2 :
  StronglySorted R (app l1 l2) -> forall x y, In x l1 -> In y l2 -> R x y.
Proof.
  induction l1 as [| a l1 IH]; simpl; [contradiction|].
  intros H x y [<- | Hx] Hy; apply StronglySorted_inv in H as [H1 H2].
  - rewrite Forall_forall in H2. apply H2, in_app_iff. right; exact Hy.
  - apply IH; assumption.
Qed.

(** [_find_most_active_days] returns at most three distinct day names,
    each the weekday of some commit, as many as there are distinct
    weekdays up to three, and no weekday left out has more commits than
    one returned. *)
Theorem find_most_active_days_spec commits :
  let r := _find_most_active_days commits in
  NoDup r /\
  length r = Nat.min 3 (length (nodup string_dec (map day_name commits))) /\
  (forall d, In d r -> In d (map day_name commits)) /\
  (forall d d', In d r -> In d' (map day_name commits) -> ~ In d' r ->
     (count_day d' commits <= count_day d commits)%nat).
Proof.
  cbv zeta. rewrite find_most_active_days_eq.
  destruct (day_inv_fold commits) as (Hnd & Hkeys & Hent).
  set (m := fold_left day_count_step commits []) in *.
  set (key := fun dc : string * Z => QofZ (snd dc)).
  pose proof (Permutation_sort_desc key m) as P.
  set (s := sort_desc key m) in *.
  assert (Hnds : NoDup (map fst s))
    by exact (Permutation_NoDup (Permutation_sym (Permutation_map fst P)) Hnd).
  assert (Hins : forall e, In e s <-> In e m)
    by (intros e; split; apply Permutation_in; [exact P | exact (Permutation_sym P)]).
  rewrite <- firstn_map.
  split; [apply NoDup_firstn, Hnds|].
  split.
  { rewrite length_firstn, length_map. f_equal.
    rewrite (Permutation_length P), <- (length_map fst m).
    apply Permutation_length, NoDup_Permutation; [exact Hnd | apply NoDup_nodup|].
    intros x. rewrite nodup_In. apply Hkeys. }
  assert (Hfs : forall x, In x (firstn 3 s) -> In x s)
    by (intros x Hx; rewrite <- (firstn_skipn 3 s); apply in_app_iff; left; exact Hx).
  split.
  { intros d Hd. rewrite firstn_map in Hd. apply in_map_iff in Hd as [e [<- He]].
    apply Hkeys, in_map, Hins, Hfs, He. }
  intros d d' Hd Hd' Hnot.
  rewrite firstn_map in Hd, Hnot. apply in_map_iff in Hd as [[d0 n] [Hd0 He]].
  cbn [fst] in Hd0. subst d0.
  apply Hkeys, in_map_iff in Hd' as [[d1 n'] [Hd1 He']]. cbn [fst] in Hd1. subst d1.
  assert (Hsk : In (d', n') (skipn 3 s)).
  { apply Hins in He'. rewrite <- (firstn_skipn 3 s) in He'.
    apply in_app_iff in He' as [H | H]; [|exact H].
    exfalso. apply Hnot, (in_map fst _ _ H). }
  assert (Htr : Transitive (desc key))
    by (intros x y z H1 H2; unfold desc in *; eapply Qle_trans; eassumption).
  pose proof (Sorted_StronglySorted Htr (Sorted_sort_desc key m)) as Hss.
  fold s in Hss. rewrite <- (firstn_skipn 3 s) in Hss.
  pose proof (StronglySorted_app_rel _ _ _ Hss _ _ He Hsk) as Hle.
  unfold desc, key in Hle. cbn [snd] in Hle. unfold QofZ in Hle. rewrite <- Zle_Qle in Hle.
  rewrite (Hent _ _ (proj1 (Hins _) (Hfs _ He))), (Hent _ _ He') in Hle. lia.
Qed.

(** *** Sample inputs *)

Definition sample_git_commit (a : string) (t : Z) (merge : bool) : CommitInfo := {|
  hash := "0"; author := a; author_email := "dev@example.com"; date := t;
  message := "feat: add parser"; files_changed := 2; lines_added := 40; lines_deleted := 5;
  is_merge := merge; branch := "main" |}.

Definition sample_git_commits : list CommitInfo :=
  [sample_git_commit "ann" 0 false; sample_git_commit "bob" 86400 true;
   sample_git_commit "ann" 259200 false].


Lemma analyze_commit_patterns_merges_rate_witness :
  sample_git_commits <> [] /\
  merge_commits (_analyze_commit_patterns default_git_config sample_git_commits)
  = Z.of_nat (length (filter is_merge sample_git_commits)).
Proof.
  split; [discriminate|].
  refine (proj1 (proj2 (analyze_commit_patterns_merges_rate default_git_config
                          sample_git_commits _))). discriminate.
Defined.

End GitAnalyzerExtraFacts.


(** * Further facts about [feature_mapper.py] *)

Module FeatureMapperExtraFacts.
Import Py PyFacts PyExtraFacts Config Git FeatureMapper FeatureMapperFacts.
Import GitAnalyzerExtraFacts.

Lemma dict_set_keys_iff {V} k (v : V) d x :
  In x (map fst (dict_set String.eqb k v d)) <-> x = k \/ In x (map fst d).
Proof.
  induction d as [| [k' v'] d IH]; simpl.
  - intuition.
  - destruct (String.eqb k k') eqn:E; simpl.
    + apply String.eqb_eq in E as ->.
      intuition congruence.
    + rewrite IH. tauto.
Qed.

Lemma dict_set_NoDup_str {V} k (v : V) d :
  NoDup (map fst d) -> NoDup (map fst (dict_set String.eqb k v d)).
Proof.
  induction d as [| [k' v'] d IH]; simpl; intros H.
  - repeat constructor. auto.
  - inversion H as [| ? ? Hn Hnd]; subst. destruct (String.eqb k k') eqn:E; simpl.
    + constructor; assumption.
    + constructor; [|apply IH, Hnd]. rewrite dict_set_keys_iff.
      apply String.eqb_neq in E. intros [-> | Hin]; [congruence | exact (Hn Hin)].
Qed.

(** *** Grouping into a [defaultdict(list)] *)

Section Grouping.
Context {A : Type} (kf : A -> string).

(** [groups[kf(x)].append(x)]. *)
Definition append_step (d : list (string * list A)) (x : A) : list (string * list A) :=
  match dict_get String.eqb (kf x) d with
  | Some l => dict_set String.eqb (kf x) (app l [x]) d
  | None => dict_set String.eqb (kf x) [x] d
  end.

Definition append_inv (pre : list A) (d : list (string * list A)) : Prop :=
  NoDup (map fst d) /\
  (forall k, In k (map fst d) <-> In k (map kf pre)) /\
  (forall k v, In (k, v) d -> v = filter (fun x => String.eqb (kf x) k) pre).

Lemma append_inv_step pre d x : append_inv pre d -> append_inv (app pre [x]) (append_step d x).
Proof.
  intros (Hnd & Hkeys & Hent).
  assert (Hf : forall k, filter (fun y => String.eqb (kf y) k) (app pre [x])
                = app (filter (fun y => String.eqb (kf y) k) pre)
                      (if String.eqb (kf x) k then [x] else []))
    by (intros k; rewrite filter_app; simpl; destruct (String.eqb (kf x) k); reflexivity).
  unfold append_step.
  destruct (dict_get String.eqb (kf x) d) as [l|] eqn:Eg.
  - pose proof (dict_get_Some_In _ _ _ Eg) as Hin.
    pose proof (in_map fst _ _ Hin) as Hk. simpl in Hk.
    split; [apply dict_set_NoDup_str, Hnd|].
    split.
    { intros k. rewrite dict_set_keys_iff, Hkeys, map_app, in_app_iff. simpl.
      split; [intros [-> | H]; [left; apply Hkeys, Hk | left; exact H] | intros [H | [H | []]]; [right; exact H | left; congruence]]. }
    intros k v Hin'. rewrite Hf.
    destruct (dict_set_In_inv _ _ _ _ _ Hnd Hin') as [[-> ->] | [Hne Hin'']].
    + rewrite String.eqb_refl, (Hent _ _ Hin). reflexivity.
    + apply String.eqb_neq in Hne. rewrite String.eqb_sym, Hne, app_nil_r.
      exact (Hent _ _ Hin'').
  - pose proof (dict_get_None_notin _ _ Eg) as Hn.
    assert (Hna : ~ In (kf x) (map kf pre)) by (rewrite <- Hkeys; exact Hn).
    split; [apply dict_set_NoDup_str, Hnd|].
    split.
    { intros k. rewrite dict_set_keys_iff, Hkeys, map_app, in_app_iff. simpl. intuition congruence. }
    intros k v Hin'. rewrite Hf.
    destruct (dict_set_In_inv _ _ _ _ _ Hnd Hin') as [[-> ->] | [Hne Hin'']].
    + rewrite String.eqb_refl.
      assert (E : filter (fun y => String.eqb (kf y) (kf x)) pre = []).
      { clear -Hna. induction pre as [| y pre IH]; simpl; [reflexivity|].
        simpl in Hna. destruct (String.eqb (kf y) (kf x)) eqn:E.
        - apply String.eqb_eq in E. exfalso; auto.
        - apply IH. auto. }
      rewrite E. reflexivity.
    + apply String.eqb_neq in Hne. rewrite String.eqb_sym, Hne, app_nil_r.
      exact (Hent _ _ Hin'').
Qed.

Lemma append_inv_fold l : append_inv l (fold_left append_step l []).
Proof.
  assert (G : forall l pre d, append_inv pre d ->
            append_inv (app pre l) (fold_left append_step l d)).
  { induction l0 as [| x l0 IH]; intros pre d H; simpl.
    - rewrite app_nil_r. exact H.
    - replace (app pre (x :: l0)) with (app (app pre [x]) l0)
        by (rewrite <- app_assoc; reflexivity).
      apply IH, append_inv_step, H. }
  apply (G l []). split; [constructor|]. split; [simpl; tauto | intros ? ? []].
Qed.

End Grouping.

(** *** [group_features] *)

Lemma make_groups_In gs fgs :
  make_groups gs = Some fgs ->
  map fg_name fgs = map fst gs /\
  (forall g, In g fgs -> In (fg_name g, fg_features g) gs).
Proof.
  revert fgs. induction gs as [| [n fs] gs IH]; intros fgs H; simpl in H.
  - injection H as <-. split; [reflexivity | intros _ []].
  - destruct (make_group n fs) as [g|] eqn:Eg; [|discriminate].
    destruct (make_groups gs) as [rest|]; [|discriminate].
    injection H as <-. destruct (IH rest eq_refl) as [H1 H2].
    unfold make_group in Eg. destruct (sum_complexity_scores fs); [|discriminate].
    injection Eg as <-. simpl. rewrite H1. split; [reflexivity|].
    intros g [<- | Hg]; [left; reflexivity | right; apply H2, Hg].
Qed.

(** When [group_features] succeeds, its groups have distinct names, one
    for each group some feature falls in; each group holds exactly the
    features of that group, in input order; and the groups come in
    non-increasing order of total hours. *)
Theorem group_features_partition features groups :
  group_features features = Some groups ->
  NoDup (map fg_name groups) /\
  (forall n, In n (map fg_name groups) <-> In n (map _determine_feature_group features)) /\
  Forall (fun g => fg_features g =
            filter (fun f => String.eqb (_determine_feature_group f) (fg_name g)) features)
         groups /\
  Sorted (desc total_hours) groups.
Proof.
  unfold group_features. intros H.
  destruct (make_groups (fold_left FeatureMapper.group_step features [])) as [fgs|] eqn:Em;
    [|discriminate].
  injection H as <-.
  assert (Eq : fold_left FeatureMapper.group_step features []
               = fold_left (append_step _determine_feature_group) features [])
    by reflexivity.
  rewrite Eq in Em.
  destruct (append_inv_fold _determine_feature_group features) as (Hnd & Hkeys & Hent).
  destruct (make_groups_In _ _ Em) as [Hn Hin].
  pose proof (Permutation_sort_desc total_hours fgs) as P.
  split; [apply (Permutation_NoDup (Permutation_sym (Permutation_map fg_name P)));
          rewrite Hn; exact Hnd|].
  split.
  { intros n. rewrite <- Hkeys, <- Hn.
    split; apply Permutation_in; [exact (Permutation_map fg_name P)
                                 | exact (Permutation_sym (Permutation_map fg_name P))]. }
  split; [|apply Sorted_sort_desc].
  apply Forall_forall. intros g Hg. apply (Permutation_in _ P) in Hg.
  apply Hent, Hin, Hg.
Qed.

(** *** [identify_features] *)

Definition keys_inv {V} (d : list (string * V)) (ks : list string) : Prop :=
  NoDup (map fst d) /\ forall n, In n (map fst d) <-> In n ks.

Lemma merge_first_fold (cf : list (string * FeatureData)) m :
  NoDup (map fst m) ->
  keys_inv (fold_left (fun m '(n, d) => dict_set String.eqb n d m) cf m)
           (app (map fst m) (map fst cf)).
Proof.
  revert m. induction cf as [| [n d] cf IH]; intros m Hm; simpl.
  - rewrite app_nil_r. split; [exact Hm | tauto].
  - destruct (IH (dict_set String.eqb n d m) (dict_set_NoDup_str _ _ _ Hm)) as [H1 H2].
    split; [exact H1|]. intros x. rewrite H2, !in_app_iff, dict_set_keys_iff. simpl.
    intuition congruence.
Qed.

Lemma merge_second_fold (df : list (string * FeatureData)) m :
  NoDup (map fst m) ->
  keys_inv (fold_left (fun m '(n, d) =>
              match dict_get String.eqb n m with
              | Some e => dict_set String.eqb n (fd_set_tags e (app (fd_tags e) (fd_tags d))) m
              | None => dict_set String.eqb n d m
              end) df m)
           (app (map fst m) (map fst df)).
Proof.
  revert m. induction df as [| [n d] df IH]; intros m Hm; simpl.
  - rewrite app_nil_r. split; [exact Hm | tauto].
  - match goal with |- context [fold_left ?f df ?m0] =>
      assert (Hk : NoDup (map fst m0) /\ forall x, In x (map fst m0) <-> x = n \/ In x (map fst m))
        by (destruct (dict_get String.eqb n m);
            (split; [apply dict_set_NoDup_str, Hm | intros x; apply dict_set_keys_iff]));
      destruct Hk as [Hk1 Hk2];
      destruct (IH m0 Hk1) as [H1 H2]
    end.
    split; [exact H1|]. intros x. rewrite H2, !in_app_iff, Hk2. simpl.
    intuition congruence.
Qed.

Lemma merge_features_keys cf df :
  keys_inv (_merge_features cf df) (app (map fst cf) (map fst df)).
Proof.
  unfold _merge_features.
  destruct (merge_first_fold cf [] (NoDup_nil _)) as [H1 H2].
  destruct (merge_second_fold df _ H1) as [H3 H4].
  split; [exact H3|]. intros x. rewrite H4, !in_app_iff, H2. simpl. tauto.
Qed.

(** [identify_features] returns features with distinct names, exactly
    the names found in the commits or in the directory structure, in
    non-increasing order of estimated hours. *)
Theorem identify_features_names c extract commits directories :
  let fs := identify_features c extract commits directories in
  NoDup (map name fs) /\
  (forall n, In n (map name fs) <->
     In n (map fst (extract commits)) \/
     In n (map fst (_extract_features_from_structure directories))) /\
  Sorted (desc estimated_hours) fs.
Proof.
  cbv zeta. unfold identify_features.
  set (all := _merge_features (extract commits) (_extract_features_from_structure directories)).
  destruct (merge_features_keys (extract commits) (_extract_features_from_structure directories))
    as [Hnd Hkeys]. fold all in Hnd, Hkeys.
  set (fs := map (fun '(n, d) => _create_feature_object c n d commits) all).
  assert (Hn : map name fs = map fst all).
  { subst fs. rewrite map_map. apply map_ext. intros [n d]. reflexivity. }
  pose proof (Permutation_map name (Permutation_sort_desc estimated_hours fs)) as P.
  split; [apply (Permutation_NoDup (Permutation_sym P)); rewrite Hn; exact Hnd|].
  split; [|apply Sorted_sort_desc].
  intros n. rewrite <- in_app_iff, <- Hkeys, <- Hn.
  split; apply Permutation_in; [exact P | exact (Permutation_sym P)].
Qed.

(** *** [_extract_features_from_structure] *)

(** [_extract_features_from_structure] makes one entry per distinct
    non-empty name extracted from a feature directory, and no other; each
    entry has no commits, no changed lines, no dates and the single tag
    [structure-based]. *)
Theorem extract_features_from_structure_spec directories :
  let r := _extract_features_from_structure directories in
  NoDup (map fst r) /\
  (forall n, In n (map fst r) <->
     exists dir, In dir directories /\ _is_feature_directory dir = true /\
                 _extract_feature_name_from_directory dir = n /\ n <> EmptyString) /\
  Forall (fun e => fd_commits (snd e) = [] /\ fd_lines_changed (snd e) = 0 /\
                   fd_start_date (snd e) = None /\ fd_end_date (snd e) = None /\
                   fd_tags (snd e) = ["structure-based"]) r.
Proof.
  cbv zeta. unfold _extract_features_from_structure.
  set (P := fun e : string * FeatureData =>
              fd_commits (snd e) = [] /\ fd_lines_changed (snd e) = 0 /\
              fd_start_date (snd e) = None /\ fd_end_date (snd e) = None /\
              fd_tags (snd e) = ["structure-based"]).
  assert (G : forall dirs m, NoDup (map fst m) -> Forall P m ->
    let r := fold_left (fun features directory =>
      if _is_feature_directory directory then
        let feature_name := _extract_feature_name_from_directory directory in
        match feature_name with
        | EmptyString => features
        | _ => dict_set String.eqb feature_name
                 {| fd_commits := []; fd_lines_changed := 0;
                    fd_start_date := None; fd_end_date := None;
                    fd_tags := ["structure-based"]; fd_dependencies := None |}
                 features
        end
      else features) dirs m in
    NoDup (map fst r) /\
    (forall n, In n (map fst r) <-> In n (map fst m) \/
       exists dir, In dir dirs /\ _is_feature_directory dir = true /\
                   _extract_feature_name_from_directory dir = n /\ n <> EmptyString) /\
    Forall P r).
  { induction dirs as [| dir dirs IH]; intros m Hnd HP; cbv zeta; simpl.
    - split; [exact Hnd|]. split; [|exact HP]. intros n. split; [tauto|].
      intros [H | [? [[] _]]]; exact H.
    - destruct (_is_feature_directory dir) eqn:Ef.
      + destruct (_extract_feature_name_from_directory dir) as [| a s] eqn:En.
        * destruct (IH m Hnd HP) as (H1 & H2 & H3). split; [exact H1|]. split; [|exact H3].
          intros n. rewrite H2. split.
          -- intros [H | [d0 (Hd & Hf & Hn & Hne)]]; [left; exact H|].
             right. exists d0. auto.
          -- intros [H | [d0 ([<- | Hd] & Hf & Hn & Hne)]]; [left; exact H | | ].
             ++ exfalso. rewrite En in Hn. congruence.
             ++ right. exists d0. auto.
        * match goal with |- context [fold_left ?f dirs (dict_set String.eqb ?k ?v m)] =>
            assert (HP' : Forall P (dict_set String.eqb k v m))
              by (apply (dict_set_Forall String.eqb (fun d => P ("", d))); [|repeat split];
                  eapply Forall_impl; [|exact HP]; intros [? ?]; exact (fun h => h));
            destruct (IH _ (dict_set_NoDup_str k v m Hnd) HP') as (H1 & H2 & H3)
          end.
          split; [exact H1|]. split; [|exact H3].
          intros n. rewrite H2, dict_set_keys_iff. split.
          -- intros [[-> | H] | [d0 (Hd & Hf & Hn & Hne)]].
             ++ right. exists dir. rewrite En. split; [left; reflexivity|]. split; [exact Ef|].
                split; [reflexivity | discriminate].
             ++ left; exact H.
             ++ right. exists d0. auto.
          -- intros [H | [d0 ([<- | Hd] & Hf & Hn & Hne)]].
             ++ left; right; exact H.
             ++ left; left. rewrite <- Hn, En. reflexivity.
             ++ right. exists d0. auto.
      + destruct (IH m Hnd HP) as (H1 & H2 & H3). split; [exact H1|]. split; [|exact H3].
        intros n. rewrite H2. split.
        * intros [H | [d0 (Hd & Hf & Hn & Hne)]]; [left; exact H|].
          right. exists d0. auto.
        * intros [H | [d0 ([<- | Hd] & Hf & Hn & Hne)]]; [left; exact H | congruence |].
          right. exists d0. auto. }
  destruct (G directories [] (NoDup_nil _) (Forall_nil _)) as (H1 & H2 & H3).
  split; [exact H1|]. split; [|exact H3].
  intros n. rewrite H2. simpl. tauto.
Qed.

(** *** Attributes of the identified features *)

Lemma feature_confidence_bounds d :
  (1 # 2 <= _calculate_feature_confidence d <= 1)%Q.
Proof.
  unfold _calculate_feature_confidence. cbv zeta.
  destruct (fd_commits d), (fd_start_date d), (fd_end_date d), (Z.ltb 0 (fd_lines_changed d)),
    (fd_tags d); cbv [Qle_bool Qplus Qle Qnum Qden]; simpl; lia.
Qed.

Lemma business_value_cases n d :
  _determine_business_value n d = "High" \/ _determine_business_value n d = "Medium".
Proof.
  unfold _determine_business_value.
  destruct (any_in _ _); [left | right]; [reflexivity|]. destruct (any_in _ _); reflexivity.
Qed.

(** Every feature of [identify_features] has a confidence between 0.5 and
    1, a business value of High or Medium (never Critical, Low or
    Minimal), and a priority equal to its business value. *)
Theorem identify_features_attributes c extract commits directories :
  Forall (fun f => (1 # 2 <= confidence f <= 1)%Q /\
                   (business_value f = "High" \/ business_value f = "Medium") /\
                   priority f = business_value f)
         (identify_features c extract commits directories).
Proof.
  apply Forall_forall. intros f Hf.
  unfold identify_features in Hf. apply In_sort_desc in Hf.
  apply in_map_iff in Hf. destruct Hf as [[n d] [<- _]].
  change (confidence (_create_feature_object c n d commits)) with (_calculate_feature_confidence d).
  change (business_value (_create_feature_object c n d commits)) with (_determine_business_value n d).
  change (priority (_create_feature_object c n d commits)) with (_determine_priority n d).
  split; [apply feature_confidence_bounds|]. split; [apply business_value_cases|].
  unfold _determine_priority.
  destruct (business_value_cases n d) as [-> | ->]; reflexivity.
Qed.

(** *** [_determine_group_business_impact] *)

Lemma impact_fold fs v a :
  Forall (fun f => business_value f = v) fs ->
  fold_left (fun acc f => acc + impact_score (business_value f)) fs a
  = a + Z.of_nat (length fs) * impact_score v.
Proof.
  revert a. induction fs as [| f fs IH]; intros a H; cbn [fold_left length]; [lia|].
  inversion H as [| ? ? Hf Hfs]; subst. rewrite IH by exact Hfs. rewrite Nat2Z.inj_succ. lia.
Qed.

Lemma Qle_bool_compat a x y : (x == y)%Q -> Qle_bool a x = Qle_bool a y.
Proof.
  intros H. apply Bool.eq_iff_eq_true. rewrite !Qle_bool_iff, H. reflexivity.
Qed.

(** A group whose features all have the same known business value gets
    that value as its business impact. *)
Theorem group_business_impact_uniform features v :
  features <> [] ->
  Forall (fun f => business_value f = v) features ->
  In v ["Critical"; "High"; "Medium"; "Low"; "Minimal"] ->
  _determine_group_business_impact features = v.
Proof.
  intros Hne Hall Hv. unfold _determine_group_business_impact.
  destruct features as [| f0 fs] eqn:Ef; [congruence|]. rewrite <- Ef in *.
  cbv zeta. rewrite (impact_fold _ _ _ Hall).
  assert (Hn : (0 < Z.of_nat (length features))) by (subst; simpl; lia).
  assert (Havg : (QofZ (0 + Z.of_nat (length features) * impact_score v)
                  / Qofnat (length features) == inject_Z (impact_score v))%Q).
  { unfold QofZ, Qofnat. rewrite Z.add_0_l, inject_Z_mult. field.
    intros H. unfold Qeq in H. cbn [Qnum Qden inject_Z] in H. lia. }
  rewrite !(Qle_bool_compat _ _ _ Havg).
  destruct Hv as [<- | [<- | [<- | [<- | [<- | []]]]]]; reflexivity.
Qed.

(** *** Sample inputs *)

Lemma group_features_partition_witness :
  exists groups, group_features [feature_low_risk; feature_high_risk] = Some groups /\
                 NoDup (map fg_name groups).
Proof.
  destruct (group_features [feature_low_risk; feature_high_risk]) as [gs|] eqn:E.
  - exists gs. split; [reflexivity|]. exact (proj1 (group_features_partition _ _ E)).
  - vm_compute in E. discriminate.
Defined.

Lemma group_business_impact_uniform_witness :
  [feature_low_risk; feature_low_risk] <> [] /\
  Forall (fun f => business_value f = "High") [feature_low_risk; feature_low_risk] /\
  In "High" ["Critical"; "High"; "Medium"; "Low"; "Minimal"] /\
  _determine_group_business_impact [feature_low_risk; feature_low_risk] = "High".
Proof.
  split; [discriminate|]. split; [repeat constructor|]. split; [simpl; tauto|].
  apply group_business_impact_uniform; [discriminate | repeat constructor | simpl; tauto].
Defined.

End FeatureMapperExtraFacts.


(** * Further facts about [config.py] *)

Module ConfigExtraFacts.
Import Py PyFacts PyExtraFacts Config FeatureMapperFacts.

(** [get_complexity_level] never gives a lower level for more lines of
    code or more commits (low < medium < high). *)
Theorem get_complexity_level_monotone c loc1 loc2 n1 n2 :
  loc1 <= loc2 -> n1 <= n2 ->
  (tier (get_complexity_level c loc1 n1) <= tier (get_complexity_level c loc2 n2))%nat.
Proof.
  intros Hl Hn. unfold get_complexity_level.
  destruct (Z.leb_spec loc2 (LOW_COMPLEXITY_LOC c)), (Z.leb_spec n2 (LOW_COMPLEXITY_COMMITS c));
  destruct (Z.leb_spec loc1 (LOW_COMPLEXITY_LOC c)), (Z.leb_spec n1 (LOW_COMPLEXITY_COMMITS c));
  destruct (Z.leb_spec loc2 (MEDIUM_COMPLEXITY_LOC c)), (Z.leb_spec n2 (MEDIUM_COMPLEXITY_COMMITS c));
  destruct (Z.leb_spec loc1 (MEDIUM_COMPLEXITY_LOC c)), (Z.leb_spec n1 (MEDIUM_COMPLEXITY_COMMITS c));
  cbn [andb tier]; try lia; vm_compute; lia.
Qed.

Lemma get_complexity_level_monotone_witness :
  100 <= 600 /\ 2 <= 9 /\
  (tier (get_complexity_level default_thresholds 100 2)
   <= tier (get_complexity_level default_thresholds 600 9))%nat.
Proof.
  split; [lia|]. split; [lia|].
  apply get_complexity_level_monotone; lia.
Defined.

(** *** [get_confidence_score] *)

Definition sample_factor (n : Z) : Q :=
  if Z.leb 100 n then 1 else if Z.leb 50 n then 9 # 10
  else if Z.leb 20 n then 8 # 10 else if Z.leb 10 n then 7 # 10 else 5 # 10.

Lemma get_confidence_score_eq dq n :
  get_confidence_score dq n = pymin (dq * sample_factor n)%Q 1.
Proof.
  unfold get_confidence_score, sample_factor. cbv zeta.
  destruct (Z.leb 100 n), (Z.leb 50 n), (Z.leb 20 n), (Z.leb 10 n); reflexivity.
Qed.

Lemma sample_factor_mono n1 n2 : n1 <= n2 -> (sample_factor n1 <= sample_factor n2)%Q.
Proof.
  intros H. unfold sample_factor.
  destruct (Z.leb_spec 100 n2), (Z.leb_spec 50 n2), (Z.leb_spec 20 n2), (Z.leb_spec 10 n2);
  destruct (Z.leb_spec 100 n1), (Z.leb_spec 50 n1), (Z.leb_spec 20 n1), (Z.leb_spec 10 n1);
  try lia; unfold Qle; simpl; lia.
Qed.

Lemma sample_factor_bounds n : (0 <= sample_factor n <= 1)%Q.
Proof.
  unfold sample_factor.
  destruct (Z.leb 100 n), (Z.leb 50 n), (Z.leb 20 n), (Z.leb 10 n); split; unfold Qle; simpl; lia.
Qed.

Lemma pymin_mono a b c : (a <= b)%Q -> (pymin a c <= pymin b c)%Q.
Proof.
  intros H. unfold pymin.
  destruct (Qlt_bool c a) eqn:E1, (Qlt_bool c b) eqn:E2;
  try apply Qlt_bool_true in E1; try apply Qlt_bool_true in E2;
  try apply Qlt_bool_false in E1; try apply Qlt_bool_false in E2; lra.
Qed.

(** For a data quality of at least 0, [get_confidence_score] is between 0
    and 1, and a larger sample never lowers it. *)
Theorem get_confidence_score_bounds_monotone dq n1 n2 :
  (0 <= dq)%Q -> n1 <= n2 ->
  (0 <= get_confidence_score dq n1 <= 1)%Q /\
  (get_confidence_score dq n1 <= get_confidence_score dq n2)%Q.
Proof.
  intros Hq Hn. rewrite !get_confidence_score_eq.
  destruct (sample_factor_bounds n1) as [F1 F2].
  split; [split; [apply pymin_glb; [apply Qmult_le_0_compat; assumption | lra] | apply pymin_le_r]|].
  apply pymin_mono. rewrite (Qmult_comm dq (sample_factor n1)), (Qmult_comm dq (sample_factor n2)).
  apply Qmult_le_compat_r; [apply sample_factor_mono, Hn | exact Hq].
Qed.

Lemma get_confidence_score_bounds_monotone_witness :
  (0 <= 9 # 10)%Q /\ 15 <= 60 /\
  (get_confidence_score (9 # 10) 15 <= get_confidence_score (9 # 10) 60)%Q.
Proof.
  split; [unfold Qle; simpl; lia|]. split; [lia|].
  apply (get_confidence_score_bounds_monotone (9 # 10) 15 60); [unfold Qle; simpl; lia | lia].
Defined.

(** *** [get_time_estimate] *)

Lemma round_half_even_floor x :
  Qfloor x <= round_half_even x <= Qfloor x + 1.
Proof.
  unfold round_half_even.
  destruct (Qcompare _ _); [destruct (Z.even _) | |]; lia.
Qed.

Lemma round_half_even_mono x y : (x <= y)%Q -> round_half_even x <= round_half_even y.
Proof.
  intros H. pose proof (Qfloor_resp_le x y H) as Hf.
  pose proof (round_half_even_floor x) as Hx. pose proof (round_half_even_floor y) as Hy.
  destruct (Z.eq_dec (Qfloor x) (Qfloor y)) as [E | E]; [|lia].
  unfold round_half_even. rewrite <- E.
  assert (Hd : (x - inject_Z (Qfloor x) <= y - inject_Z (Qfloor x))%Q) by lra.
  destruct (Qcompare (x - inject_Z (Qfloor x)) (1 # 2)) eqn:Cx;
  destruct (Qcompare (y - inject_Z (Qfloor x)) (1 # 2)) eqn:Cy;
  first [apply Qeq_alt in Cx | apply Qlt_alt in Cx | apply Qgt_alt in Cx];
  first [apply Qeq_alt in Cy | apply Qlt_alt in Cy | apply Qgt_alt in Cy];
  destruct (Z.even (Qfloor x)); try lia; exfalso; lra.
Qed.

Lemma round1_mono x y : (x <= y)%Q -> (round1 x <= round1 y)%Q.
Proof.
  intros H. unfold round1.
  assert (H' : round_half_even (x * 10) <= round_half_even (y * 10))
    by (apply round_half_even_mono; lra).
  unfold Qle; simpl. lia.
Qed.

(** With non-negative multipliers and buffer, [get_time_estimate] never
    gives fewer hours for more commits. *)
Theorem get_time_estimate_monotone c cx n1 n2 :
  (0 <= LOW_COMPLEXITY_MULTIPLIER c)%Q -> (0 <= MEDIUM_COMPLEXITY_MULTIPLIER c)%Q ->
  (0 <= HIGH_COMPLEXITY_MULTIPLIER c)%Q -> (0 <= TOTAL_BUFFER c)%Q ->
  n1 <= n2 ->
  (get_time_estimate c cx n1 <= get_time_estimate c cx n2)%Q.
Proof.
  intros Hl Hm Hh Hb Hn. unfold get_time_estimate. cbv zeta. apply round1_mono.
  set (mult := if String.eqb cx "low" then LOW_COMPLEXITY_MULTIPLIER c
               else if String.eqb cx "medium" then MEDIUM_COMPLEXITY_MULTIPLIER c
               else if String.eqb cx "high" then HIGH_COMPLEXITY_MULTIPLIER c
               else 3%Q).
  assert (Hmult : (0 <= mult)%Q)
    by (subst mult; destruct (String.eqb cx "low"), (String.eqb cx "medium"),
          (String.eqb cx "high"); lra).
  assert (Hq : (QofZ n1 <= QofZ n2)%Q) by (unfold QofZ; rewrite <- Zle_Qle; exact Hn).
  apply Qmult_le_compat_r; [|lra].
  rewrite (Qmult_comm mult (QofZ n1)), (Qmult_comm mult (QofZ n2)).
  apply Qmult_le_compat_r; assumption.
Qed.

Lemma get_time_estimate_monotone_witness :
  (0 <= LOW_COMPLEXITY_MULTIPLIER default_thresholds)%Q /\
  (0 <= MEDIUM_COMPLEXITY_MULTIPLIER default_thresholds)%Q /\
  (0 <= HIGH_COMPLEXITY_MULTIPLIER default_thresholds)%Q /\
  (0 <= TOTAL_BUFFER default_thresholds)%Q /\ 4 <= 7 /\
  (get_time_estimate default_thresholds "medium" 4
   <= get_time_estimate default_thresholds "medium" 7)%Q.
Proof.
  split; [vm_compute; discriminate|]. split; [vm_compute; discriminate|].
  split; [vm_compute; discriminate|]. split; [vm_compute; discriminate|].
  split; [lia|].
  apply get_time_estimate_monotone; [vm_compute; discriminate .. | lia].
Defined.

End ConfigExtraFacts.
